(** * OpenBBox: capture pipeline, unified-diff parser and temporal matcher

    A shallow embedding of the Python sources

      - [src/core/models.py]          (FileDiff, Intent, Execution, SourceMeta, PulseNode)
      - [src/adapters/base.py]        (RawConversation)
      - [src/core/diff_parser.py]     (parse_unified_diff)
      - [src/adapters/git_observer.py] (GitDiffCapture, FileChangeEvent)
      - [src/core/matcher.py]         (TemporalMatcher)
      - [src/adapters/pty_wrapper.py] (PTYWrapper)

    Conventions of the embedding.

      - A Python [str] is a [string]: the UTF-8 bytes of the text.  Every
        operation below is exact on ASCII text; bytes above 127 are never
        white space and have no case.
      - A [datetime] is a [Z], the number of microseconds since the epoch
        (the resolution of [datetime]); a [timedelta] is a [Z] as well.
      - A Python [float] is a rational number in [Q]: the arithmetic of the
        scores is exact, without the rounding of binary floating point.
      - A Python [set] of strings is a duplicate-free list.
      - An exception is a value of [exn]; code that may raise returns a
        [result]. *)

From Stdlib Require Import String Ascii List ZArith QArith Qabs Qminmax Lia Lqa Bool Arith
  DecimalString Sorted.
Import ListNotations.

Close Scope Q_scope.
Open Scope nat_scope.
Open Scope string_scope.

(* ================================================================== *)
(** ** Python strings *)

Module Py.

(** [str.isspace] on one character: TAB, LF, VT, FF, CR, the four
    separators 0x1C..0x1F and the space. *)
Definition isspace (c : ascii) : bool :=
  let n := nat_of_ascii c in
  (((9 <=? n) && (n <=? 13)) || ((28 <=? n) && (n <=? 32)))%nat.

Definition isupper (c : ascii) : bool :=
  let n := nat_of_ascii c in ((65 <=? n) && (n <=? 90))%nat.

Definition islower (c : ascii) : bool :=
  let n := nat_of_ascii c in ((97 <=? n) && (n <=? 122))%nat.

Definition isdigit (c : ascii) : bool :=
  let n := nat_of_ascii c in ((48 <=? n) && (n <=? 57))%nat.

Definition lower_char (c : ascii) : ascii :=
  if isupper c then ascii_of_nat (nat_of_ascii c + 32) else c.

Definition upper_char (c : ascii) : ascii :=
  if islower c then ascii_of_nat (nat_of_ascii c - 32) else c.

Fixpoint lower (s : string) : string :=
  match s with
  | EmptyString => EmptyString
  | String c s' => String (lower_char c) (lower s')
  end.

(** [s.lstrip()], [s.rstrip()], [s.strip()] *)
Fixpoint lstrip (s : string) : string :=
  match s with
  | EmptyString => EmptyString
  | String c s' => if isspace c then lstrip s' else s
  end.

Fixpoint rstrip (s : string) : string :=
  match s with
  | EmptyString => EmptyString
  | String c s' =>
      match rstrip s' with
      | EmptyString => if isspace c then EmptyString else String c EmptyString
      | r => String c r
      end
  end.

Definition strip (s : string) : string := rstrip (lstrip s).

(** Truth value of a string and of a list: non-empty. *)
Definition truthy (s : string) : bool :=
  match s with EmptyString => false | _ => true end.

Definition nonempty {A} (l : list A) : bool :=
  match l with [] => false | _ => true end.

(** [s.startswith(p)] *)
Definition startswith (s p : string) : bool := String.prefix p s.

(** [c in s] for a one-character [c]. *)
Fixpoint contains_char (c : ascii) (s : string) : bool :=
  match s with
  | EmptyString => false
  | String d s' => Ascii.eqb c d || contains_char c s'
  end.

(** [s[:n]] and [s[n:]] for [n >= 0]. *)
Definition take (n : nat) (s : string) : string := substring 0 n s.

Fixpoint drop (n : nat) (s : string) : string :=
  match n, s with
  | O, _ => s
  | S _, EmptyString => EmptyString
  | S k, String _ s' => drop k s'
  end.

Definition LF : ascii := ascii_of_nat 10.
Definition CR : ascii := ascii_of_nat 13.
Definition ESC : ascii := ascii_of_nat 27.
Definition BEL : ascii := ascii_of_nat 7.

(** [s.split(c)] for a one-character separator. *)
Fixpoint split_char (sep : ascii) (s : string) : list string :=
  match s with
  | EmptyString => [EmptyString]
  | String c s' =>
      if Ascii.eqb c sep then EmptyString :: split_char sep s'
      else match split_char sep s' with
           | l :: ls => String c l :: ls
           | [] => [String c EmptyString]
           end
  end.

(** [s.split(sep)] for a non-empty separator string; [skip] counts the
    characters of a separator that is being stepped over. *)
Fixpoint split_str_from (sep : string) (skip : nat) (s : string) : list string :=
  match s with
  | EmptyString => [EmptyString]
  | String c s' =>
      match skip with
      | S k => split_str_from sep k s'
      | O =>
          if String.prefix sep s
          then EmptyString :: split_str_from sep (String.length sep - 1) s'
          else match split_str_from sep 0 s' with
               | l :: ls => String c l :: ls
               | [] => [String c EmptyString]
               end
      end
  end.

Definition split_str (sep s : string) : list string := split_str_from sep 0 s.

(** [sep.join(l)] *)
Definition join (sep : string) (l : list string) : string := String.concat sep l.

Definition mem (x : string) (l : list string) : bool :=
  existsb (String.eqb x) l.

(** [set(l)] as a duplicate-free list, [a & b], [a - b] and [len]. *)
Definition set_of (l : list string) : list string := nodup string_dec l.

Definition inter (a b : list string) : list string :=
  filter (fun x => mem x b) a.

Definition diff (a b : list string) : list string :=
  filter (fun x => negb (mem x b)) a.

End Py.

(* ================================================================== *)
(** ** The fragment of Python's [re] the sources use

    A backtracking matcher in continuation-passing style: alternatives
    are tried left to right, a greedy star tries one more iteration
    before it gives up, a lazy star the other way round; this is the
    order in which [re] explores matches, so the first match found is
    the one [re] reports. *)

Module Re.

Inductive regex : Type :=
| Eps
| Chr (p : ascii -> bool)
| Seq (r1 r2 : regex)
| Alt (r1 r2 : regex)
| Star (greedy : bool) (r : regex)
| Group (r : regex)
| Eos.

(** Captures are collected in the order in which the groups are closed. *)
Fixpoint rmatch {A : Type} (r : regex) (s : string) (caps : list string)
  (k : string -> list string -> option A) {struct r} : option A :=
  match r with
  | Eps => k s caps
  | Chr p =>
      match s with
      | String c s' => if p c then k s' caps else None
      | EmptyString => None
      end
  | Seq r1 r2 => rmatch r1 s caps (fun s' caps' => rmatch r2 s' caps' k)
  | Alt r1 r2 =>
      match rmatch r1 s caps k with
      | Some x => Some x
      | None => rmatch r2 s caps k
      end
  | Star g r1 =>
      (fix loop (n : nat) (s : string) (caps : list string) {struct n} : option A :=
         let more :=
           match n with
           | O => None
           | S n' =>
               rmatch r1 s caps
                 (fun s' caps' =>
                    if (String.length s' <? String.length s)%nat
                    then loop n' s' caps' else None)
           end in
         if g
         then match more with Some x => Some x | None => k s caps end
         else match k s caps with Some x => Some x | None => more end)
        (String.length s) s caps
  | Group r1 =>
      rmatch r1 s caps
        (fun s' caps' =>
           k s' (caps' ++ [substring 0 (String.length s - String.length s') s])%list)
  | Eos =>
      match s with
      | EmptyString => k s caps
      | String c EmptyString => if Ascii.eqb c Py.LF then k s caps else None
      | _ => None
      end
  end.

(** A match anchored at the start of [s]: the captures and the rest. *)
Definition match_here (r : regex) (s : string) : option (list string * string) :=
  rmatch r s [] (fun s' caps => Some (caps, s')).

(** Pattern combinators. *)
Definition chr (c : ascii) : regex := Chr (Ascii.eqb c).

Fixpoint lit (s : string) : regex :=
  match s with
  | EmptyString => Eps
  | String c EmptyString => chr c
  | String c s' => Seq (chr c) (lit s')
  end.

(** A literal under [re.IGNORECASE]. *)
Fixpoint lit_i (s : string) : regex :=
  match s with
  | EmptyString => Eps
  | String c s' =>
      Seq (Chr (fun d => Ascii.eqb (Py.lower_char d) (Py.lower_char c))) (lit_i s')
  end.

Definition opt (r : regex) : regex := Alt r Eps.
Definition plus (r : regex) : regex := Seq r (Star true r).

(** [r{0,n}], greedy. *)
Fixpoint upto (n : nat) (r : regex) : regex :=
  match n with
  | O => Eps
  | S k => Alt (Seq r (upto k r)) Eps
  end.

Definition any_char : regex := Chr (fun _ => true).
Definition dot : regex := Chr (fun c => negb (Ascii.eqb c Py.LF)).
Definition space : regex := Chr Py.isspace.

(** [re.search(r, s)]: the leftmost match, as (text before, captures,
    matched text, text after). *)
Fixpoint search_from (r : regex) (before : string) (s : string)
  : option (string * list string * string * string) :=
  match match_here r s with
  | Some (caps, rest) =>
      Some (before, caps, substring 0 (String.length s - String.length rest) s, rest)
  | None =>
      match s with
      | EmptyString => None
      | String c s' => search_from r (before ++ String c EmptyString) s'
      end
  end.

Definition search (r : regex) (s : string) := search_from r EmptyString s.

(** [re.search(r, s).group(1)] *)
Definition search_group1 (r : regex) (s : string) : option string :=
  match search r s with
  | Some (_, g :: _, _, _) => Some g
  | _ => None
  end.

(** [re.sub(r, repl, s)] for a plain replacement text; [skip] counts the
    characters of a match that is being stepped over. *)
Fixpoint sub_from (r : regex) (repl : string) (skip : nat) (s : string) : string :=
  match s with
  | EmptyString =>
      match skip with
      | S _ => EmptyString
      | O => match match_here r s with Some _ => repl | None => EmptyString end
      end
  | String c s' =>
      match skip with
      | S k => sub_from r repl k s'
      | O =>
          match match_here r s with
          | Some (_, rest) =>
              match String.length s - String.length rest with
              | O => repl ++ String c (sub_from r repl 0 s')
              | S k => repl ++ sub_from r repl k s'
              end
          | None => String c (sub_from r repl 0 s')
          end
      end
  end.

Definition sub (r : regex) (repl s : string) : string := sub_from r repl 0 s.

(** [re.findall(r, s)] for a pattern without groups. *)
Fixpoint findall_from (r : regex) (skip : nat) (s : string) : list string :=
  match s with
  | EmptyString => []
  | String c s' =>
      match skip with
      | S k => findall_from r k s'
      | O =>
          match match_here r s with
          | Some (_, rest) =>
              match String.length s - String.length rest with
              | O => findall_from r 0 s'
              | S k => substring 0 (S k) s :: findall_from r k s'
              end
          | None => findall_from r 0 s'
          end
      end
  end.

Definition findall (r : regex) (s : string) : list string := findall_from r 0 s.

End Re.

(* ================================================================== *)
(** ** Exceptions *)

(** The exception classes the sources name, and [OtherException] for every
    class that is none of them nor one of their subclasses. *)
Inductive exn : Type :=
| ODBError
| GitError
| InvalidGitRepositoryError
| GitCommandNotFound
| GitCommandError          (* a subclass of GitError *)
| OSError
| IndexError
| BufferError
| TypeError
| ValueError
| AttributeError
| OtherException (cls : string).

Inductive result (A : Type) : Type :=
| Ok (a : A)
| Raise (e : exn).

Arguments Ok {A} a.
Arguments Raise {A} e.

Definition bind {A B : Type} (m : result A) (f : A -> result B) : result B :=
  match m with
  | Ok a => f a
  | Raise e => Raise e
  end.

Notation "x <- m ;; k" := (bind m (fun x => k))
  (at level 61, m at next level, right associativity).

(** [try: body except classes: handler] *)
Definition try_except {A : Type} (body : result A) (classes : exn -> bool)
  (handler : exn -> result A) : result A :=
  match body with
  | Ok a => Ok a
  | Raise e => if classes e then handler e else Raise e
  end.

Definition raises {A : Type} (m : result A) : Prop :=
  exists e, m = Raise e.

(* ================================================================== *)
(** ** [core/models.py] *)

Module Models.

Inductive SourceIDE : Type :=
| CURSOR | TRAE | CLAUDECODE | VSCODE | WINDSURF | CODEX | KIRO | CLINE | AIDER | UNKNOWN.

Inductive NodeStatus : Type := PENDING | COMPLETED | FAILED.

Record FileDiff : Type := {
  file_path : string;
  hunk : string;
  change_type : string
}.

Record Intent : Type := {
  raw_prompt : string;
  clean_title : string;
  context_files : list string
}.

Record Execution : Type := {
  ai_response : string;
  reasoning : string;
  diffs : list FileDiff;
  affected_files : list string
}.

Record SourceMeta : Type := {
  ide : SourceIDE;
  model_name : string;
  session_id : string
}.

Record PulseNode : Type := {
  id : string;
  timestamp : Z;
  project_id : string;
  project_name : string;
  source : SourceMeta;
  intent : Intent;
  execution : Execution;
  status : NodeStatus;
  token_usage : Z
}.

End Models.

(* ================================================================== *)
(** ** [adapters/base.py]: RawConversation *)

Module Base.

Record RawConversation : Type := {
  timestamp : Z;
  prompt : string;
  response : string;
  model_name : string;
  session_id : string;
  context_files : option (list string);
  project_name : string;
  project_path : string
}.

(** [</?user_query>\s*] *)
Definition re_user_query_ws : Re.regex :=
  Re.Seq (Re.lit "<") (Re.Seq (Re.opt (Re.lit "/"))
    (Re.Seq (Re.lit "user_query>") (Re.Star true Re.space))).

(** [</?system_reminder>.*?</system_reminder>] under [re.DOTALL] *)
Definition re_system_reminder_block : Re.regex :=
  Re.Seq (Re.lit "<") (Re.Seq (Re.opt (Re.lit "/"))
    (Re.Seq (Re.lit "system_reminder>")
       (Re.Seq (Re.Star false Re.any_char) (Re.lit "</system_reminder>")))).

(** [__post_init__] *)
Definition post_init (c : RawConversation) : RawConversation :=
  let p1 := Py.strip (Re.sub re_user_query_ws "" (prompt c)) in
  let p2 := Py.strip (Re.sub re_system_reminder_block "" p1) in
  let r1 := Py.strip (Re.sub re_system_reminder_block "" (response c)) in
  {| timestamp := timestamp c; prompt := p2; response := r1;
     model_name := model_name c; session_id := session_id c;
     context_files := context_files c;
     project_name := project_name c; project_path := project_path c |}.

(** [RawConversation(timestamp=t, prompt=p, response=r)]: the other fields
    take their defaults, then [__post_init__] runs. *)
Definition make (t : Z) (p r : string) : RawConversation :=
  post_init {| timestamp := t; prompt := p; response := r;
               model_name := ""; session_id := "";
               context_files := None;
               project_name := ""; project_path := "" |}.

End Base.

(* ================================================================== *)
(** ** The unified-diff parser

    [core/diff_parser.py] and [adapters/git_observer.py] each carry a copy
    of the same line scanner; the copies differ in how the path is taken
    from the boundary line and in the prefix that marks a rename.  The
    scanner is written once, over these two choices. *)

Module DiffParser.
Import Models.

Record dialect : Type := {
  extract_path : string -> string;
  is_rename : string -> bool
}.

Definition is_boundary (line : string) : bool := Py.startswith line "diff --git".
Definition is_new_file (line : string) : bool := Py.startswith line "new file".
Definition is_deleted_file (line : string) : bool := Py.startswith line "deleted file".

(** [line.startswith(("@@", "+", "-", " "))] *)
Definition is_hunk_line (line : string) : bool :=
  Py.startswith line "@@" || Py.startswith line "+"
  || Py.startswith line "-" || Py.startswith line " ".

(** The local variables of the scanning loop. *)
Record pstate : Type := {
  results : list FileDiff;
  current_file : string;
  current_lines : list string;
  cur_change_type : string
}.

Definition init : pstate :=
  {| results := []; current_file := ""; current_lines := [];
     cur_change_type := "modified" |}.

(** [if current_file and current_lines: results.append(FileDiff(...))] *)
Definition close_file (st : pstate) : list FileDiff :=
  if Py.truthy (current_file st) && Py.nonempty (current_lines st)
  then (results st ++ [ {| file_path := current_file st;
                           hunk := Py.join (String Py.LF "") (current_lines st);
                           change_type := cur_change_type st |} ])%list
  else results st.

Definition set_change_type (st : pstate) (k : string) : pstate :=
  {| results := results st; current_file := current_file st;
     current_lines := current_lines st; cur_change_type := k |}.

(** One iteration of [for line in raw_diff.split("\n")]. *)
Definition step (D : dialect) (st : pstate) (line : string) : pstate :=
  if is_boundary line then
    {| results := close_file st;
       current_file := extract_path D line;
       current_lines := [];
       cur_change_type := "modified" |}
  else if is_new_file line then set_change_type st "added"
  else if is_deleted_file line then set_change_type st "deleted"
  else if is_rename D line then set_change_type st "renamed"
  else if is_hunk_line line && Py.truthy (current_file st) then
    {| results := results st; current_file := current_file st;
       current_lines := (current_lines st ++ [line])%list;
       cur_change_type := cur_change_type st |}
  else st.

Definition run (D : dialect) (st : pstate) (lines : list string) : pstate :=
  fold_left (step D) lines st.

Definition parse_lines (D : dialect) (lines : list string) : list FileDiff :=
  close_file (run D init lines).

Definition lines_of (raw_diff : string) : list string :=
  Py.split_char Py.LF raw_diff.

Definition parse (D : dialect) (raw_diff : string) : list FileDiff :=
  if negb (Py.truthy raw_diff) || negb (Py.truthy (Py.strip raw_diff))
  then []
  else parse_lines D (lines_of raw_diff).

(** [re.search(r"b/(.+)$", line)] *)
Definition re_b_path : Re.regex :=
  Re.Seq (Re.lit "b/") (Re.Seq (Re.Group (Re.plus Re.dot)) Re.Eos).

(** [core/diff_parser.py] *)
Definition core : dialect :=
  {| extract_path := fun line =>
       match Re.search_group1 re_b_path line with
       | Some g => g
       | None => ""
       end;
     is_rename := fun line => Py.startswith line "rename from" |}.

Definition parse_unified_diff (raw_diff : string) : list FileDiff :=
  parse core raw_diff.

(** [line.split(" b/", 1)]: the text before and after the first [" b/"]. *)
Fixpoint split_once (sep : string) (s : string) : option (string * string) :=
  if String.prefix sep s then Some ("", Py.drop (String.length sep) s)
  else match s with
       | EmptyString => None
       | String c s' =>
           match split_once sep s' with
           | Some (a, b) => Some (String c a, b)
           | None => None
           end
       end.

(** [GitDiffCapture._parse_unified_diff] of [adapters/git_observer.py] *)
Definition observer : dialect :=
  {| extract_path := fun line =>
       match split_once " b/" line with
       | Some (_, p) => p
       | None => ""
       end;
     is_rename := fun line => Py.startswith line "rename" |}.

Definition _parse_unified_diff (raw_diff : string) : list FileDiff :=
  if negb (Py.truthy (Py.strip raw_diff)) then []
  else parse_lines observer (lines_of raw_diff).

(** *** The scan read as the spec words it: file sections

    A section is a boundary line with the lines up to the next boundary.
    [sections_from] returns the lines before the first boundary and the
    sections after it. *)
Fixpoint sections_from (lines : list string) : list string * list (string * list string) :=
  match lines with
  | [] => ([], [])
  | l :: ls =>
      let '(pre, secs) := sections_from ls in
      if is_boundary l then ([], (l, pre) :: secs) else (l :: pre, secs)
  end.

Definition sections (lines : list string) : list (string * list string) :=
  snd (sections_from lines).

(** The lines of a section body that reach the hunk buffer when a file is
    open, and the kind the body's marker lines leave. *)
Definition appended (D : dialect) (line : string) : bool :=
  negb (is_new_file line) && negb (is_deleted_file line)
  && negb (is_rename D line) && is_hunk_line line.

Definition hunk_lines (D : dialect) (body : list string) : list string :=
  filter (appended D) body.

Definition kind_step (D : dialect) (k : string) (line : string) : string :=
  if is_new_file line then "added"
  else if is_deleted_file line then "deleted"
  else if is_rename D line then "renamed"
  else k.

Definition kind_of (D : dialect) (body : list string) : string :=
  fold_left (kind_step D) body "modified".

Definition emit_section (D : dialect) (sec : string * list string) : list FileDiff :=
  let '(marker, body) := sec in
  if Py.truthy (extract_path D marker) && Py.nonempty (hunk_lines D body)
  then [ {| file_path := extract_path D marker;
            hunk := Py.join (String Py.LF "") (hunk_lines D body);
            change_type := kind_of D body |} ]
  else [].

Definition spec_parse (D : dialect) (raw_diff : string) : list FileDiff :=
  flat_map (emit_section D) (sections (lines_of raw_diff)).

End DiffParser.

(* ================================================================== *)
(** ** [adapters/git_observer.py]: GitDiffCapture and FileChangeEvent *)

Module GitObserver.
Import Models.

(** What GitPython answers for one repository.  [git_diff args] is
    [repo.git.diff] called on the arguments [args], its output decoded
    with errors replaced;
    [iter_commits b] lists the commits reachable from branch [b]. *)
Record Repo : Type := {
  active_branch : result string;
  iter_commits : string -> result (list string);
  git_diff : list string -> result string;
  untracked_files : result (list string)
}.

(** A [GitDiffCapture] object: [git_module] tells whether [import git]
    succeeded when the module was loaded, [open_repo] is what
    [git.Repo(repo_path, ...)] gives. *)
Record GitDiffCapture : Type := {
  git_module : bool;
  open_repo : result Repo
}.

(** The tuple [GIT_ERRORS]: nine classes (and their subclasses) when
    GitPython is there, [(Exception,)] when it is not. *)
Definition GIT_ERRORS (git_present : bool) (e : exn) : bool :=
  if git_present then
    match e with
    | ODBError | GitError | InvalidGitRepositoryError | GitCommandNotFound
    | GitCommandError | OSError | IndexError | BufferError | TypeError
    | ValueError => true
    | AttributeError | OtherException _ => false
    end
  else true.

(** The [repo] property; without GitPython [git] is [None] and
    [git.Repo] raises AttributeError. *)
Definition repo (self : GitDiffCapture) : result Repo :=
  if git_module self then open_repo self else Raise AttributeError.

Definition _has_commits (self : GitDiffCapture) : result bool :=
  try_except
    (r <- repo self ;;
     b <- active_branch r ;;
     r' <- repo self ;;
     cs <- iter_commits r' b ;;
     Ok (Py.nonempty cs))
    (fun e => match e with TypeError => true | _ => GIT_ERRORS (git_module self) e end)
    (fun _ => Ok false).

Definition nonblank (f : string) : bool := Py.truthy (Py.strip f).

(** [sorted] on strings. *)
Fixpoint insert_sorted (x : string) (l : list string) : list string :=
  match l with
  | [] => [x]
  | y :: ys => if String.leb x y then x :: l else y :: insert_sorted x ys
  end.

Definition sorted (l : list string) : list string :=
  fold_right insert_sorted [] l.

(** [s.splitlines()] over the ASCII line boundaries. *)
Definition is_linebreak (c : ascii) : bool :=
  let n := nat_of_ascii c in
  (((10 <=? n) && (n <=? 13)) || ((28 <=? n) && (n <=? 30)))%nat.

Fixpoint splitlines_from (cur : string) (s : string) : list string :=
  match s with
  | EmptyString => if Py.truthy cur then [cur] else []
  | String c s' =>
      if Ascii.eqb c Py.CR then
        match s' with
        | String d s'' =>
            if Ascii.eqb d Py.LF then cur :: splitlines_from EmptyString s''
            else cur :: splitlines_from EmptyString s'
        | EmptyString => [cur]
        end
      else if is_linebreak c then cur :: splitlines_from EmptyString s'
      else splitlines_from (cur ++ String c EmptyString) s'
  end.

Definition splitlines (s : string) : list string := splitlines_from "" s.

Definition get_dirty_files (self : GitDiffCapture) : result (list string) :=
  try_except
    (r1 <- repo self ;;
     staged_out <- git_diff r1 ["--name-only"; "--cached"] ;;
     let staged := splitlines staged_out in
     let dirty1 := filter nonblank staged in
     r2 <- repo self ;;
     unstaged_out <- git_diff r2 ["--name-only"] ;;
     let unstaged := splitlines unstaged_out in
     let dirty2 := (dirty1 ++ filter nonblank unstaged)%list in
     r3 <- repo self ;;
     untracked <- untracked_files r3 ;;
     let dirty3 := (dirty2 ++ untracked)%list in
     Ok (sorted (Py.set_of dirty3)))
    (GIT_ERRORS (git_module self))
    (fun _ => Ok []).

Definition get_combined_diff (self : GitDiffCapture) (file_paths : option (list string))
  : result (list FileDiff) :=
  try_except
    (let fnames := match file_paths with Some l => l | None => [] end in
     hc <- _has_commits self ;;
     raw_diff <-
       (if hc : bool then
          let args := if Py.nonempty fnames then ("HEAD" :: "--" :: fnames) else ["HEAD"] in
          r <- repo self ;;
          git_diff r args
        else
          let cached_args :=
            if Py.nonempty fnames then ("--cached" :: "--" :: fnames) else ["--cached"] in
          let wd_args := if Py.nonempty fnames then ("--" :: fnames) else [] in
          r <- repo self ;;
          staged <- git_diff r cached_args ;;
          unstaged <-
            (if Py.nonempty wd_args
             then (r' <- repo self ;; git_diff r' wd_args)
             else Ok "") ;;
          Ok (staged ++ String Py.LF "" ++ unstaged)) ;;
     Ok (DiffParser._parse_unified_diff raw_diff))
    (GIT_ERRORS (git_module self))
    (fun _ => Ok []).

Definition get_unstaged_diff (self : GitDiffCapture) : result (list FileDiff) :=
  try_except
    (r <- repo self ;;
     raw <- git_diff r [] ;;
     Ok (DiffParser._parse_unified_diff raw))
    (GIT_ERRORS (git_module self))
    (fun _ => Ok []).

Definition get_staged_diff (self : GitDiffCapture) : result (list FileDiff) :=
  try_except
    (r <- repo self ;;
     raw <- git_diff r ["--cached"] ;;
     Ok (DiffParser._parse_unified_diff raw))
    (GIT_ERRORS (git_module self))
    (fun _ => Ok []).

Record FileChangeEvent : Type := {
  file_path : string;
  change_type : string;
  timestamp : Z
}.

End GitObserver.

(* ================================================================== *)
(** ** [core/matcher.py]: TemporalMatcher *)

Module Matcher.
Import Models.

Definition DEFAULT_WINDOW_SECONDS : Z := 90.

(** Scoring weights 0.5, 0.3 and 0.2 *)
Definition ALPHA_TIME : Q := 1 # 2.
Definition BETA_FILE : Q := 3 # 10.
Definition GAMMA_KEYWORD : Q := 1 # 5.

(** [timedelta(seconds=n)] and [d.total_seconds()] *)
Definition seconds (n : Z) : Z := (n * 1000000)%Z.
Definition total_seconds (d : Z) : Q := d # 1000000.

Definition pending : Type :=
  (Base.RawConversation * SourceIDE * string * string)%type.

Record TemporalMatcher : Type := {
  window : Z;
  _pending_prompts : list pending;
  _file_changes : list GitObserver.FileChangeEvent
}.

Definition __init__ (window_seconds : Z) : TemporalMatcher :=
  {| window := seconds window_seconds; _pending_prompts := []; _file_changes := [] |}.

(** [a or b] on strings *)
Definition or_else (a b : string) : string := if Py.truthy a then a else b.

Definition add_prompt (self : TemporalMatcher) (conversation : Base.RawConversation)
  (source_ide : SourceIDE) (project_id project_name : string) : TemporalMatcher :=
  let effective_name := or_else (Base.project_name conversation) project_name in
  let effective_id :=
    or_else (Base.project_path conversation) (or_else project_id effective_name) in
  {| window := window self;
     _pending_prompts :=
       (_pending_prompts self
          ++ [(conversation, source_ide, effective_id, effective_name)])%list;
     _file_changes := _file_changes self |}.

Definition add_file_change (self : TemporalMatcher) (event : GitObserver.FileChangeEvent)
  : TemporalMatcher :=
  {| window := window self;
     _pending_prompts := _pending_prompts self;
     _file_changes := (_file_changes self ++ [event])%list |}.

Definition in_window (prompt_time window_end : Z) (c : GitObserver.FileChangeEvent) : bool :=
  ((prompt_time <=? GitObserver.timestamp c) && (GitObserver.timestamp c <=? window_end))%Z.

Definition _find_changes_in_window (self : TemporalMatcher) (prompt_time : Z)
  : list GitObserver.FileChangeEvent :=
  let window_end := (prompt_time + window self)%Z in
  filter (in_window prompt_time window_end) (_file_changes self).

(** [Path(f).name] for a POSIX path: the last component, where empty
    components and ["."] do not count. *)
Definition path_name (f : string) : string :=
  let parts :=
    filter (fun p => Py.truthy p && negb (String.eqb p "."))
           (Py.split_char "/" f) in
  last parts "".

(** [[a-zA-Z_][a-zA-Z0-9_]{2,}] *)
Definition ident_start (c : ascii) : bool :=
  Py.islower c || Py.isupper c || Ascii.eqb c "_".
Definition ident_char (c : ascii) : bool :=
  Py.islower c || Py.isupper c || Py.isdigit c || Ascii.eqb c "_".
Definition re_identifier : Re.regex :=
  Re.Seq (Re.Chr ident_start)
    (Re.Seq (Re.Chr ident_char) (Re.Seq (Re.Chr ident_char) (Re.Star true (Re.Chr ident_char)))).

Definition noise : list string :=
  [ "the"; "and"; "for"; "with"; "this"; "that"; "from"; "import";
    "def"; "class"; "return"; "self"; "None"; "True"; "False";
    "async"; "await"; "function"; "const"; "let"; "var" ].

Definition _extract_keywords (text : string) : list string :=
  let words := Py.set_of (Re.findall re_identifier text) in
  Py.diff words noise.

(** [min] of a non-empty sequence of numbers. *)
Fixpoint min_from (x : Q) (xs : list Q) : Q :=
  match xs with
  | [] => x
  | y :: ys => min_from (Qmin x y) ys
  end.

Definition delta_seconds (convo : Base.RawConversation) (c : GitObserver.FileChangeEvent) : Q :=
  Qabs (total_seconds (GitObserver.timestamp c - Base.timestamp convo)).

Definition ratio (overlap size : nat) : Q :=
  (inject_Z (Z.of_nat overlap) / inject_Z (Z.of_nat (Nat.max size 1)))%Q.

Definition context_list (convo : Base.RawConversation) : list string :=
  match Base.context_files convo with Some l => l | None => [] end.

Definition _calculate_match_score (convo : Base.RawConversation)
  (diffs : list FileDiff) (changes : list GitObserver.FileChangeEvent) : Q :=
  if negb (Py.nonempty diffs) && negb (Py.nonempty changes) then 0%Q
  else
    let time_score :=
      match map (delta_seconds convo) changes with
      | [] => 0%Q
      | d :: ds =>
          let min_delta := min_from d ds in
          (1 / (1 + min_delta / 10))%Q
      end in
    let file_score :=
      if Py.nonempty (context_list convo) && Py.nonempty diffs then
        let context_set :=
          Py.set_of (map path_name (filter Py.truthy (context_list convo))) in
        let diff_set :=
          Py.set_of (map path_name (filter Py.truthy (map file_path diffs))) in
        if Py.nonempty context_set && Py.nonempty diff_set then
          let overlap := length (Py.inter context_set diff_set) in
          ratio overlap (length context_set)
        else 0%Q
      else 0%Q in
    let keyword_score :=
      let prompt_words := _extract_keywords (Base.prompt convo) in
      if Py.nonempty prompt_words && Py.nonempty diffs then
        let diff_text := Py.join " " (filter Py.truthy (map hunk diffs)) in
        let diff_words := _extract_keywords diff_text in
        if Py.nonempty diff_words then
          let overlap := length (Py.inter prompt_words diff_words) in
          ratio overlap (length prompt_words)
        else 0%Q
      else 0%Q in
    (ALPHA_TIME * time_score + BETA_FILE * file_score + GAMMA_KEYWORD * keyword_score)%Q.

(** [</?user_query>], [</?system_reminder>], [<[^>]{1,30}>] and [\s+] *)
Definition re_tag (name : string) : Re.regex :=
  Re.Seq (Re.lit "<") (Re.Seq (Re.opt (Re.lit "/")) (Re.lit (name ++ ">"))).
Definition not_gt : Re.regex := Re.Chr (fun c => negb (Ascii.eqb c ">")).
Definition re_short_tag : Re.regex :=
  Re.Seq (Re.lit "<") (Re.Seq (Re.Seq not_gt (Re.upto 29 not_gt)) (Re.lit ">")).
Definition re_spaces : Re.regex := Re.plus Re.space.

Definition filler_prefixes : list string :=
  [ "please "; "help me "; "can you "; "i want to "; "i need to ";
    "请"; "帮我"; "你能"; "我想"; "我需要"; "你好 "; "嗨 " ].

(** The [for prefix in ...: if ...: ...; break] loop. *)
Fixpoint strip_filler (prefixes : list string) (clean : string) : string :=
  match prefixes with
  | [] => clean
  | prefix :: rest =>
      if Py.startswith (Py.lower clean) prefix
      then Py.drop (String.length prefix) clean
      else strip_filler rest clean
  end.

Definition _generate_clean_title (prompt : string) : string :=
  let clean := Py.strip prompt in
  let clean := Re.sub (re_tag "user_query") "" clean in
  let clean := Re.sub (re_tag "system_reminder") "" clean in
  let clean := Re.sub re_short_tag "" clean in
  let clean := Py.strip (Re.sub re_spaces " " clean) in
  let clean := strip_filler filler_prefixes clean in
  let clean := Py.strip clean in
  let clean :=
    match clean with
    | EmptyString => clean
    | String c rest => String (Py.upper_char c) rest
    end in
  if (80 <? String.length clean)%nat then Py.take 77 clean ++ "..." else clean.

(** [\[Thinking:?\s*(.*?)\]] under [re.DOTALL | re.IGNORECASE] *)
Definition re_thinking : Re.regex :=
  Re.Seq (Re.lit_i "[thinking")
    (Re.Seq (Re.opt (Re.lit ":"))
       (Re.Seq (Re.Star true Re.space)
          (Re.Seq (Re.Group (Re.Star false Re.any_char)) (Re.lit "]")))).

Definition code_prefixes : list string :=
  [ "```"; "import "; "from "; "def "; "class " ].

Fixpoint first_paragraph (paragraphs : list string) : option string :=
  match paragraphs with
  | [] => None
  | para :: rest =>
      let para := Py.strip para in
      if (30 <? String.length para)%nat
         && negb (existsb (Py.startswith para) code_prefixes)
      then Some (Py.take 500 para)
      else first_paragraph rest
  end.

Definition _extract_reasoning (response : string) : string :=
  if negb (Py.truthy response) then ""
  else
    let clean := Py.strip response in
    match Re.search_group1 re_thinking clean with
    | Some g => Py.take 500 (Py.strip g)
    | None =>
        match first_paragraph (Py.split_str (String Py.LF (String Py.LF "")) clean) with
        | Some para => para
        | None => if (500 <? String.length clean)%nat then Py.take 500 clean else clean
        end
    end.

(** Steps 2 and 3 of the loop body: the diffs attributed to one prompt. *)
Definition acquire_diffs (git_capture : option GitObserver.GitDiffCapture)
  (matched_changes : list GitObserver.FileChangeEvent) : result (list FileDiff) :=
  diffs <-
    match git_capture with
    | Some gc =>
        d <- GitObserver.get_combined_diff gc None ;;
        if negb (Py.nonempty d) then GitObserver.get_unstaged_diff gc else Ok d
    | None => Ok []
    end ;;
  if negb (Py.nonempty diffs) && Py.nonempty matched_changes
  then Ok (map (fun c => {| file_path := GitObserver.file_path c;
                            hunk := "";
                            change_type := GitObserver.change_type c |})
               matched_changes)
  else Ok diffs.

(** The body of [for convo, source_ide, project_id, project_name in
    self._pending_prompts]: the node that is appended, together with the
    value of the local variable [score], which the loop computes and no
    field of the node receives.  [node_id] is the uuid4 the PulseNode draws
    for its [id].  [affected_files] lists a set, whose iteration order
    Python leaves open; here it is the order [Py.set_of] gives. *)
Definition flush_body (self : TemporalMatcher)
  (git_capture : option GitObserver.GitDiffCapture) (node_id : string) (p : pending)
  : result (PulseNode * Q) :=
  let '(convo, source_ide, project_id, project_name) := p in
  let matched_changes := _find_changes_in_window self (Base.timestamp convo) in
  diffs <- acquire_diffs git_capture matched_changes ;;
  let score := _calculate_match_score convo diffs matched_changes in
  let affected_files := Py.set_of (map file_path diffs) in
  let clean_title := _generate_clean_title (Base.prompt convo) in
  let reasoning := _extract_reasoning (Base.response convo) in
  Ok ({| id := node_id;
         timestamp := Base.timestamp convo;
         project_id := project_id;
         project_name := project_name;
         source := {| ide := source_ide;
                      model_name := Base.model_name convo;
                      session_id := Base.session_id convo |};
         intent := {| raw_prompt := Base.prompt convo;
                      clean_title := clean_title;
                      context_files := context_list convo |};
         execution := {| ai_response := Base.response convo;
                         reasoning := reasoning;
                         diffs := diffs;
                         affected_files := affected_files |};
         status := COMPLETED;
         token_usage := 0%Z |}, score).

Fixpoint flush_loop (self : TemporalMatcher)
  (git_capture : option GitObserver.GitDiffCapture) (uuid4 : nat -> string)
  (n : nat) (prompts : list pending) : result (list (PulseNode * Q)) :=
  match prompts with
  | [] => Ok []
  | p :: rest =>
      x <- flush_body self git_capture (uuid4 n) p ;;
      xs <- flush_loop self git_capture uuid4 (S n) rest ;;
      Ok (x :: xs)
  end.

(** [flush]: the returned nodes (or the exception that escapes) and the
    matcher afterwards; [now] is [datetime.utcnow()].  An exception leaves
    the loop before the queue is cleared. *)
Definition flush (self : TemporalMatcher) (now : Z)
  (git_capture : option GitObserver.GitDiffCapture) (uuid4 : nat -> string)
  : result (list PulseNode) * TemporalMatcher :=
  match flush_loop self git_capture uuid4 0 (_pending_prompts self) with
  | Raise e => (Raise e, self)
  | Ok out =>
      let cutoff := (now - window self * 2)%Z in
      (Ok (map fst out),
       {| window := window self;
          _pending_prompts := [];
          _file_changes :=
            filter (fun c => (cutoff <? GitObserver.timestamp c)%Z) (_file_changes self) |})
  end.

(** The values the local [score] takes during [flush], in queue order. *)
Definition flush_scores (self : TemporalMatcher)
  (git_capture : option GitObserver.GitDiffCapture) (uuid4 : nat -> string)
  : result (list Q) :=
  out <- flush_loop self git_capture uuid4 0 (_pending_prompts self) ;;
  Ok (map snd out).

End Matcher.

(* ================================================================== *)
(** ** [adapters/pty_wrapper.py]: PTYWrapper

    The capture side of the relay loop.  The bytes read from the terminal
    and from the child arrive here already decoded
    ([data.decode] with errors replaced); the callback [on_exchange] is
    taken not to raise, and the conversations handed to it are the output
    of each operation. *)

Module PTYWrapper.

Record PTYWrapper : Type := {
  on_exchange : bool;               (* a callback was given *)
  _output_buffer : string;
  _current_prompt : string;
  _last_prompt_time : option Z
}.

Definition __init__ (callback : bool) : PTYWrapper :=
  {| on_exchange := callback; _output_buffer := "";
     _current_prompt := ""; _last_prompt_time := None |}.

(** [\x1b\[[0-9;]*[a-zA-Z]] and [\x1b\][^\x07]*\x07] *)
Definition re_csi : Re.regex :=
  Re.Seq (Re.chr Py.ESC)
    (Re.Seq (Re.lit "[")
       (Re.Seq (Re.Star true (Re.Chr (fun c => Py.isdigit c || Ascii.eqb c ";")))
               (Re.Chr (fun c => Py.islower c || Py.isupper c)))).

Definition re_osc : Re.regex :=
  Re.Seq (Re.chr Py.ESC)
    (Re.Seq (Re.lit "]")
       (Re.Seq (Re.Star true (Re.Chr (fun c => negb (Ascii.eqb c Py.BEL))))
               (Re.chr Py.BEL))).

Definition _process_output (self : PTYWrapper) (text : string) : PTYWrapper :=
  let clean := Re.sub re_csi "" text in
  let clean := Re.sub re_osc "" clean in
  {| on_exchange := on_exchange self;
     _output_buffer := _output_buffer self ++ clean;
     _current_prompt := _current_prompt self;
     _last_prompt_time := _last_prompt_time self |}.

(** [_flush_pending]; [now] is [datetime.utcnow()]. *)
Definition _flush_pending (self : PTYWrapper) (now : Z)
  : PTYWrapper * list Base.RawConversation :=
  if Py.truthy (_current_prompt self) && Py.truthy (Py.strip (_output_buffer self)) then
    let response := Py.strip (_output_buffer self) in
    let emitted :=
      if (20 <? String.length response)%nat then
        let convo :=
          Base.make
            (match _last_prompt_time self with Some t => t | None => now end)
            (_current_prompt self) response in
        if on_exchange self then [convo] else []
      else [] in
    ({| on_exchange := on_exchange self;
        _output_buffer := "";
        _current_prompt := "";
        _last_prompt_time := _last_prompt_time self |}, emitted)
  else (self, []).

Definition has_line_terminator (text : string) : bool :=
  Py.contains_char Py.CR text || Py.contains_char Py.LF text.

Definition _process_input (self : PTYWrapper) (text : string) (now : Z)
  : PTYWrapper * list Base.RawConversation :=
  if has_line_terminator text then
    let buf := _output_buffer self in
    if Py.truthy (Py.strip buf) then
      let '(self1, emitted) := _flush_pending self now in
      ({| on_exchange := on_exchange self1;
          _output_buffer := "";
          _current_prompt := Py.strip buf;
          _last_prompt_time := Some now |}, emitted)
    else (self, [])
  else (self, []).

(** What the relay loop and [start] feed to the capture side. *)
Inductive event : Type :=
| UserInput (text : string) (now : Z)     (* os.read(stdin_fd) *)
| ChildOutput (text : string)             (* os.read(master_fd) *)
| ChildExit (now : Z).                    (* the [finally] of [start] *)

Definition handle (self : PTYWrapper) (ev : event)
  : PTYWrapper * list Base.RawConversation :=
  match ev with
  | UserInput text now => _process_input self text now
  | ChildOutput text => (_process_output self text, [])
  | ChildExit now => _flush_pending self now
  end.

Fixpoint relay (self : PTYWrapper) (evs : list event)
  : PTYWrapper * list Base.RawConversation :=
  match evs with
  | [] => (self, [])
  | ev :: rest =>
      let '(self1, out1) := handle self ev in
      let '(self2, out2) := relay self1 rest in
      (self2, (out1 ++ out2)%list)
  end.

End PTYWrapper.

(* ================================================================== *)
(** ** Auxiliary notions used by the statements *)

Module Aux.

(** Every character of [s] is white space. *)
Fixpoint all_space (s : string) : bool :=
  match s with
  | EmptyString => true
  | String c s' => Py.isspace c && all_space s'
  end.

(** [s] contains no line feed. *)
Definition no_LF (s : string) : bool := negb (Py.contains_char Py.LF s).

(** An old/new file header line of a unified diff. *)
Definition header_line (line : string) : bool :=
  Py.startswith line "---" || Py.startswith line "+++".

End Aux.

(** Sample diff texts. *)
Module Samples.

Definition NL : string := String Py.LF "".

(** A boundary line that names no path, followed by one added line. *)
Definition pathless_diff : string := "diff --git" ++ NL ++ "+x".

(** Two one-file diffs; the first does not end with a line break. *)
Definition diff_x : string := "diff --git a/x b/x" ++ NL ++ "+a".
Definition diff_y : string := "diff --git a/y b/y" ++ NL ++ "+b".

(** A section whose only hunk-prefixed lines are the file headers. *)
Definition headers_only_diff : string :=
  "diff --git a/f b/f" ++ NL ++ "old mode 100644" ++ NL ++ "new mode 100755" ++ NL
  ++ "--- a/f" ++ NL ++ "+++ b/f".

End Samples.

(** ** Repository-layer errors *)

Module Errors.
Import GitObserver.

(** [m] raises nothing but exceptions of the classes [P]. *)
Definition only_raises {A : Type} (P : exn -> bool) (m : result A) : Prop :=
  forall e, m = Raise e -> P e = true.

(** Every exception that opening the repository or one of its queries
    raises belongs to [GIT_ERRORS]. *)
Definition repository_errors_only (gc : GitDiffCapture) : Prop :=
  let G := GIT_ERRORS (git_module gc) in
  only_raises G (repo gc)
  /\ forall r, repo gc = Ok r ->
       only_raises G (active_branch r)
       /\ (forall b, only_raises G (iter_commits r b))
       /\ (forall args, only_raises G (git_diff r args))
       /\ only_raises G (untracked_files r).

(** The arguments [get_combined_diff] passes to [git diff]. *)
Definition head_args (fnames : list string) : list string :=
  if Py.nonempty fnames then "HEAD" :: "--" :: fnames else ["HEAD"].
Definition cached_args (fnames : list string) : list string :=
  if Py.nonempty fnames then "--cached" :: "--" :: fnames else ["--cached"].
Definition wd_args (fnames : list string) : list string :=
  if Py.nonempty fnames then "--" :: fnames else [].

Definition fnames_of (file_paths : option (list string)) : list string :=
  match file_paths with Some l => l | None => [] end.

End Errors.

(** Sample repositories. *)
Module SampleRepos.
Import GitObserver.

Definition same_args (a b : list string) : bool :=
  if list_eq_dec string_dec a b then true else false.

(** A repository without commits: the active branch exists, listing its
    commits fails with GitCommandError; nothing is staged, file [x] has
    an unstaged change. *)
Definition unborn_unstaged : Repo :=
  {| active_branch := Ok "main";
     iter_commits := fun _ => Raise GitCommandError;
     git_diff := fun args =>
       if same_args args [] || same_args args ["--"; "x"]
       then Ok Samples.diff_x else Ok "";
     untracked_files := Ok [] |}.

(** The same, with the change to [x] staged. *)
Definition unborn_staged : Repo :=
  {| active_branch := Ok "main";
     iter_commits := fun _ => Raise GitCommandError;
     git_diff := fun args =>
       if same_args args ["--cached"] then Ok Samples.diff_x else Ok "";
     untracked_files := Ok [] |}.

Definition capture (r : Repo) : GitDiffCapture :=
  {| git_module := true; open_repo := Ok r |}.

End SampleRepos.

(** ** Notions for the correlation engine *)

Module Engine.
Import Models Matcher.

(** The diff capture handed to [flush] is absent, or its repository layer
    raises only exceptions of [GIT_ERRORS]. *)
Definition capture_ok (git_capture : option GitObserver.GitDiffCapture) : Prop :=
  match git_capture with
  | None => True
  | Some gc => Errors.repository_errors_only gc
  end.

(** The output record [node] belongs to the queued exchange [p]. *)
Definition record_of (p : pending) (node : PulseNode) : Prop :=
  let '(convo, source_ide, project_id, project_name) := p in
  timestamp node = Base.timestamp convo
  /\ raw_prompt (intent node) = Base.prompt convo
  /\ ai_response (execution node) = Base.response convo
  /\ ide (source node) = source_ide
  /\ Models.project_id node = project_id
  /\ Models.project_name node = project_name
  /\ status node = COMPLETED.

(** The history after pruning at time [now]. *)
Definition pruned (self : TemporalMatcher) (now : Z) : list GitObserver.FileChangeEvent :=
  filter (fun c => (now - window self * 2 <? GitObserver.timestamp c)%Z)
         (_file_changes self).

(** The FileDiff synthesized from a change event. *)
Definition synthesized (c : GitObserver.FileChangeEvent) : FileDiff :=
  {| file_path := GitObserver.file_path c; hunk := "";
     change_type := GitObserver.change_type c |}.

End Engine.

(** ** The end-to-end scenario

    An exchange at [t0] that declares the context file [auth.js], one
    change to [src/auth.js] five seconds later, and a repository with one
    commit whose pending diff touches [src/auth.js]. *)

Module Scenario.
Import Models Matcher.

Definition convo (t0 : Z) : Base.RawConversation :=
  Base.post_init
    {| Base.timestamp := t0;
       Base.prompt := "please fix the login bug";
       Base.response :=
         "I updated auth.js to fix the null check. [Thinking: the null check was backwards]";
       Base.model_name := ""; Base.session_id := "";
       Base.context_files := Some ["auth.js"];
       Base.project_name := ""; Base.project_path := "" |}.

Definition change (t0 : Z) : GitObserver.FileChangeEvent :=
  {| GitObserver.file_path := "src/auth.js";
     GitObserver.change_type := "modified";
     GitObserver.timestamp := (t0 + seconds 5)%Z |}.

Definition hunk_text : string := "@@ ... - if (user) ... + if (!user) ...".

Definition raw_diff : string :=
  "diff --git a/src/auth.js b/src/auth.js" ++ Samples.NL ++ hunk_text.

Definition the_diff : FileDiff :=
  {| file_path := "src/auth.js"; hunk := hunk_text; change_type := "modified" |}.

Definition repository : GitObserver.Repo :=
  {| GitObserver.active_branch := Ok "main";
     GitObserver.iter_commits := fun _ => Ok ["c0ffee"];
     GitObserver.git_diff := fun args =>
       if SampleRepos.same_args args ["HEAD"] then Ok raw_diff else Ok "";
     GitObserver.untracked_files := Ok [] |}.

Definition git_capture : GitObserver.GitDiffCapture := SampleRepos.capture repository.

Definition matcher (t0 : Z) : TemporalMatcher :=
  add_file_change
    (add_prompt (__init__ DEFAULT_WINDOW_SECONDS) (convo t0) CLAUDECODE "" "")
    (change t0).

(** The record [flush] builds for the exchange. *)
Definition expected_node (node_id : string) (t0 : Z) : PulseNode :=
  {| id := node_id;
     timestamp := t0;
     project_id := "";
     project_name := "";
     source := {| ide := CLAUDECODE; model_name := ""; session_id := "" |};
     intent := {| raw_prompt := "please fix the login bug";
                  clean_title := "Fix the login bug";
                  context_files := ["auth.js"] |};
     execution :=
       {| ai_response :=
            "I updated auth.js to fix the null check. [Thinking: the null check was backwards]";
          reasoning := "the null check was backwards";
          diffs := [the_diff];
          affected_files := ["src/auth.js"] |};
     status := COMPLETED;
     token_usage := 0%Z |}.

(** A second exchange, for a queue of two. *)
Definition other_convo (t : Z) : Base.RawConversation :=
  Base.post_init
    {| Base.timestamp := t;
       Base.prompt := "rename the helper";
       Base.response := "Done.";
       Base.model_name := ""; Base.session_id := "";
       Base.context_files := None;
       Base.project_name := ""; Base.project_path := "" |}.

Definition two_pending (t0 : Z) : TemporalMatcher :=
  add_prompt (matcher t0) (other_convo (t0 + seconds 200)) CURSOR "" "".

End Scenario.

(** ** The language of a pattern *)

Module ReSpec.
Import Re.

Inductive star (L : string -> Prop) : string -> Prop :=
| star_nil : star L ""
| star_app (w1 w2 : string) : L w1 -> star L w2 -> star L (w1 ++ w2).

(** The texts a pattern can match; [Eos] is an assertion and matches the
    empty text. *)
Fixpoint lang (r : regex) (w : string) : Prop :=
  match r with
  | Eps => w = ""
  | Chr p => exists c, w = String c "" /\ p c = true
  | Seq r1 r2 => exists w1 w2, w = w1 ++ w2 /\ lang r1 w1 /\ lang r2 w2
  | Alt r1 r2 => lang r1 w \/ lang r2 w
  | Star _ r1 => star (lang r1) w
  | Group r1 => lang r1 w
  | Eos => w = ""
  end.

Fixpoint all_chars (p : ascii -> bool) (w : string) : bool :=
  match w with
  | EmptyString => true
  | String c w' => p c && all_chars p w'
  end.

(** An identifier-shaped token: a letter or underscore, then letters,
    digits and underscores, at least three characters in all. *)
Definition identifier_shaped (w : string) : Prop :=
  exists c w',
    w = String c w'
    /\ Matcher.ident_start c = true
    /\ all_chars Matcher.ident_char w' = true
    /\ 3 <= String.length w.

End ReSpec.

(** ** The score as the specification words it *)

Module SpecScore.
Import Models Matcher.

(** [delta] is the least distance, in seconds, between the exchange and a
    candidate change. *)
Definition is_min_delta (convo : Base.RawConversation)
  (candidates : list GitObserver.FileChangeEvent) (delta : Q) : Prop :=
  (exists c, In c candidates /\ (delta == delta_seconds convo c)%Q)
  /\ (forall c, In c candidates -> (delta <= delta_seconds convo c)%Q).

Definition min_delta (convo : Base.RawConversation)
  (candidates : list GitObserver.FileChangeEvent) : Q :=
  match candidates with
  | [] => 0%Q
  | c :: cs =>
      fold_right (fun c' m => Qmin (delta_seconds convo c') m) (delta_seconds convo c) cs
  end.

(** The names of the declared context files and of the diff files, the
    tokens of the prompt and of the diff hunks. *)
Definition context_names (convo : Base.RawConversation) : list string :=
  Py.set_of (map path_name (filter Py.truthy (context_list convo))).

Definition diff_names (ds : list FileDiff) : list string :=
  Py.set_of (map path_name (filter Py.truthy (map file_path ds))).

Definition prompt_tokens (convo : Base.RawConversation) : list string :=
  _extract_keywords (Base.prompt convo).

Definition hunk_tokens (ds : list FileDiff) : list string :=
  _extract_keywords (Py.join " " (filter Py.truthy (map hunk ds))).

(** |a & b| / max(1, |a|), and 0 if either set is empty. *)
Definition overlap_score (a b : list string) : Q :=
  match a, b with
  | [], _ | _, [] => 0%Q
  | _, _ =>
      (inject_Z (Z.of_nat (length (Py.inter a b)))
       / inject_Z (Z.of_nat (Nat.max 1 (length a))))%Q
  end.

Definition time_score (convo : Base.RawConversation)
  (candidates : list GitObserver.FileChangeEvent) : Q :=
  match candidates with
  | [] => 0%Q
  | _ => (1 / (1 + min_delta convo candidates / 10))%Q
  end.

Definition file_score (convo : Base.RawConversation) (ds : list FileDiff) : Q :=
  overlap_score (context_names convo) (diff_names ds).

Definition keyword_score (convo : Base.RawConversation) (ds : list FileDiff) : Q :=
  overlap_score (prompt_tokens convo) (hunk_tokens ds).

Definition score (convo : Base.RawConversation) (ds : list FileDiff)
  (candidates : list GitObserver.FileChangeEvent) : Q :=
  ((5 # 10) * time_score convo candidates
   + (3 # 10) * file_score convo ds
   + (2 # 10) * keyword_score convo ds)%Q.

End SpecScore.

(** Sample terminal traffic. *)
Module Terminal.

Definition CRs : string := String Py.CR "".

Definition banner : string := "What can I do for you?".
Definition reply15 : string := "123456789012345".
Definition reply25 : string := "1234567890123456789012345".

End Terminal.

(* ================================================================== *)
(** ** [core/diff_parser.py]: statistics, summaries and rendering *)

Module DiffReport.

Record DiffStats : Type := {
  file_path : string;
  lines_added : nat;
  lines_deleted : nat;
  change_type : string
}.

(** [str(n)] for a non-negative integer. *)
Definition str_of_nat (n : nat) : string :=
  DecimalString.NilEmpty.string_of_uint (Nat.to_uint n).

Definition total_changes (self : DiffStats) : nat :=
  lines_added self + lines_deleted self.

(** The [summary] property: the path, then the counts that are not zero. *)
Definition summary (self : DiffStats) : string :=
  let parts :=
    List.app
      (if (lines_added self =? 0)%nat then [] else ["+" ++ str_of_nat (lines_added self)])
      (if (lines_deleted self =? 0)%nat then [] else ["-" ++ str_of_nat (lines_deleted self)]) in
  if Py.nonempty parts
  then file_path self ++ " (" ++ Py.join ", " parts ++ ")"
  else file_path self.

Record DiffSummary : Type := { files : list DiffStats }.

Definition total_files (self : DiffSummary) : nat := length (files self).
Definition total_additions (self : DiffSummary) : nat :=
  list_sum (map lines_added (files self)).
Definition total_deletions (self : DiffSummary) : nat :=
  list_sum (map lines_deleted (files self)).

Definition short_summary (self : DiffSummary) : string :=
  str_of_nat (total_files self) ++ " file(s), +" ++ str_of_nat (total_additions self)
  ++ " -" ++ str_of_nat (total_deletions self).

Definition is_added_line (line : string) : bool :=
  Py.startswith line "+" && negb (Py.startswith line "+++").
Definition is_deleted_line (line : string) : bool :=
  Py.startswith line "-" && negb (Py.startswith line "---").

(** One iteration of [for line in diff.hunk.split("\n")]. *)
Definition count_line (stats : DiffStats) (line : string) : DiffStats :=
  if is_added_line line then
    {| file_path := file_path stats; lines_added := lines_added stats + 1;
       lines_deleted := lines_deleted stats; change_type := change_type stats |}
  else if is_deleted_line line then
    {| file_path := file_path stats; lines_added := lines_added stats;
       lines_deleted := lines_deleted stats + 1; change_type := change_type stats |}
  else stats.

Definition stats_of (d : Models.FileDiff) : DiffStats :=
  fold_left count_line (Py.split_char Py.LF (Models.hunk d))
    {| file_path := Models.file_path d; lines_added := 0; lines_deleted := 0;
       change_type := Models.change_type d |}.

Definition calculate_diff_stats (diffs : list Models.FileDiff) : DiffSummary :=
  {| files := map stats_of diffs |}.

(** The icon of a change type; the arrow of a rename is U+2192. *)
Definition icon (change_type : string) : string :=
  if String.eqb change_type "added" then "+"
  else if String.eqb change_type "deleted" then "-"
  else if String.eqb change_type "modified" then "~"
  else if String.eqb change_type "renamed" then "→"
  else "~".

Definition generate_change_summary (diffs : list Models.FileDiff) : string :=
  if negb (Py.nonempty diffs) then "No code changes detected."
  else
    let stats := calculate_diff_stats diffs in
    let head :=
      "Changed " ++ str_of_nat (total_files stats) ++ " file(s): +"
      ++ str_of_nat (total_additions stats) ++ " additions, -"
      ++ str_of_nat (total_deletions stats) ++ " deletions" in
    let file_line := fun f => "  " ++ icon (change_type f) ++ " " ++ summary f in
    let lines := head :: "" :: map file_line (files stats) in
    Py.join (String Py.LF "") lines.

(** The pattern of a fenced code block: three backquotes, an optional
    word, a line feed, the lazily matched body (group 1) and three
    backquotes, under [re.DOTALL]. *)
Definition fence : string := "```".
Definition re_code_block : Re.regex :=
  Re.Seq (Re.lit fence)
    (Re.Seq (Re.opt (Re.plus (Re.Chr Matcher.ident_char)))
       (Re.Seq (Re.chr Py.LF)
          (Re.Seq (Re.Group (Re.Star false Re.any_char)) (Re.lit fence)))).

(** The first groups of [pattern.finditer(s)]; [skip] counts the
    characters of a match that is being stepped over. *)
Fixpoint finditer_group1 (r : Re.regex) (skip : nat) (s : string) : list string :=
  match s with
  | EmptyString => []
  | String c s' =>
      match skip with
      | S k => finditer_group1 r k s'
      | O =>
          match Re.match_here r s with
          | Some (caps, rest) =>
              let g := match caps with g :: _ => g | [] => "" end in
              match String.length s - String.length rest with
              | O => g :: finditer_group1 r 0 s'
              | S k => g :: finditer_group1 r k s'
              end
          | None => finditer_group1 r 0 s'
          end
      end
  end.

Definition extract_code_blocks_from_response (response : string) : list string :=
  filter Py.truthy (map Py.strip (finditer_group1 re_code_block 0 response)).

(** [s.replace(c, by)] for a one-character [c]. *)
Fixpoint replace_char (c : ascii) (by_ : string) (s : string) : string :=
  match s with
  | EmptyString => EmptyString
  | String d s' =>
      if Ascii.eqb d c then by_ ++ replace_char c by_ s'
      else String d (replace_char c by_ s')
  end.

Definition escape (line : string) : string :=
  replace_char ">" "&gt;" (replace_char "<" "&lt;" (replace_char "&" "&amp;" line)).

Definition DQ : string := String (ascii_of_nat 34) "".

Definition span (cls : string) (escaped : string) : string :=
  "<span class=" ++ DQ ++ cls ++ DQ ++ ">" ++ escaped ++ "</span>".

Definition html_line (line : string) : string :=
  let escaped := escape line in
  if is_added_line line then span "diff-add" escaped
  else if is_deleted_line line then span "diff-del" escaped
  else if Py.startswith line "@@" then span "diff-hunk" escaped
  else span "diff-ctx" escaped.

Definition diff_to_html (d : Models.FileDiff) : string :=
  Py.join (String Py.LF "") (map html_line (Py.split_char Py.LF (Models.hunk d))).

End DiffReport.

(* ================================================================== *)
(** ** [adapters/git_observer.py]: RepoFileHandler *)

Module Watcher.

(** The members of the set [IGNORE_PATTERNS]. *)
Definition IGNORE_PATTERNS : list string :=
  [ ".git"; "__pycache__"; "node_modules"; ".next"; ".venv"; "venv";
    ".DS_Store"; "*.pyc"; "*.pyo" ].

(** [sub in s] *)
Fixpoint contains (sub s : string) : bool :=
  String.prefix sub s
  || match s with
     | EmptyString => false
     | String _ s' => contains sub s'
     end.

Definition _should_ignore (path : string) : bool :=
  existsb (fun pattern => contains pattern path) IGNORE_PATTERNS.

(** A watchdog event: whether it concerns a directory, and [str(src_path)]. *)
Record FileSystemEvent : Type := {
  is_directory : bool;
  src_path : string
}.

(** What a handler passes to the callback, if anything; [now] is
    [datetime.utcnow()]. *)
Definition deliver (kind : string) (event : FileSystemEvent) (now : Z)
  : option GitObserver.FileChangeEvent :=
  if is_directory event || _should_ignore (src_path event) then None
  else Some {| GitObserver.file_path := src_path event;
               GitObserver.change_type := kind;
               GitObserver.timestamp := now |}.

Definition on_modified := deliver "modified".
Definition on_created := deliver "added".
Definition on_deleted := deliver "deleted".

(** A watcher whose callback is [matcher.add_file_change]. *)
Inductive fs_event : Type :=
| Modified (event : FileSystemEvent) (now : Z)
| Created (event : FileSystemEvent) (now : Z)
| Deleted (event : FileSystemEvent) (now : Z).

Definition dispatch (ev : fs_event) : option GitObserver.FileChangeEvent :=
  match ev with
  | Modified e now => on_modified e now
  | Created e now => on_created e now
  | Deleted e now => on_deleted e now
  end.

Definition feed (m : Matcher.TemporalMatcher) (ev : fs_event) : Matcher.TemporalMatcher :=
  match dispatch ev with
  | Some change => Matcher.add_file_change m change
  | None => m
  end.

End Watcher.

(* ================================================================== *)
(** ** [adapters/base.py]: BaseAdapter._deduplicate_base *)

Module BaseAdapter.

(** [convo.prompt[:200].strip()] *)
Definition dedup_key (convo : Base.RawConversation) : string :=
  Py.strip (Py.take 200 (Base.prompt convo)).

(** The loop of [_deduplicate_base], from a given [seen] set. *)
Fixpoint dedup_from (seen : list string) (conversations : list Base.RawConversation)
  : list Base.RawConversation :=
  match conversations with
  | [] => []
  | convo :: rest =>
      let key := dedup_key convo in
      if Py.truthy key && negb (Py.mem key seen)
      then convo :: dedup_from (key :: seen) rest
      else dedup_from seen rest
  end.

Definition _deduplicate_base (conversations : list Base.RawConversation)
  : list Base.RawConversation :=
  dedup_from [] conversations.

End BaseAdapter.

(* ================================================================== *)
(** ** [cli/main.py] and [server/app.py]: the callers of the matcher *)

Module Callers.
Import Models.

(** [mapping.get(key, default)] *)
Fixpoint dict_get {A : Type} (mapping : list (string * A)) (key : string) (default : A) : A :=
  match mapping with
  | [] => default
  | (k, v) :: rest => if String.eqb k key then v else dict_get rest key default
  end.

(** [cli/main.py] *)
Definition _name_to_ide (name : string) : SourceIDE :=
  dict_get [ ("cursor", CURSOR); ("trae", TRAE); ("claudecode", CLAUDECODE);
             ("vscode", VSCODE); ("codex", CODEX); ("kiro", KIRO) ]
           (Py.lower name) UNKNOWN.

(** [server/app.py] *)
Definition _ide_name_to_enum (name : string) : SourceIDE :=
  dict_get [ ("cursor", CURSOR); ("trae", TRAE); ("claudecode", CLAUDECODE);
             ("vscode", VSCODE); ("codex", CODEX) ]
           (Py.lower name) UNKNOWN.

(** The callback [on_exchange] of [wrap] in [cli/main.py]: the exchange is
    queued and the matcher flushed, without a diff capture; the nodes go
    to storage. *)
Definition on_exchange (matcher : Matcher.TemporalMatcher) (convo : Base.RawConversation)
  (now : Z) (uuid4 : nat -> string)
  : result (list PulseNode) * Matcher.TemporalMatcher :=
  Matcher.flush (Matcher.add_prompt matcher convo CLAUDECODE "" "") now None uuid4.

(** [wrap]: the exchanges the proxy emits, one callback each, on a matcher
    that starts as [TemporalMatcher()]; the nodes saved, in order.  [clock]
    gives the time of the n-th flush; a callback that raises saves
    nothing, the proxy swallows its exception. *)
Fixpoint wrap_from (matcher : Matcher.TemporalMatcher) (n : nat)
  (clock : nat -> Z) (uuid4 : nat -> nat -> string)
  (convos : list Base.RawConversation) : list PulseNode :=
  match convos with
  | [] => []
  | convo :: rest =>
      let '(outcome, matcher') := on_exchange matcher convo (clock n) (uuid4 n) in
      List.app (match outcome with Ok nodes => nodes | Raise _ => [] end)
               (wrap_from matcher' (S n) clock uuid4 rest)
  end.

Definition wrap_saved (clock : nat -> Z) (uuid4 : nat -> nat -> string)
  (convos : list Base.RawConversation) : list PulseNode :=
  wrap_from (Matcher.__init__ Matcher.DEFAULT_WINDOW_SECONDS) 0 clock uuid4 convos.

(** [for convo in conversations: matcher.add_prompt(convo, ide_enum)] *)
Definition add_all (matcher : Matcher.TemporalMatcher)
  (conversations : list Base.RawConversation) (ide_enum : SourceIDE)
  : Matcher.TemporalMatcher :=
  fold_left (fun m convo => Matcher.add_prompt m convo ide_enum "" "") conversations matcher.

(** The body of the adapter loop of [scan] in [cli/main.py] and of the
    project loop of the import in [server/app.py]: the conversations are
    queued with the IDE of the adapter and the matcher is flushed without
    a diff capture. *)
Definition scan_adapter (matcher : Matcher.TemporalMatcher)
  (conversations : list Base.RawConversation) (ide_enum : SourceIDE)
  (now : Z) (uuid4 : nat -> string)
  : result (list PulseNode) * Matcher.TemporalMatcher :=
  Matcher.flush (add_all matcher conversations ide_enum) now None uuid4.

(** One round of [_background_scan] in [cli/main.py]: a fresh matcher, the
    conversations of every adapter that answered queued in turn, and one
    flush at the end. *)
Definition background_round (polled : list (list Base.RawConversation * SourceIDE))
  (now : Z) (uuid4 : nat -> string)
  : result (list PulseNode) * Matcher.TemporalMatcher :=
  Matcher.flush
    (fold_left (fun m (a : list Base.RawConversation * SourceIDE) =>
                  add_all m (fst a) (snd a))
               polled (Matcher.__init__ Matcher.DEFAULT_WINDOW_SECONDS))
    now None uuid4.

End Callers.

(** ** Auxiliary notions for the further properties *)

Module More.

Definition b2n (b : bool) : nat := if b then 1 else 0.

(** The last two steps of [_generate_clean_title]: the first letter is
    capitalised and the title cut to 80 characters. *)
Definition finish_title (clean : string) : string :=
  let clean :=
    match clean with
    | EmptyString => clean
    | String c rest => String (Py.upper_char c) rest
    end in
  if (80 <? String.length clean)%nat then Py.take 77 clean ++ "..." else clean.

(** A well-formed parsed diff. *)
Definition well_formed_diff (fd : Models.FileDiff) : Prop :=
  Models.file_path fd <> ""
  /\ Models.hunk fd <> ""
  /\ Forall (fun l => DiffParser.is_hunk_line l = true)
            (DiffParser.lines_of (Models.hunk fd))
  /\ In (Models.change_type fd) ["modified"; "added"; "deleted"; "renamed"].

(** A change event the watcher may deliver. *)
Definition tracked_change (c : GitObserver.FileChangeEvent) : Prop :=
  Watcher._should_ignore (GitObserver.file_path c) = false
  /\ In (GitObserver.change_type c) ["modified"; "added"; "deleted"].

(** Sorted by [<=] on strings. *)
Definition ascending (l : list string) : Prop :=
  Sorted (fun a b => String.leb a b = true) l.

(** The times of the terminal inputs of a trace. *)
Fixpoint input_times (evs : list PTYWrapper.event) : list Z :=
  match evs with
  | [] => []
  | PTYWrapper.UserInput _ now :: rest => now :: input_times rest
  | _ :: rest => input_times rest
  end.

(** An event at which the proxy may emit: a terminal input with a line
    terminator, or the exit of the child. *)
Definition may_emit (ev : PTYWrapper.event) : bool :=
  match ev with
  | PTYWrapper.UserInput text _ => PTYWrapper.has_line_terminator text
  | PTYWrapper.ChildOutput _ => false
  | PTYWrapper.ChildExit _ => true
  end.

End More.

Module More2.

(** The proxy with its callback removed. *)
Definition without_callback (self : PTYWrapper.PTYWrapper) : PTYWrapper.PTYWrapper :=
  {| PTYWrapper.on_exchange := false;
     PTYWrapper._output_buffer := PTYWrapper._output_buffer self;
     PTYWrapper._current_prompt := PTYWrapper._current_prompt self;
     PTYWrapper._last_prompt_time := PTYWrapper._last_prompt_time self |}.

(** The capture state is consistent with the input times [T]: a recorded
    prompt time is one of them, and a waiting prompt has its time. *)
Definition times_known (T : list Z) (self : PTYWrapper.PTYWrapper) : Prop :=
  (forall t, PTYWrapper._last_prompt_time self = Some t -> In t T)
  /\ (PTYWrapper._current_prompt self <> "" -> PTYWrapper._last_prompt_time self <> None).

(** The first group of a search result. *)
Definition group1_of (o : option (string * list string * string * string)) : option string :=
  match o with
  | Some (_, g :: _, _, _) => Some g
  | _ => None
  end.

(** A node that records an exchange of the given IDE and nothing else:
    no diffs, no affected files, and the project named by the exchange. *)
Definition bare_node (convo : Base.RawConversation) (ide_enum : Models.SourceIDE)
  (node : Models.PulseNode) : Prop :=
  Models.timestamp node = Base.timestamp convo
  /\ Models.raw_prompt (Models.intent node) = Base.prompt convo
  /\ Models.ai_response (Models.execution node) = Base.response convo
  /\ Models.ide (Models.source node) = ide_enum
  /\ Models.project_name node = Base.project_name convo
  /\ Models.project_id node
     = (if Py.truthy (Base.project_path convo) then Base.project_path convo
        else Base.project_name convo)
  /\ Models.diffs (Models.execution node) = []
  /\ Models.affected_files (Models.execution node) = [].

(** The queue entry [add_prompt] makes of a conversation when it is called
    with the IDE alone. *)
Definition queued (ide_enum : Models.SourceIDE) (convo : Base.RawConversation)
  : Matcher.pending :=
  (convo, ide_enum,
   Matcher.or_else (Base.project_path convo)
     (Matcher.or_else "" (Matcher.or_else (Base.project_name convo) "")),
   Matcher.or_else (Base.project_name convo) "").

(** The exchanges of a round of polling, each with the IDE of its adapter. *)
Definition tagged (polled : list (list Base.RawConversation * Models.SourceIDE))
  : list (Base.RawConversation * Models.SourceIDE) :=
  flat_map (fun a => map (fun convo => (convo, snd a)) (fst a)) polled.

End More2.

(* ================================================================== *)
(** * Properties *)

(** ** Strings *)

Section StringFacts.

Lemma split_char_nonempty (sep : ascii) (s : string) :
  Py.split_char sep s <> [].
Proof.
  destruct s as [|c s]; simpl; [discriminate|].
  destruct (Ascii.eqb c sep); [discriminate|].
  destruct (Py.split_char sep s); discriminate.
Qed.

Lemma split_char_app (sep : ascii) (a b : string) :
  Py.split_char sep (a ++ String sep b)
  = (Py.split_char sep a ++ Py.split_char sep b)%list.
Proof.
  induction a as [|c a IH]; simpl.
  - rewrite Ascii.eqb_refl. reflexivity.
  - destruct (Ascii.eqb c sep).
    + rewrite IH. reflexivity.
    + rewrite IH.
      pose proof (split_char_nonempty sep a) as Hne.
      destruct (Py.split_char sep a) as [|l ls]; [congruence|].
      reflexivity.
Qed.

Lemma string_app_assoc (a b c : string) : (a ++ b) ++ c = a ++ (b ++ c).
Proof.
  induction a as [|x a IH]; simpl; [reflexivity|]. now rewrite IH.
Qed.

Lemma string_app_nil_r (a : string) : a ++ "" = a.
Proof.
  induction a as [|x a IH]; simpl; [reflexivity|]. now rewrite IH.
Qed.

Lemma strip_empty_all_space (s : string) :
  Py.strip s = "" -> Aux.all_space s = true.
Proof.
  unfold Py.strip.
  induction s as [|c s IH]; simpl; [reflexivity|].
  destruct (Py.isspace c) eqn:Hc; simpl.
  - exact IH.
  - rewrite Hc. destruct (Py.rstrip s); discriminate.
Qed.

Lemma prefix_cons (a : ascii) (p : string) (c : ascii) (s : string) :
  String.prefix (String a p) (String c s) = Ascii.eqb a c && String.prefix p s.
Proof.
  cbn [String.prefix]. destruct (ascii_dec a c) as [->|Hn].
  - now rewrite Ascii.eqb_refl.
  - apply Ascii.eqb_neq in Hn. now rewrite Hn.
Qed.

Lemma prefix_empty (s : string) : String.prefix "" s = true.
Proof. destruct s; reflexivity. Qed.

(** A prefix without line feed is a prefix of the first line. *)
Lemma prefix_first_line (p s : string) :
  Aux.no_LF p = true -> String.prefix p s = true ->
  exists l ls, Py.split_char Py.LF s = l :: ls /\ String.prefix p l = true.
Proof.
  revert s. induction p as [|a p IH]; intros s Hp Hs.
  - pose proof (split_char_nonempty Py.LF s) as Hne.
    destruct (Py.split_char Py.LF s) as [|l ls]; [congruence|].
    exists l, ls. split; [reflexivity|]. destruct l; reflexivity.
  - destruct s as [|b s]; simpl in Hs; [discriminate|].
    destruct (ascii_dec a b) as [->|]; [|discriminate].
    unfold Aux.no_LF in Hp. cbn [Py.contains_char] in Hp.
    apply negb_true_iff in Hp. apply orb_false_iff in Hp as [Hb Hp].
    destruct (IH s) as (l & ls & Hl & Hpl); [unfold Aux.no_LF; now rewrite Hp | exact Hs |].
    cbn [Py.split_char]. rewrite Ascii.eqb_sym, Hb, Hl.
    exists (String b l), ls. split; [reflexivity|].
    cbn [String.prefix]. destruct (ascii_dec b b); [exact Hpl | congruence].
Qed.

End StringFacts.

(** ** The unified-diff parser *)

Section ParserFacts.
Import Models DiffParser.

Variable D : dialect.

Definition no_boundary (lines : list string) : Prop :=
  Forall (fun l => is_boundary l = false) lines.

(** Between two boundaries the loop only extends the hunk buffer and
    updates the kind. *)
Lemma run_body (body : list string) :
  no_boundary body ->
  forall st,
    run D st body
    = {| results := results st;
         current_file := current_file st;
         current_lines :=
           (current_lines st
              ++ (if Py.truthy (current_file st) then hunk_lines D body else []))%list;
         cur_change_type := fold_left (kind_step D) body (cur_change_type st) |}.
Proof.
  induction 1 as [|l body Hl _ IH]; intros st.
  - destruct st; simpl. destruct (Py.truthy _); now rewrite app_nil_r.
  - change (run D st (l :: body)) with (run D (step D st l) body).
    rewrite IH. clear IH.
    cbn [fold_left hunk_lines filter].
    unfold step, kind_step, appended. rewrite Hl.
    destruct (is_new_file l); cbn [negb andb]; [reflexivity|].
    destruct (is_deleted_file l); cbn [negb andb]; [reflexivity|].
    destruct (is_rename D l); cbn [negb andb]; [reflexivity|].
    destruct (is_hunk_line l); cbn [negb andb]; [|reflexivity].
    destruct (Py.truthy (current_file st)) eqn:Hcf;
      cbn [results current_file current_lines cur_change_type].
    + rewrite Hcf. now rewrite <- app_assoc.
    + rewrite Hcf. reflexivity.
Qed.

Lemma sections_from_pre (lines : list string) :
  no_boundary (fst (sections_from lines)).
Proof.
  induction lines as [|l ls IH]; simpl; [constructor|].
  destruct (sections_from ls) as [pre secs]. simpl in IH.
  destruct (is_boundary l) eqn:Hl; simpl; [constructor|].
  constructor; assumption.
Qed.

Lemma sections_from_no_boundary (lines : list string) :
  no_boundary lines -> sections_from lines = (lines, []).
Proof.
  induction 1 as [|l ls Hl _ IH]; simpl; [reflexivity|].
  now rewrite IH, Hl.
Qed.

Lemma sections_count (lines : list string) :
  length (sections lines) = length (filter is_boundary lines).
Proof.
  unfold sections.
  induction lines as [|l ls IH]; simpl; [reflexivity|].
  destruct (sections_from ls) as [pre secs]. simpl in IH.
  destruct (is_boundary l); simpl; now rewrite IH.
Qed.

(** Closing after a boundary line and its body emits the section. *)
Lemma close_after_section (st : pstate) (m : string) (body : list string) :
  is_boundary m = true -> no_boundary body ->
  close_file (run D (step D st m) body)
  = (close_file st ++ emit_section D (m, body))%list.
Proof.
  intros Hm Hb. rewrite (run_body body Hb).
  unfold step. rewrite Hm. unfold close_file at 1. simpl.
  unfold kind_of.
  destruct (Py.truthy (extract_path D m)); simpl.
  - destruct (hunk_lines D body); simpl; [now rewrite app_nil_r | reflexivity].
  - now rewrite app_nil_r.
Qed.

Lemma close_run_sections (lines : list string) :
  forall st,
    close_file (run D st lines)
    = (close_file (run D st (fst (sections_from lines)))
         ++ flat_map (emit_section D) (snd (sections_from lines)))%list.
Proof.
  induction lines as [|l ls IH]; intros st; simpl.
  - now rewrite app_nil_r.
  - pose proof (sections_from_pre ls) as Hpre.
    fold (run D (step D st l) ls). rewrite IH.
    destruct (sections_from ls) as [pre secs]. simpl in *.
    destruct (is_boundary l) eqn:Hl; simpl.
    + rewrite (close_after_section st l pre Hl Hpre).
      now rewrite <- app_assoc.
    + reflexivity.
Qed.

(** The scanner emits, in source order, one record per section that
    opened a file and filled its hunk buffer. *)
Lemma parse_lines_sections (lines : list string) :
  parse_lines D lines = flat_map (emit_section D) (sections lines).
Proof.
  unfold parse_lines, sections. rewrite close_run_sections.
  rewrite (run_body _ (sections_from_pre lines)). reflexivity.
Qed.

Lemma blank_no_boundary (raw : string) :
  Aux.all_space raw = true -> no_boundary (lines_of raw).
Proof.
  unfold lines_of, no_boundary.
  induction raw as [|c raw IH]; simpl; intros H.
  - repeat constructor.
  - apply andb_true_iff in H as [Hc H]. specialize (IH H).
    destruct (Ascii.eqb c Py.LF).
    + constructor; [reflexivity | exact IH].
    + pose proof (split_char_nonempty Py.LF raw) as Hne.
      destruct (Py.split_char Py.LF raw) as [|l ls]; [congruence|].
      inversion IH; subst. constructor; [|assumption].
      unfold is_boundary, Py.startswith. rewrite prefix_cons.
      destruct (Ascii.eqb "d" c) eqn:Hd; [|reflexivity].
      apply Ascii.eqb_eq in Hd. subst c. discriminate Hc.
Qed.

Lemma parse_is_parse_lines (raw : string) :
  parse D raw = parse_lines D (lines_of raw).
Proof.
  unfold parse.
  destruct (negb (Py.truthy raw) || negb (Py.truthy (Py.strip raw))) eqn:Hb;
    [|reflexivity].
  assert (Hs : Aux.all_space raw = true).
  { apply orb_true_iff in Hb as [Hb|Hb]; apply negb_true_iff in Hb.
    - destruct raw; [reflexivity | discriminate].
    - apply strip_empty_all_space. destruct (Py.strip raw); [reflexivity | discriminate]. }
  rewrite parse_lines_sections. unfold sections.
  now rewrite (sections_from_no_boundary _ (blank_no_boundary raw Hs)).
Qed.

Lemma parse_spec (raw : string) : parse D raw = spec_parse D raw.
Proof.
  rewrite parse_is_parse_lines. apply parse_lines_sections.
Qed.

(** Appending lines that begin with a boundary appends the records. *)
Lemma sections_from_app (l1 : list string) (m : string) (l2 : list string) :
  is_boundary m = true ->
  sections_from (l1 ++ m :: l2)
  = (fst (sections_from l1),
     (snd (sections_from l1) ++ snd (sections_from (m :: l2)))%list).
Proof.
  intros Hm. induction l1 as [|l ls IH].
  - simpl. destruct (sections_from l2) as [pre secs]. now rewrite Hm.
  - cbn [app sections_from]. rewrite IH.
    destruct (sections_from ls) as [pre secs].
    destruct (is_boundary l); reflexivity.
Qed.

Lemma parse_lines_app (l1 : list string) (m : string) (l2 : list string) :
  is_boundary m = true ->
  parse_lines D (l1 ++ m :: l2)
  = (parse_lines D l1 ++ parse_lines D (m :: l2))%list.
Proof.
  intros Hm. rewrite !parse_lines_sections. unfold sections.
  rewrite (sections_from_app l1 m l2 Hm). cbn [snd].
  apply flat_map_app.
Qed.

Hypothesis rename_empty : is_rename D "" = false.

Lemma parse_lines_trailing_empty (l1 : list string) :
  parse_lines D (l1 ++ [""]) = parse_lines D l1.
Proof.
  unfold parse_lines, run. rewrite fold_left_app. simpl.
  unfold step. rewrite rename_empty. reflexivity.
Qed.

(** Texts joined at a line break, the second one starting with a
    boundary line or empty. *)
Lemma parse_concat (d1 d2 : string) :
  (d1 = "" \/ exists a, d1 = a ++ String Py.LF "") ->
  (d2 = "" \/ is_boundary d2 = true) ->
  parse D (d1 ++ d2) = (parse D d1 ++ parse D d2)%list.
Proof.
  intros [->|[a ->]] H2.
  - reflexivity.
  - destruct H2 as [->|H2].
    + rewrite string_app_nil_r. unfold parse at 3. simpl. now rewrite app_nil_r.
    + rewrite string_app_assoc. simpl.
      rewrite !parse_is_parse_lines. unfold lines_of.
      rewrite !split_char_app. simpl.
      destruct (prefix_first_line "diff --git" d2 eq_refl H2) as (m & ls & Hl & Hm).
      rewrite Hl. rewrite parse_lines_trailing_empty.
      apply parse_lines_app. exact Hm.
Qed.

End ParserFacts.

Section ParserClaims.
Import Models DiffParser.

Lemma appended_core (l : string) : appended core l = is_hunk_line l.
Proof.
  destruct l as [|c l]; [reflexivity|].
  unfold appended, is_new_file, is_deleted_file, is_hunk_line, Py.startswith.
  cbn [is_rename core]. unfold Py.startswith. rewrite !prefix_cons.
  destruct (Ascii.eqb "n" c) eqn:En;
    [apply Ascii.eqb_eq in En; subst c; cbn; now rewrite ?andb_false_r|].
  destruct (Ascii.eqb "d" c) eqn:Ed;
    [apply Ascii.eqb_eq in Ed; subst c; cbn; now rewrite ?andb_false_r|].
  destruct (Ascii.eqb "r" c) eqn:Er;
    [apply Ascii.eqb_eq in Er; subst c; cbn; now rewrite ?andb_false_r|].
  reflexivity.
Qed.

Lemma appended_observer (l : string) : appended observer l = is_hunk_line l.
Proof.
  destruct l as [|c l]; [reflexivity|].
  unfold appended, is_new_file, is_deleted_file, is_hunk_line, Py.startswith.
  cbn [is_rename observer]. unfold Py.startswith. rewrite !prefix_cons.
  destruct (Ascii.eqb "n" c) eqn:En;
    [apply Ascii.eqb_eq in En; subst c; cbn; now rewrite ?andb_false_r|].
  destruct (Ascii.eqb "d" c) eqn:Ed;
    [apply Ascii.eqb_eq in Ed; subst c; cbn; now rewrite ?andb_false_r|].
  destruct (Ascii.eqb "r" c) eqn:Er;
    [apply Ascii.eqb_eq in Er; subst c; cbn; now rewrite ?andb_false_r|].
  reflexivity.
Qed.

Lemma hunk_lines_core (body : list string) :
  hunk_lines core body = filter is_hunk_line body.
Proof.
  unfold hunk_lines. apply filter_ext. exact appended_core.
Qed.

Lemma hunk_lines_observer (body : list string) :
  hunk_lines observer body = filter is_hunk_line body.
Proof.
  unfold hunk_lines. apply filter_ext. exact appended_observer.
Qed.

Lemma header_is_hunk_line (l : string) :
  Aux.header_line l = true -> is_hunk_line l = true.
Proof.
  destruct l as [|c l]; [discriminate|].
  unfold Aux.header_line, is_hunk_line, Py.startswith. rewrite !prefix_cons.
  intros H. apply orb_true_iff in H as [H|H];
    apply andb_true_iff in H as [H _]; apply Ascii.eqb_eq in H; subst c; cbn;
    rewrite prefix_empty; reflexivity.
Qed.

Lemma observer_parse (raw : string) : _parse_unified_diff raw = parse observer raw.
Proof.
  unfold _parse_unified_diff, parse. destruct raw; reflexivity.
Qed.

(** A section that opened a file and holds a hunk line emits one record. *)
Lemma emit_section_one (D : dialect) (m : string) (body : list string) :
  extract_path D m <> "" -> hunk_lines D body <> [] ->
  emit_section D (m, body)
  = [ {| file_path := extract_path D m;
         hunk := Py.join (String Py.LF "") (hunk_lines D body);
         change_type := kind_of D body |} ].
Proof.
  intros Hp Hh. unfold emit_section.
  destruct (extract_path D m); [congruence|].
  destruct (hunk_lines D body); [congruence|]. reflexivity.
Qed.

Lemma emit_section_none (D : dialect) (m : string) (body : list string) :
  hunk_lines D body = [] -> emit_section D (m, body) = [].
Proof.
  intros Hh. unfold emit_section. rewrite Hh. now rewrite andb_false_r.
Qed.

Lemma flat_map_emit_all (D : dialect) (secs : list (string * list string)) :
  Forall (fun sec => extract_path D (fst sec) <> "" /\ hunk_lines D (snd sec) <> []) secs ->
  map file_path (flat_map (emit_section D) secs)
  = map (fun sec => extract_path D (fst sec)) secs.
Proof.
  induction 1 as [|[m body] secs [Hp Hh] _ IH]; [reflexivity|].
  cbn [flat_map]. rewrite (emit_section_one D m body Hp Hh).
  cbn [app map fst file_path]. now rewrite IH.
Qed.

End ParserClaims.

(** C4 (as stated, refuted): one boundary line followed by one hunk line,
    yet no record, because the boundary line names no path. *)
Lemma parse_unified_diff_pathless_marker :
  DiffParser.sections (DiffParser.lines_of Samples.pathless_diff)
    = [("diff --git", ["+x"])]
  /\ DiffParser.is_hunk_line "+x" = true
  /\ length (filter DiffParser.is_boundary (DiffParser.lines_of Samples.pathless_diff)) = 1
  /\ DiffParser.parse_unified_diff Samples.pathless_diff = []
  /\ length (DiffParser.parse_unified_diff Samples.pathless_diff)
     <> length (filter DiffParser.is_boundary (DiffParser.lines_of Samples.pathless_diff)).
Proof.
  repeat split; try reflexivity. vm_compute. discriminate.
Qed.

(** C4 (amended): [parse_unified_diff] emits, in source order, one FileDiff
    per ["diff --git"] section that opened a file (its boundary line yields
    a non-empty path) and accumulated at least one hunk line; a section
    without hunk lines yields no entry; and a text whose N boundary lines
    each name a path and are each followed by at least one hunk line
    yields exactly N entries, with the paths in source order. *)
Theorem parse_unified_diff_one_per_section (raw : string) :
  let secs := DiffParser.sections (DiffParser.lines_of raw) in
  DiffParser.parse_unified_diff raw = flat_map (DiffParser.emit_section DiffParser.core) secs
  /\ length secs = length (filter DiffParser.is_boundary (DiffParser.lines_of raw))
  /\ (forall m body,
        DiffParser.extract_path DiffParser.core m <> "" ->
        filter DiffParser.is_hunk_line body <> [] ->
        DiffParser.emit_section DiffParser.core (m, body)
        = [ {| Models.file_path := DiffParser.extract_path DiffParser.core m;
               Models.hunk := Py.join Samples.NL (filter DiffParser.is_hunk_line body);
               Models.change_type := DiffParser.kind_of DiffParser.core body |} ])
  /\ (forall m body,
        filter DiffParser.is_hunk_line body = [] ->
        DiffParser.emit_section DiffParser.core (m, body) = [])
  /\ (Forall (fun sec => DiffParser.extract_path DiffParser.core (fst sec) <> ""
                         /\ filter DiffParser.is_hunk_line (snd sec) <> []) secs ->
      length (DiffParser.parse_unified_diff raw)
        = length (filter DiffParser.is_boundary (DiffParser.lines_of raw))
      /\ map Models.file_path (DiffParser.parse_unified_diff raw)
         = map (fun sec => DiffParser.extract_path DiffParser.core (fst sec)) secs).
Proof.
  intros secs.
  assert (Hparse : DiffParser.parse_unified_diff raw
                   = flat_map (DiffParser.emit_section DiffParser.core) secs)
    by apply parse_spec.
  split; [exact Hparse|].
  split; [apply sections_count|].
  split.
  { intros m body Hp Hh. rewrite <- hunk_lines_core in *.
    now apply emit_section_one. }
  split.
  { intros m body Hh. apply emit_section_none. now rewrite hunk_lines_core. }
  intros Hall.
  assert (Hall' : Forall (fun sec => DiffParser.extract_path DiffParser.core (fst sec) <> ""
                     /\ DiffParser.hunk_lines DiffParser.core (snd sec) <> []) secs).
  { eapply Forall_impl; [|exact Hall]. intros sec [H1 H2].
    now rewrite hunk_lines_core. }
  pose proof (flat_map_emit_all DiffParser.core secs Hall') as Hmap.
  rewrite <- Hparse in Hmap. split; [|exact Hmap].
  rewrite <- (length_map Models.file_path), Hmap, length_map.
  apply sections_count.
Qed.

Lemma parse_unified_diff_one_per_section_witness :
  length (DiffParser.parse_unified_diff (Samples.diff_x ++ Samples.NL ++ Samples.diff_y)) = 2
  /\ map Models.file_path
       (DiffParser.parse_unified_diff (Samples.diff_x ++ Samples.NL ++ Samples.diff_y))
     = ["x"; "y"].
Proof.
  destruct (parse_unified_diff_one_per_section
              (Samples.diff_x ++ Samples.NL ++ Samples.diff_y))
    as (_ & _ & _ & _ & H).
  destruct H as [Hlen Hmap].
  - vm_compute. repeat constructor; discriminate.
  - split; [rewrite Hlen; reflexivity | rewrite Hmap; reflexivity].
Defined.

(** C6 (as stated, refuted): two texts that each parse to one FileDiff and
    whose plain concatenation parses to one FileDiff, not two. *)
Lemma parse_unified_diff_concat_not_additive :
  length (DiffParser.parse_unified_diff Samples.diff_x) = 1
  /\ length (DiffParser.parse_unified_diff Samples.diff_y) = 1
  /\ length (DiffParser.parse_unified_diff (Samples.diff_x ++ Samples.diff_y)) = 1
  /\ length (DiffParser.parse_unified_diff (Samples.diff_x ++ Samples.diff_y))
     <> length (DiffParser.parse_unified_diff Samples.diff_x)
        + length (DiffParser.parse_unified_diff Samples.diff_y).
Proof.
  repeat split; try reflexivity. vm_compute. discriminate.
Qed.

(** C6 (amended): for two diff texts d1 and d2 where d1 is empty or ends
    with a line break and d2 is empty or begins with a ["diff --git"]
    boundary line, parsing the concatenation gives the entries of d1
    followed by those of d2, so the counts add up. *)
Theorem parse_unified_diff_concat (d1 d2 : string) :
  (d1 = "" \/ exists a, d1 = a ++ Samples.NL) ->
  (d2 = "" \/ DiffParser.is_boundary d2 = true) ->
  DiffParser.parse_unified_diff (d1 ++ d2)
    = (DiffParser.parse_unified_diff d1 ++ DiffParser.parse_unified_diff d2)%list
  /\ length (DiffParser.parse_unified_diff (d1 ++ d2))
     = length (DiffParser.parse_unified_diff d1)
       + length (DiffParser.parse_unified_diff d2).
Proof.
  intros H1 H2.
  assert (H : DiffParser.parse_unified_diff (d1 ++ d2)
              = (DiffParser.parse_unified_diff d1 ++ DiffParser.parse_unified_diff d2)%list).
  { unfold DiffParser.parse_unified_diff.
    apply parse_concat; [reflexivity | exact H1 | exact H2]. }
  split; [exact H|]. rewrite H. apply length_app.
Qed.

Lemma parse_unified_diff_concat_witness :
  length (DiffParser.parse_unified_diff ((Samples.diff_x ++ Samples.NL) ++ Samples.diff_y))
  = length (DiffParser.parse_unified_diff (Samples.diff_x ++ Samples.NL))
    + length (DiffParser.parse_unified_diff Samples.diff_y).
Proof.
  apply (parse_unified_diff_concat (Samples.diff_x ++ Samples.NL) Samples.diff_y).
  - right. exists Samples.diff_x. reflexivity.
  - right. reflexivity.
Defined.

Section HeaderLines.
Import Models DiffParser.

Lemma split_char_no_sep (sep : ascii) (s : string) :
  Forall (fun l => Py.contains_char sep l = false) (Py.split_char sep s).
Proof.
  induction s as [|c s IH]; cbn [Py.split_char].
  - repeat constructor.
  - destruct (Ascii.eqb c sep) eqn:Hc.
    + constructor; [reflexivity | exact IH].
    + pose proof (split_char_nonempty sep s) as Hne.
      destruct (Py.split_char sep s) as [|l ls]; [congruence|].
      inversion IH; subst. constructor; [|assumption].
      cbn [Py.contains_char]. rewrite Ascii.eqb_sym, Hc. assumption.
Qed.

Lemma split_char_id (sep : ascii) (s : string) :
  Py.contains_char sep s = false -> Py.split_char sep s = [s].
Proof.
  induction s as [|c s IH]; cbn [Py.contains_char Py.split_char]; [reflexivity|].
  intros H. apply orb_false_iff in H as [Hc H].
  rewrite Ascii.eqb_sym, Hc, (IH H). reflexivity.
Qed.

(** Splitting what [join] built gives the lines back. *)
Lemma split_join (sep : ascii) (ls : list string) :
  ls <> [] ->
  Forall (fun l => Py.contains_char sep l = false) ls ->
  Py.split_char sep (Py.join (String sep "") ls) = ls.
Proof.
  intros Hne Hall. induction Hall as [|l ls Hl Hall IH]; [congruence|].
  destruct ls as [|l' ls'].
  - cbn. now apply split_char_id.
  - change (Py.join (String sep "") (l :: l' :: ls'))
      with (l ++ String sep (Py.join (String sep "") (l' :: ls'))).
    rewrite split_char_app, (split_char_id sep l Hl), IH by discriminate.
    reflexivity.
Qed.

Lemma sections_from_lines (lines : list string) :
  incl (fst (sections_from lines)) lines
  /\ forall m body, In (m, body) (snd (sections_from lines)) -> incl body lines.
Proof.
  induction lines as [|l ls [IH1 IH2]]; cbn [sections_from].
  - split; [apply incl_refl | intros ? ? []].
  - destruct (sections_from ls) as [pre secs]. cbn [fst snd] in *.
    destruct (is_boundary l); cbn [fst snd].
    + split; [apply incl_nil_l|].
      intros m body [H|H].
      * inversion H; subst. now apply incl_tl.
      * apply incl_tl. eapply IH2; eassumption.
    + split.
      * apply incl_cons; [now left | now apply incl_tl].
      * intros m body H. apply incl_tl. eapply IH2; eassumption.
Qed.

Variable D : dialect.
Hypothesis appended_hunk : forall l, appended D l = is_hunk_line l.

Lemma header_reaches_hunk (body : list string) (l : string) :
  In l body -> Aux.header_line l = true -> In l (hunk_lines D body).
Proof.
  intros Hin Hh. unfold hunk_lines. apply filter_In. split; [assumption|].
  rewrite appended_hunk. now apply header_is_hunk_line.
Qed.

Lemma section_with_header_emitted (raw m : string) (body : list string) :
  In (m, body) (sections (lines_of raw)) ->
  extract_path D m <> "" ->
  (exists l, In l body /\ Aux.header_line l = true) ->
  exists fd,
    In fd (parse D raw)
    /\ file_path fd = extract_path D m
    /\ lines_of (hunk fd) = hunk_lines D body.
Proof.
  intros Hsec Hp (l & Hin & Hh).
  pose proof (header_reaches_hunk body l Hin Hh) as Hl.
  assert (Hne : hunk_lines D body <> []) by (intros E; rewrite E in Hl; contradiction).
  eexists. split; [|split].
  - rewrite parse_spec. unfold spec_parse. apply in_flat_map.
    exists (m, body). split; [exact Hsec|].
    rewrite (emit_section_one D m body Hp Hne). now left.
  - reflexivity.
  - cbn [hunk]. unfold lines_of. apply split_join; [exact Hne|].
    apply Forall_forall. intros x Hx.
    apply filter_In in Hx as [Hx _].
    destruct (sections_from_lines (lines_of raw)) as [_ Hinc].
    apply (Hinc m body Hsec) in Hx.
    pose proof (split_char_no_sep Py.LF raw) as Hno.
    rewrite Forall_forall in Hno. now apply Hno.
Qed.

End HeaderLines.

(** C10: in both copies of the unified-diff parser ([parse_unified_diff]
    of core/diff_parser.py and [GitDiffCapture._parse_unified_diff]), a
    ["---"] or ["+++"] header line inside a section whose file is open is
    appended to the hunk buffer; so (a) a section with such a header line is
    emitted as a FileDiff even when it has no ["@@"] or change line, and
    (b) the lines of the emitted hunk text are exactly the buffered lines,
    the header lines among them verbatim. *)
Theorem header_lines_enter_hunk (D : DiffParser.dialect) (raw m : string)
  (body : list string) :
  D = DiffParser.core \/ D = DiffParser.observer ->
  In (m, body) (DiffParser.sections (DiffParser.lines_of raw)) ->
  DiffParser.extract_path D m <> "" ->
  (DiffParser.parse DiffParser.core raw = DiffParser.parse_unified_diff raw
   /\ DiffParser.parse DiffParser.observer raw = DiffParser._parse_unified_diff raw)
  /\ (forall l, In l body -> Aux.header_line l = true ->
        In l (DiffParser.hunk_lines D body))
  /\ ((exists l, In l body /\ Aux.header_line l = true) ->
      exists fd,
        In fd (DiffParser.parse D raw)
        /\ Models.file_path fd = DiffParser.extract_path D m
        /\ DiffParser.lines_of (Models.hunk fd) = DiffParser.hunk_lines D body
        /\ (forall l, In l body -> Aux.header_line l = true ->
              In l (DiffParser.lines_of (Models.hunk fd)))).
Proof.
  intros HD Hsec Hp.
  assert (Happ : forall l, DiffParser.appended D l = DiffParser.is_hunk_line l).
  { destruct HD as [->| ->]; [exact appended_core | exact appended_observer]. }
  split; [split; [reflexivity | symmetry; apply observer_parse]|].
  split; [intros l; now apply header_reaches_hunk|].
  intros Hex.
  destruct (section_with_header_emitted D Happ raw m body Hsec Hp Hex)
    as (fd & Hin & Hpath & Hlines).
  exists fd. repeat split; try assumption.
  intros l Hl Hh. rewrite Hlines. now apply header_reaches_hunk.
Qed.

Lemma header_lines_enter_hunk_witness :
  exists fd,
    In fd (DiffParser.parse_unified_diff Samples.headers_only_diff)
    /\ Models.file_path fd = "f"
    /\ DiffParser.lines_of (Models.hunk fd) = ["--- a/f"; "+++ b/f"].
Proof.
  destruct (header_lines_enter_hunk DiffParser.core Samples.headers_only_diff
              "diff --git a/f b/f"
              ["old mode 100644"; "new mode 100755"; "--- a/f"; "+++ b/f"])
    as (_ & _ & H).
  - left. reflexivity.
  - vm_compute. left. reflexivity.
  - vm_compute. discriminate.
  - destruct H as (fd & Hin & Hpath & Hlines & _).
    + exists "--- a/f". split; [vm_compute; tauto | reflexivity].
    + exists fd. repeat split; assumption.
Defined.

(** ** Diff capture *)

Section CaptureFacts.
Import Models GitObserver Errors.

Lemma only_raises_bind {A B : Type} (P : exn -> bool) (m : result A) (f : A -> result B) :
  only_raises P m -> (forall a, m = Ok a -> only_raises P (f a)) ->
  only_raises P (bind m f).
Proof.
  intros Hm Hf e. destruct m as [a|e']; cbn [bind].
  - now apply Hf.
  - intros H. inversion H; subst. now apply Hm.
Qed.

Lemma only_raises_ok {A : Type} (P : exn -> bool) (a : A) : only_raises P (Ok a).
Proof. intros e H. discriminate. Qed.

(** A handler that returns a value makes the [try] total when every
    exception of the body is caught. *)
Lemma try_except_total {A : Type} (body : result A) (P classes : exn -> bool) (d : A) :
  only_raises P body -> (forall e, P e = true -> classes e = true) ->
  exists a, try_except body classes (fun _ => Ok d) = Ok a.
Proof.
  intros Hb Hc. destruct body as [a|e]; cbn [try_except].
  - now exists a.
  - rewrite (Hc e (Hb e eq_refl)). now exists d.
Qed.

Lemma try_except_caught {A : Type} (body : result A) (classes : exn -> bool) (d : A) e :
  body = Raise e -> classes e = true ->
  try_except body classes (fun _ => Ok d) = Ok d.
Proof. intros -> H. cbn. now rewrite H. Qed.

Variable gc : GitDiffCapture.
Hypothesis Hrepo : repository_errors_only gc.

Let G := GIT_ERRORS (git_module gc).

Lemma repo_only : only_raises G (repo gc).
Proof. exact (proj1 Hrepo). Qed.

Lemma diff_only (r : Repo) (args : list string) :
  repo gc = Ok r -> only_raises G (git_diff r args).
Proof. intros Hr. now apply (proj2 Hrepo r Hr). Qed.

Lemma has_commits_total : exists b, _has_commits gc = Ok b.
Proof.
  unfold _has_commits. eapply try_except_total with (P := G).
  - apply only_raises_bind; [apply repo_only|]. intros r Hr.
    destruct (proj2 Hrepo r Hr) as (Hab & Hic & _).
    apply only_raises_bind; [exact Hab|]. intros b _.
    rewrite Hr. cbn [bind].
    apply only_raises_bind; [apply Hic|]. intros; apply only_raises_ok.
  - intros e He. destruct e; try exact He; reflexivity.
Qed.

Lemma combined_body_only (fnames : list string) (hc : bool) :
  only_raises G
    ((if hc
      then r <- repo gc ;; git_diff r (head_args fnames)
      else r <- repo gc ;;
           staged <- git_diff r (cached_args fnames) ;;
           unstaged <- (if Py.nonempty (wd_args fnames)
                        then (r' <- repo gc ;; git_diff r' (wd_args fnames))
                        else Ok "") ;;
           Ok (staged ++ String Py.LF "" ++ unstaged))).
Proof.
  destruct hc.
  - apply only_raises_bind; [apply repo_only|]. intros r Hr. now apply diff_only.
  - apply only_raises_bind; [apply repo_only|]. intros r Hr.
    apply only_raises_bind; [now apply diff_only|]. intros staged _.
    apply only_raises_bind; [|intros; apply only_raises_ok].
    destruct (Py.nonempty (wd_args fnames)); [|apply only_raises_ok].
    rewrite Hr. cbn [bind]. now apply diff_only.
Qed.

Lemma get_combined_diff_total (file_paths : option (list string)) :
  exists d, get_combined_diff gc file_paths = Ok d.
Proof.
  unfold get_combined_diff. eapply try_except_total with (P := G); [|auto].
  destruct has_commits_total as [hc Hhc]. rewrite Hhc. cbn [bind].
  apply only_raises_bind; [|intros; apply only_raises_ok].
  apply (combined_body_only (fnames_of file_paths) hc).
Qed.

Lemma get_unstaged_diff_total : exists d, get_unstaged_diff gc = Ok d.
Proof.
  unfold get_unstaged_diff. eapply try_except_total with (P := G); [|auto].
  apply only_raises_bind; [apply repo_only|]. intros r Hr.
  apply only_raises_bind; [now apply diff_only|]. intros; apply only_raises_ok.
Qed.

Lemma get_staged_diff_total : exists d, get_staged_diff gc = Ok d.
Proof.
  unfold get_staged_diff. eapply try_except_total with (P := G); [|auto].
  apply only_raises_bind; [apply repo_only|]. intros r Hr.
  apply only_raises_bind; [now apply diff_only|]. intros; apply only_raises_ok.
Qed.

Lemma get_dirty_files_total : exists d, get_dirty_files gc = Ok d.
Proof.
  unfold get_dirty_files. eapply try_except_total with (P := G); [|auto].
  apply only_raises_bind; [apply repo_only|]. intros r Hr.
  apply only_raises_bind; [now apply diff_only|]. intros s1 _.
  rewrite Hr. cbn [bind].
  apply only_raises_bind; [now apply diff_only|]. intros s2 _.
  apply only_raises_bind; [|intros; apply only_raises_ok].
  now apply (proj2 Hrepo r Hr).
Qed.

(** An exception of the operation's own queries gives the empty list. *)
Lemma queries_degrade_to_empty (r : Repo) :
  repo gc = Ok r ->
  (raises (git_diff r []) -> get_unstaged_diff gc = Ok [])
  /\ (raises (git_diff r ["--cached"]) -> get_staged_diff gc = Ok [])
  /\ (raises (git_diff r ["--name-only"; "--cached"])
      \/ raises (git_diff r ["--name-only"])
      \/ raises (untracked_files r) -> get_dirty_files gc = Ok [])
  /\ (forall file_paths,
        let fnames := fnames_of file_paths in
        (_has_commits gc = Ok true /\ raises (git_diff r (head_args fnames)))
        \/ (_has_commits gc = Ok false
            /\ (raises (git_diff r (cached_args fnames))
                \/ (fnames <> [] /\ raises (git_diff r (wd_args fnames))))) ->
        get_combined_diff gc file_paths = Ok []).
Proof.
  intros Hr.
  destruct (proj2 Hrepo r Hr) as (_ & _ & Hd & Hu).
  split; [|split; [|split]].
  - intros [e He]. unfold get_unstaged_diff. rewrite Hr. cbn [bind]. rewrite He.
    cbn [bind]. apply try_except_caught with (e := e); [reflexivity | exact (Hd _ _ He)].
  - intros [e He]. unfold get_staged_diff. rewrite Hr. cbn [bind]. rewrite He.
    cbn [bind]. apply try_except_caught with (e := e); [reflexivity | exact (Hd _ _ He)].
  - intros H. unfold get_dirty_files. rewrite Hr. cbn [bind].
    destruct (git_diff r ["--name-only"; "--cached"]) as [s1|e1] eqn:H1; cbn [bind].
    2:{ apply try_except_caught with (e := e1); [reflexivity|]. exact (Hd _ _ H1). }
    destruct (git_diff r ["--name-only"]) as [s2|e2] eqn:H2; cbn [bind].
    2:{ apply try_except_caught with (e := e2); [reflexivity|]. exact (Hd _ _ H2). }
    destruct (untracked_files r) as [u|e3] eqn:H3; cbn [bind].
    2:{ apply try_except_caught with (e := e3); [reflexivity|]. exact (Hu _ eq_refl). }
    destruct H as [[e He]|[[e He]|[e He]]]; discriminate.
  - intros file_paths fnames H. unfold get_combined_diff.
    fold (fnames_of file_paths). fold fnames.
    destruct H as [[Hhc [e He]]|[Hhc H]]; rewrite Hhc; cbn [bind]; rewrite Hr; cbn [bind].
    + fold (head_args fnames). rewrite He. cbn [bind].
      apply try_except_caught with (e := e); [reflexivity | exact (Hd _ _ He)].
    + fold (cached_args fnames) (wd_args fnames).
      destruct (git_diff r (cached_args fnames)) as [s1|e1] eqn:H1; cbn [bind].
      2:{ apply try_except_caught with (e := e1); [reflexivity|]. exact (Hd _ _ H1). }
      destruct H as [[e He]|[Hne [e He]]]; [discriminate|].
      assert (Hw : Py.nonempty (wd_args fnames) = true).
      { unfold wd_args. destruct fnames; [congruence | reflexivity]. }
      rewrite Hw, He. cbn [bind].
      apply try_except_caught with (e := e); [reflexivity | exact (Hd _ _ He)].
Qed.

(** When the repository cannot be opened, every operation gives []. *)
Lemma no_repo_degrades_to_empty :
  raises (repo gc) ->
  (forall file_paths, get_combined_diff gc file_paths = Ok [])
  /\ get_unstaged_diff gc = Ok []
  /\ get_staged_diff gc = Ok []
  /\ get_dirty_files gc = Ok [].
Proof.
  intros [e He]. pose proof (repo_only e He) as HG.
  assert (Hhc : _has_commits gc = Ok false).
  { unfold _has_commits. rewrite He. cbn [bind].
    apply try_except_caught with (e := e); [reflexivity|].
    destruct e; try exact HG; reflexivity. }
  repeat split.
  - intros fp. unfold get_combined_diff. rewrite Hhc. cbn [bind]. rewrite He. cbn [bind].
    now apply try_except_caught with (e := e).
  - unfold get_unstaged_diff. rewrite He. now apply try_except_caught with (e := e).
  - unfold get_staged_diff. rewrite He. now apply try_except_caught with (e := e).
  - unfold get_dirty_files. rewrite He. now apply try_except_caught with (e := e).
Qed.

(** An exception while probing for commits is absorbed as "no commits". *)
Lemma probe_error_absorbed (r : Repo) :
  repo gc = Ok r ->
  raises (active_branch r)
  \/ (exists b, active_branch r = Ok b /\ raises (iter_commits r b)) ->
  _has_commits gc = Ok false.
Proof.
  intros Hr H. destruct (proj2 Hrepo r Hr) as (Hab & Hic & _).
  unfold _has_commits. rewrite Hr. cbn [bind].
  destruct H as [[e He]|(b & Hb & [e He])].
  - rewrite He. cbn [bind]. apply try_except_caught with (e := e); [reflexivity|].
    pose proof (Hab e He) as HG. destruct e; try exact HG; reflexivity.
  - rewrite Hb. cbn [bind]. rewrite He. cbn [bind].
    apply try_except_caught with (e := e); [reflexivity|].
    pose proof (Hic b e He) as HG. destruct e; try exact HG; reflexivity.
Qed.

End CaptureFacts.



Lemma sample_capture_errors (r : GitObserver.Repo) :
  r = SampleRepos.unborn_staged \/ r = SampleRepos.unborn_unstaged ->
  Errors.repository_errors_only (SampleRepos.capture r).
Proof.
  intros Hr. split.
  - intros e H. discriminate.
  - intros r' H. inversion H; subst r'. clear H.
    destruct Hr as [->| ->]; repeat split; intros; intros e H; cbn in H;
      try discriminate;
      try (inversion H; subst; reflexivity);
      match type of H with
      | (if ?c then _ else _) = _ => destruct c; discriminate
      end.
Qed.


(** In a repository without commits: what [get_combined_diff] parses. *)
Lemma get_combined_diff_no_commits (gc : GitObserver.GitDiffCapture)
  (r : GitObserver.Repo) (file_paths : option (list string)) (staged : string) :
  GitObserver._has_commits gc = Ok false ->
  GitObserver.repo gc = Ok r ->
  GitObserver.git_diff r (Errors.cached_args (Errors.fnames_of file_paths)) = Ok staged ->
  (Errors.fnames_of file_paths = [] ->
   GitObserver.get_combined_diff gc file_paths
   = Ok (DiffParser._parse_unified_diff (staged ++ Samples.NL ++ "")))
  /\ (forall unstaged,
        Errors.fnames_of file_paths <> [] ->
        GitObserver.git_diff r (Errors.wd_args (Errors.fnames_of file_paths)) = Ok unstaged ->
        GitObserver.get_combined_diff gc file_paths
        = Ok (DiffParser._parse_unified_diff (staged ++ Samples.NL ++ unstaged))).
Proof.
  intros Hhc Hr Hs. unfold GitObserver.get_combined_diff.
  fold (Errors.fnames_of file_paths). rewrite Hhc. cbn [bind]. rewrite Hr. cbn [bind].
  fold (Errors.cached_args (Errors.fnames_of file_paths)).
  fold (Errors.wd_args (Errors.fnames_of file_paths)).
  rewrite Hs. cbn [bind]. split.
  - intros Hf. unfold Errors.wd_args. rewrite Hf. reflexivity.
  - intros unstaged Hf Hu.
    assert (Hw : Py.nonempty (Errors.wd_args (Errors.fnames_of file_paths)) = true).
    { unfold Errors.wd_args. destruct (Errors.fnames_of file_paths); [congruence | reflexivity]. }
    rewrite Hw, Hu. reflexivity.
Qed.

(** C7 (the code at the failing input): a repository without commits,
    nothing staged, an unstaged change to file [x].  Without a path filter
    [get_combined_diff] never asks for the unstaged diff and returns the
    empty list, although the parse of the staged text followed by the
    unstaged text has one entry; with the filter [["x"]] it returns that
    entry. *)
Theorem get_combined_diff_unfiltered_drops_unstaged :
  GitObserver._has_commits (SampleRepos.capture SampleRepos.unborn_unstaged) = Ok false
  /\ GitObserver.git_diff SampleRepos.unborn_unstaged ["--cached"] = Ok ""
  /\ GitObserver.git_diff SampleRepos.unborn_unstaged [] = Ok Samples.diff_x
  /\ GitObserver.get_combined_diff (SampleRepos.capture SampleRepos.unborn_unstaged) None
     = Ok []
  /\ DiffParser._parse_unified_diff ("" ++ Samples.NL ++ Samples.diff_x)
     = [ {| Models.file_path := "x"; Models.hunk := "+a";
            Models.change_type := "modified" |} ]
  /\ GitObserver.get_combined_diff (SampleRepos.capture SampleRepos.unborn_unstaged)
       (Some ["x"])
     = Ok [ {| Models.file_path := "x"; Models.hunk := "+a";
               Models.change_type := "modified" |} ].
Proof.
  repeat split; reflexivity.
Qed.

(** ** The correlation engine *)

Section EngineFacts.
Import Models Matcher Engine.

Lemma acquire_diffs_total (git_capture : option GitObserver.GitDiffCapture)
  (matched : list GitObserver.FileChangeEvent) :
  capture_ok git_capture -> exists d, acquire_diffs git_capture matched = Ok d.
Proof.
  intros Hok. unfold acquire_diffs.
  assert (H : exists d,
             match git_capture with
             | Some gc =>
                 d <- GitObserver.get_combined_diff gc None ;;
                 if negb (Py.nonempty d) then GitObserver.get_unstaged_diff gc else Ok d
             | None => Ok []
             end = Ok d).
  { destruct git_capture as [gc|]; [|now exists []].
    destruct (get_combined_diff_total gc Hok None) as [d Hd]. rewrite Hd. cbn [bind].
    destruct (negb (Py.nonempty d)); [now apply get_unstaged_diff_total | now exists d]. }
  destruct H as [d ->]. cbn [bind].
  destruct (negb (Py.nonempty d) && Py.nonempty matched); eauto.
Qed.

Lemma acquire_diffs_no_capture (matched : list GitObserver.FileChangeEvent) :
  acquire_diffs None matched = Ok (map synthesized matched).
Proof.
  unfold acquire_diffs. cbn. destruct matched; reflexivity.
Qed.

Lemma flush_body_inv self git_capture node_id (p : pending) node score :
  flush_body self git_capture node_id p = Ok (node, score) ->
  record_of p node
  /\ id node = node_id
  /\ acquire_diffs git_capture
       (_find_changes_in_window self (Base.timestamp (fst (fst (fst p)))))
     = Ok (diffs (execution node))
  /\ score = _calculate_match_score (fst (fst (fst p))) (diffs (execution node))
               (_find_changes_in_window self (Base.timestamp (fst (fst (fst p))))).
Proof.
  destruct p as [[[convo source_ide] pid] pname]. unfold flush_body. cbn [fst].
  destruct (acquire_diffs git_capture _) as [d|e]; cbn [bind]; [|discriminate].
  intros H. inversion H; subst. cbn. repeat split; reflexivity.
Qed.

Lemma flush_body_total self git_capture node_id (p : pending) :
  capture_ok git_capture ->
  exists node score, flush_body self git_capture node_id p = Ok (node, score).
Proof.
  intros Hok. destruct p as [[[convo source_ide] pid] pname]. unfold flush_body.
  destruct (acquire_diffs_total git_capture
              (_find_changes_in_window self (Base.timestamp convo)) Hok) as [d ->].
  cbn [bind]. eauto.
Qed.

Lemma flush_loop_inv self git_capture uuid4 (prompts : list pending) :
  forall n out,
    flush_loop self git_capture uuid4 n prompts = Ok out ->
    Forall2 record_of prompts (map fst out).
Proof.
  induction prompts as [|p rest IH]; intros n out; cbn [flush_loop].
  - intros H. inversion H. constructor.
  - destruct (flush_body self git_capture (uuid4 n) p) as [[node score]|e] eqn:Hb;
      cbn [bind]; [|discriminate].
    destruct (flush_loop self git_capture uuid4 (S n) rest) as [xs|e] eqn:Hl;
      cbn [bind]; [|discriminate].
    intros H. inversion H; subst. cbn [map fst]. constructor.
    + now apply (flush_body_inv _ _ _ _ _ _ Hb).
    + now apply (IH (S n)).
Qed.

Lemma flush_loop_total self git_capture uuid4 (prompts : list pending) :
  capture_ok git_capture ->
  forall n, exists out, flush_loop self git_capture uuid4 n prompts = Ok out.
Proof.
  intros Hok. induction prompts as [|p rest IH]; intros n; cbn [flush_loop].
  - now exists [].
  - destruct (flush_body_total self git_capture (uuid4 n) p Hok) as (node & score & ->).
    cbn [bind]. destruct (IH (S n)) as [xs ->]. cbn [bind]. eauto.
Qed.

End EngineFacts.




(** ** Soundness of the pattern matcher *)

Section ReFacts.
Import Re ReSpec.

(** One more iteration of a star: the iteration matched [w1], the rest of
    the loop [w2]. *)
Ltac star_step IH1 IHn H :=
  let w1 := fresh "w1" in let rest1 := fresh "rest1" in let caps1 := fresh "caps1" in
  let Hw1 := fresh "Hw1" in let w2 := fresh "w2" in let rest := fresh "rest" in
  let caps2 := fresh "caps2" in let Hw2 := fresh "Hw2" in
  apply IH1 in H as (w1 & rest1 & caps1 & -> & Hw1 & H);
  destruct (String.length rest1 <? String.length (w1 ++ rest1))%nat; [|discriminate];
  apply IHn in H as (w2 & rest & caps2 & -> & Hw2 & H);
  exists (w1 ++ w2), rest, caps2; rewrite string_app_assoc;
  repeat split; [now constructor | assumption].

Lemma rmatch_sound {A : Type} (r : regex) :
  forall (s : string) (caps : list string) (k : string -> list string -> option A) (x : A),
    rmatch r s caps k = Some x ->
    exists w rest caps', s = w ++ rest /\ lang r w /\ k rest caps' = Some x.
Proof.
  induction r as [|p|r1 IH1 r2 IH2|r1 IH1 r2 IH2|g r1 IH1|r1 IH1|];
    intros s caps k x H; cbn [rmatch] in H.
  - exists "", s, caps. repeat split; assumption.
  - destruct s as [|c s]; [discriminate|].
    destruct (p c) eqn:Hp; [|discriminate].
    exists (String c ""), s, caps. repeat split; [|assumption].
    exists c. now split.
  - apply IH1 in H as (w1 & rest1 & caps1 & -> & Hw1 & H).
    apply IH2 in H as (w2 & rest & caps2 & -> & Hw2 & H).
    exists (w1 ++ w2), rest, caps2. rewrite string_app_assoc.
    repeat split; [|assumption]. now exists w1, w2.
  - destruct (rmatch r1 s caps k) as [y|] eqn:H1.
    + inversion H; subst y. apply IH1 in H1 as (w & rest & caps' & -> & Hw & Hk).
      exists w, rest, caps'. repeat split; [now left | assumption].
    + apply IH2 in H as (w & rest & caps' & -> & Hw & Hk).
      exists w, rest, caps'. repeat split; [now right | assumption].
  - revert H. generalize (String.length s) at 1. intros n. revert s caps x.
    induction n as [|n IHn]; intros s caps x H.
    + destruct g.
      * exists "", s, caps. repeat split; [constructor | assumption].
      * destruct (k s caps) as [y|] eqn:Hk; [|discriminate].
        inversion H; subst y. exists "", s, caps. repeat split; [constructor | assumption].
    + cbn beta iota fix in H. cbn zeta in H.
      destruct g.
      * match type of H with
        | context [rmatch r1 s caps ?kk] =>
            destruct (rmatch r1 s caps kk) as [y|] eqn:Hm
        end.
        -- inversion H; subst y. star_step IH1 IHn Hm.
        -- exists "", s, caps. repeat split; [constructor | assumption].
      * destruct (k s caps) as [y|] eqn:Hk.
        -- inversion H; subst y. exists "", s, caps.
           repeat split; [constructor | assumption].
        -- star_step IH1 IHn H.
  - apply IH1 in H as (w & rest & caps' & -> & Hw & Hk).
    exists w, rest, (caps' ++ [substring 0 (String.length (w ++ rest) - String.length rest)
                                 (w ++ rest)])%list.
    repeat split; assumption.
  - exists "", s, caps. repeat split.
    destruct s as [|c [|d s]]; [assumption | | discriminate].
    destruct (Ascii.eqb c Py.LF); [assumption | discriminate].
Qed.

Lemma string_length_app (a b : string) :
  String.length (a ++ b) = String.length a + String.length b.
Proof.
  induction a as [|c a IH]; cbn; [reflexivity | now rewrite IH].
Qed.

Lemma substring_prefix (w rest : string) :
  substring 0 (String.length w) (w ++ rest) = w.
Proof.
  induction w as [|c w IH]; cbn.
  - destruct rest; reflexivity.
  - now rewrite IH.
Qed.

Lemma match_here_sound (r : regex) (s : string) caps rest :
  match_here r s = Some (caps, rest) ->
  lang r (substring 0 (String.length s - String.length rest) s).
Proof.
  unfold match_here. intros H.
  apply rmatch_sound in H as (w & rest' & caps' & -> & Hw & H).
  inversion H; subst. rewrite string_length_app.
  replace (String.length w + String.length rest - String.length rest)
    with (String.length w) by lia.
  now rewrite substring_prefix.
Qed.

(** Every text [findall] returns is matched by the pattern. *)
Lemma findall_sound (r : regex) (s : string) :
  forall skip x, In x (findall_from r skip s) -> lang r x.
Proof.
  induction s as [|c s IH]; intros skip x H; cbn [findall_from] in H; [contradiction|].
  destruct skip as [|k]; [|now apply IH in H].
  destruct (match_here r (String c s)) as [[caps rest]|] eqn:Hm; [|now apply IH in H].
  destruct (String.length (String c s) - String.length rest) as [|n] eqn:Hn;
    [now apply IH in H|].
  destruct H as [<-|H]; [|now apply IH in H].
  rewrite <- Hn. eapply match_here_sound. exact Hm.
Qed.

Lemma star_chars (p : ascii -> bool) (w : string) :
  star (lang (Chr p)) w -> all_chars p w = true.
Proof.
  induction 1 as [|w1 w2 (c & -> & Hc) _ IH]; [reflexivity|].
  cbn. now rewrite Hc, IH.
Qed.

Lemma identifier_lang (w : string) :
  lang Matcher.re_identifier w -> identifier_shaped w.
Proof.
  intros (w1 & t1 & -> & (c1 & -> & H1) & w2 & t2 & -> & (c2 & -> & H2)
          & w3 & t3 & -> & (c3 & -> & H3) & Hs).
  apply star_chars in Hs.
  exists c1, (String c2 (String c3 t3)). cbn.
  rewrite H2, H3, Hs. repeat split; [assumption | lia].
Qed.

(** The keywords are identifier-shaped and none is a stop word. *)
Lemma extract_keywords_shape (text w : string) :
  In w (Matcher._extract_keywords text) ->
  identifier_shaped w /\ ~ In w Matcher.noise.
Proof.
  unfold Matcher._extract_keywords, Py.diff, Py.set_of. intros H.
  apply filter_In in H as [H Hn]. apply nodup_In in H. split.
  - apply identifier_lang. eapply findall_sound. exact H.
  - intros Hin. apply negb_true_iff in Hn.
    assert (Py.mem w Matcher.noise = true); [|congruence].
    unfold Py.mem. apply existsb_exists. exists w. split; [assumption|].
    apply String.eqb_refl.
Qed.

End ReFacts.

(** ** The match score *)

Section ScoreFacts.
Import Models Matcher SpecScore.
Local Open Scope Q_scope.

Lemma min_from_le (ds : list Q) :
  forall d x, In x (d :: ds) -> min_from d ds <= x.
Proof.
  induction ds as [|y ds IH]; intros d x Hin; cbn [min_from].
  - destruct Hin as [<-|[]]. apply Qle_refl.
  - destruct Hin as [<-|[<-|Hin]].
    + eapply Qle_trans; [apply IH; left; reflexivity | apply Q.le_min_l].
    + eapply Qle_trans; [apply IH; left; reflexivity | apply Q.le_min_r].
    + apply IH. now right.
Qed.

Lemma min_from_attained (ds : list Q) :
  forall d, exists x, In x (d :: ds) /\ min_from d ds == x.
Proof.
  induction ds as [|y ds IH]; intros d; cbn [min_from].
  - exists d. split; [now left | reflexivity].
  - destruct (IH (Qmin d y)) as (x & [<-|Hin] & Hx).
    + destruct (Q.min_spec d y) as [[_ Hm]|[_ Hm]].
      * exists d. split; [now left | now rewrite Hx].
      * exists y. split; [right; now left | now rewrite Hx].
    + exists x. split; [right; now right | assumption].
Qed.

Lemma min_delta_is_min convo (candidates : list GitObserver.FileChangeEvent) :
  candidates <> [] -> is_min_delta convo candidates (min_delta convo candidates).
Proof.
  destruct candidates as [|c cs]; [congruence|]. intros _. unfold min_delta.
  induction cs as [|c' cs [(c0 & Hin & Heq) Hle]]; cbn [fold_right].
  - split.
    + exists c. split; [now left | reflexivity].
    + intros x [<-|[]]. apply Qle_refl.
  - split.
    + destruct (Q.min_spec (delta_seconds convo c')
                  (fold_right (fun c'0 m => Qmin (delta_seconds convo c'0) m)
                     (delta_seconds convo c) cs)) as [[_ Hm]|[_ Hm]].
      * exists c'. split; [right; now left | assumption].
      * exists c0. split.
        -- destruct Hin as [<-|Hin]; [now left | right; now right].
        -- now rewrite Hm.
    + intros x [<-|[<-|Hx]].
      * eapply Qle_trans; [apply Q.le_min_r | apply Hle; now left].
      * apply Q.le_min_l.
      * eapply Qle_trans; [apply Q.le_min_r | apply Hle; now right].
Qed.

(** Two least elements are equal. *)
Lemma is_min_delta_unique convo candidates (a b : Q) :
  is_min_delta convo candidates a -> is_min_delta convo candidates b -> a == b.
Proof.
  intros [(ca & Hca & Ha) Hla] [(cb & Hcb & Hb) Hlb].
  apply Qle_antisym.
  - rewrite Hb. now apply Hla.
  - rewrite Ha. now apply Hlb.
Qed.

Lemma min_from_is_min convo c (cs : list GitObserver.FileChangeEvent) :
  is_min_delta convo (c :: cs)
    (min_from (delta_seconds convo c) (map (delta_seconds convo) cs)).
Proof.
  split.
  - destruct (min_from_attained (map (delta_seconds convo) cs) (delta_seconds convo c))
      as (x & Hin & Hx).
    change (delta_seconds convo c :: map (delta_seconds convo) cs)
      with (map (delta_seconds convo) (c :: cs)) in Hin.
    apply in_map_iff in Hin as (c0 & <- & Hc0).
    exists c0. now split.
  - intros x Hin. apply min_from_le.
    change (delta_seconds convo c :: map (delta_seconds convo) cs)
      with (map (delta_seconds convo) (c :: cs)).
    now apply in_map.
Qed.

Lemma ratio_overlap (a b : list string) :
  a <> [] -> b <> [] -> ratio (length (Py.inter a b)) (length a) = overlap_score a b.
Proof.
  intros Ha Hb. unfold ratio, overlap_score. rewrite Nat.max_comm.
  destruct a; [congruence|]. destruct b; [congruence|]. reflexivity.
Qed.

Lemma overlap_score_empty (a b : list string) :
  a = [] \/ b = [] -> overlap_score a b = 0.
Proof.
  intros [->| ->]; [reflexivity|]. destruct a; reflexivity.
Qed.

(** The guarded score of the code is the overlap score of the two sets. *)
Lemma guarded_overlap (g : bool) (a b : list string) :
  (g = false -> a = [] \/ b = []) ->
  (if g then if Py.nonempty a && Py.nonempty b
             then ratio (length (Py.inter a b)) (length a) else 0
   else 0) = overlap_score a b.
Proof.
  intros Hg. destruct g.
  - destruct a as [|x a]; [reflexivity|]. destruct b as [|y b]; [reflexivity|].
    cbn [Py.nonempty andb]. now apply ratio_overlap.
  - symmetry. now apply overlap_score_empty, Hg.
Qed.

(** [_calculate_match_score] computes the weighted sum of the three
    scores. *)
Lemma calculate_match_score_formula convo (ds : list FileDiff)
  (changes : list GitObserver.FileChangeEvent) :
  _calculate_match_score convo ds changes == score convo ds changes.
Proof.
  unfold _calculate_match_score, score.
  assert (Hfile :
    (if Py.nonempty (context_list convo) && Py.nonempty ds
     then if Py.nonempty (context_names convo) && Py.nonempty (diff_names ds)
          then ratio (length (Py.inter (context_names convo) (diff_names ds)))
                     (length (context_names convo))
          else 0
     else 0) = file_score convo ds).
  { apply guarded_overlap. intros Hg. apply andb_false_iff in Hg as [Hg|Hg].
    - left. unfold context_names. destruct (context_list convo); [reflexivity | discriminate].
    - right. unfold diff_names. destruct ds; [reflexivity | discriminate]. }
  assert (Hkw :
    (if Py.nonempty (prompt_tokens convo) && Py.nonempty ds
     then if Py.nonempty (hunk_tokens ds)
          then ratio (length (Py.inter (prompt_tokens convo) (hunk_tokens ds)))
                     (length (prompt_tokens convo))
          else 0
     else 0) = keyword_score convo ds).
  { unfold keyword_score.
    destruct (prompt_tokens convo) as [|w ws] eqn:Hp; [reflexivity|].
    cbn [Py.nonempty andb].
    destruct ds as [|d ds']; [reflexivity|]. cbn [Py.nonempty].
    destruct (hunk_tokens (d :: ds')) as [|h hs] eqn:Hh; [reflexivity|].
    cbn [Py.nonempty]. apply ratio_overlap; discriminate. }
  assert (Htime :
    match map (delta_seconds convo) changes with
    | [] => 0
    | d :: ds0 => 1 / (1 + min_from d ds0 / 10)
    end == time_score convo changes).
  { destruct changes as [|c cs]; [reflexivity|]. cbn [map]. unfold time_score.
    rewrite (is_min_delta_unique convo (c :: cs) _ _
               (min_from_is_min convo c cs)
               (min_delta_is_min convo (c :: cs) ltac:(discriminate))).
    reflexivity. }
  fold (context_names convo) (diff_names ds) (prompt_tokens convo) (hunk_tokens ds).
  rewrite Hfile, Hkw.
  destruct (negb (Py.nonempty ds) && negb (Py.nonempty changes)) eqn:Hz.
  - apply andb_true_iff in Hz as [Hd Hc].
    destruct ds; [|discriminate]. destruct changes; [|discriminate].
    unfold file_score, keyword_score.
    rewrite !overlap_score_empty by (right; reflexivity).
    reflexivity.
  - rewrite Htime. unfold ALPHA_TIME, BETA_FILE, GAMMA_KEYWORD.
    apply Qplus_comp; [apply Qplus_comp|]; apply Qmult_comp; reflexivity.
Qed.

End ScoreFacts.




(** ** The end-to-end scenario *)

Section ScenarioFacts.
Import Models Matcher Scenario.

Lemma scenario_candidates (t0 : Z) :
  _find_changes_in_window (matcher t0) t0 = [change t0].
Proof.
  unfold _find_changes_in_window.
  cbn [matcher add_file_change add_prompt _file_changes window __init__ app filter].
  unfold in_window, change. cbn [GitObserver.timestamp].
  assert (H1 : (t0 <=? t0 + seconds 5)%Z = true)
    by (apply Z.leb_le; unfold seconds; lia).
  assert (H2 : (t0 + seconds 5 <=? t0 + seconds DEFAULT_WINDOW_SECONDS)%Z = true)
    by (apply Z.leb_le; unfold seconds, DEFAULT_WINDOW_SECONDS; lia).
  now rewrite H1, H2.
Qed.

Lemma scenario_diffs (t0 : Z) :
  acquire_diffs (Some git_capture) [change t0] = Ok [the_diff].
Proof. vm_compute. reflexivity. Qed.

Lemma scenario_score (t0 : Z) :
  (_calculate_match_score (convo t0) [the_diff] [change t0] == 19 # 30)%Q.
Proof.
  unfold _calculate_match_score.
  assert (Hm : map (delta_seconds (convo t0)) [change t0] = [(5000000 # 1000000)%Q]).
  { cbn [map]. unfold delta_seconds. f_equal.
    change (Base.timestamp (convo t0)) with t0. cbn [change GitObserver.timestamp].
    replace (t0 + seconds 5 - t0)%Z with 5000000%Z by (unfold seconds; lia).
    reflexivity. }
  rewrite Hm. vm_compute. reflexivity.
Qed.

Lemma scenario_flush_body (t0 : Z) (node_id : string) :
  flush_body (matcher t0) (Some git_capture) node_id (convo t0, CLAUDECODE, "", "")
  = Ok (expected_node node_id t0,
        _calculate_match_score (convo t0) [the_diff] [change t0]).
Proof.
  unfold flush_body. change (Base.timestamp (convo t0)) with t0.
  rewrite scenario_candidates, scenario_diffs. cbn [bind]. f_equal.
Qed.

Lemma scenario_flush_loop (t0 : Z) (uuid4 : nat -> string) :
  flush_loop (matcher t0) (Some git_capture) uuid4 0 (_pending_prompts (matcher t0))
  = Ok [(expected_node (uuid4 0) t0,
         _calculate_match_score (convo t0) [the_diff] [change t0])].
Proof.
  change (_pending_prompts (matcher t0)) with [(convo t0, CLAUDECODE, "", "")].
  cbn [flush_loop]. rewrite scenario_flush_body. reflexivity.
Qed.

End ScenarioFacts.

(** C8 (as stated, refuted): in the end-to-end scenario the score is 19/30,
    which is not greater than 0.7. *)
Lemma end_to_end_score_not_above_threshold :
  exists s,
    Matcher.flush_scores (Scenario.matcher 1700000000000000)
      (Some Scenario.git_capture) (fun _ => "node") = Ok [s]
    /\ (s == 19 # 30)%Q
    /\ ~ (7 # 10 < s)%Q.
Proof.
  eexists. split; [vm_compute; reflexivity|].
  split; [reflexivity|]. intros H. vm_compute in H. discriminate.
Qed.

(** C8 (amended): in the end-to-end scenario, at any time [t0], [flush]
    returns one record with affected files [["src/auth.js"]], title
    "Fix the login bug" and reasoning "the null check was backwards",
    carrying the diff of src/auth.js; the match score computed for the
    exchange is 19/30 = 0.5 * 2/3 + 0.3 * 1 + 0.2 * 0, above 0.6 and not
    above 0.7. *)
Theorem end_to_end_scenario (t0 now : Z) (uuid4 : nat -> string) :
  (exists node self',
     Matcher.flush (Scenario.matcher t0) now (Some Scenario.git_capture) uuid4
     = (Ok [node], self')
     /\ node = Scenario.expected_node (uuid4 0) t0
     /\ Models.affected_files (Models.execution node) = ["src/auth.js"]
     /\ Models.clean_title (Models.intent node) = "Fix the login bug"
     /\ Models.reasoning (Models.execution node) = "the null check was backwards"
     /\ Models.diffs (Models.execution node) = [Scenario.the_diff])
  /\ (exists s,
        Matcher.flush_scores (Scenario.matcher t0) (Some Scenario.git_capture) uuid4
        = Ok [s]
        /\ (s == 19 # 30)%Q /\ (6 # 10 < s)%Q /\ ~ (7 # 10 < s)%Q)
  /\ (SpecScore.time_score (Scenario.convo t0) [Scenario.change t0] == 2 # 3)%Q
  /\ (SpecScore.file_score (Scenario.convo t0) [Scenario.the_diff] == 1)%Q
  /\ (SpecScore.keyword_score (Scenario.convo t0) [Scenario.the_diff] == 0)%Q.
Proof.
  split; [|split; [|split; [|split]]].
  - unfold Matcher.flush. rewrite scenario_flush_loop.
    eexists. eexists. split; [reflexivity|]. repeat split; reflexivity.
  - unfold Matcher.flush_scores. rewrite scenario_flush_loop. cbn [bind map snd].
    eexists. split; [reflexivity|].
    pose proof (scenario_score t0) as Hs.
    split; [exact Hs|]. rewrite Hs. split; [reflexivity|].
    intros H. vm_compute in H. discriminate.
  - unfold SpecScore.time_score, SpecScore.min_delta. cbn [fold_right].
    unfold Matcher.delta_seconds.
    change (Base.timestamp (Scenario.convo t0)) with t0.
    cbn [Scenario.change GitObserver.timestamp].
    replace (t0 + Matcher.seconds 5 - t0)%Z with 5000000%Z
      by (unfold Matcher.seconds; lia).
    vm_compute. reflexivity.
  - vm_compute. reflexivity.
  - vm_compute. reflexivity.
Qed.

(** ** The terminal proxy *)

Section ProxyFacts.
Import PTYWrapper.

Lemma truthy_true (s : string) : Py.truthy s = true <-> s <> "".
Proof. destruct s; cbn; split; congruence. Qed.

Lemma process_outputs_keep (outs : list string) :
  forall self,
    on_exchange (fold_left _process_output outs self) = on_exchange self
    /\ _current_prompt (fold_left _process_output outs self) = _current_prompt self
    /\ _last_prompt_time (fold_left _process_output outs self) = _last_prompt_time self.
Proof.
  induction outs as [|o outs IH]; intros self; cbn [fold_left]; [auto|].
  destruct (IH (_process_output self o)) as (H1 & H2 & H3).
  rewrite H1, H2, H3. auto.
Qed.

(** A boundary with a blank buffer changes nothing. *)
Lemma process_input_blank (self : PTYWrapper) (text : string) (now : Z) :
  Py.strip (_output_buffer self) = "" -> _process_input self text now = (self, []).
Proof.
  intros Hb. unfold _process_input. rewrite Hb.
  destruct (has_line_terminator text); reflexivity.
Qed.

(** A boundary with a non-blank buffer: the buffer is the response to the
    waiting prompt and the next prompt. *)
Lemma process_input_boundary (self : PTYWrapper) (text : string) (now : Z) :
  has_line_terminator text = true ->
  Py.strip (_output_buffer self) <> "" ->
  _process_input self text now
  = ({| on_exchange := on_exchange self;
        _output_buffer := "";
        _current_prompt := Py.strip (_output_buffer self);
        _last_prompt_time := Some now |},
     if Py.truthy (_current_prompt self)
        && (20 <? String.length (Py.strip (_output_buffer self)))%nat
        && on_exchange self
     then [Base.make
             (match _last_prompt_time self with Some t => t | None => now end)
             (_current_prompt self) (Py.strip (_output_buffer self))]
     else []).
Proof.
  intros Ht Hb. apply truthy_true in Hb.
  unfold _process_input, _flush_pending. rewrite Ht, Hb.
  destruct (Py.truthy (_current_prompt self)); cbn [andb]; [|reflexivity].
  destruct (20 <? String.length (Py.strip (_output_buffer self)))%nat; cbn [andb];
    [|reflexivity].
  destruct (on_exchange self); reflexivity.
Qed.

End ProxyFacts.




(* ================================================================== *)
(** * Further properties of the code *)

(** ** More on strings *)

Section MoreStringFacts.

Lemma rstrip_cons (c : ascii) (s : string) :
  Py.rstrip (String c s)
  = match Py.rstrip s with
    | EmptyString => if Py.isspace c then EmptyString else String c EmptyString
    | r => String c r
    end.
Proof. reflexivity. Qed.

Lemma rstrip_idempotent (s : string) : Py.rstrip (Py.rstrip s) = Py.rstrip s.
Proof.
  induction s as [|c s IH]; [reflexivity|].
  rewrite rstrip_cons. destruct (Py.rstrip s) as [|d r] eqn:Hr.
  - destruct (Py.isspace c) eqn:Hc; [reflexivity|].
    rewrite rstrip_cons. cbn [Py.rstrip]. now rewrite Hc.
  - rewrite rstrip_cons, IH. reflexivity.
Qed.

(** What is left of [lstrip] does not start with white space. *)
Lemma lstrip_head (s : string) (c : ascii) (r : string) :
  Py.lstrip s = String c r -> Py.isspace c = false.
Proof.
  induction s as [|d s IH]; cbn [Py.lstrip]; [discriminate|].
  destruct (Py.isspace d) eqn:Hd; [exact IH|].
  intros H. inversion H; subst. exact Hd.
Qed.

Lemma rstrip_head (s : string) (c : ascii) (r : string) :
  Py.rstrip s = String c r -> exists r', s = String c r'.
Proof.
  destruct s as [|d s]; cbn [Py.rstrip]; [discriminate|].
  destruct (Py.rstrip s); [destruct (Py.isspace d)|]; intros H;
    inversion H; subst; eauto.
Qed.

Lemma strip_head (s : string) (c : ascii) (r : string) :
  Py.strip s = String c r -> Py.isspace c = false.
Proof.
  unfold Py.strip. intros H.
  destruct (rstrip_head _ _ _ H) as [r' Hr]. eapply lstrip_head. exact Hr.
Qed.

Lemma lstrip_fixed (s : string) :
  (forall c r, s = String c r -> Py.isspace c = false) -> Py.lstrip s = s.
Proof.
  destruct s as [|c s]; [reflexivity|]. intros H.
  cbn [Py.lstrip]. now rewrite (H c s eq_refl).
Qed.

(** [s.strip().strip() == s.strip()] *)
Lemma strip_idempotent (s : string) : Py.strip (Py.strip s) = Py.strip s.
Proof.
  unfold Py.strip at 1.
  rewrite (lstrip_fixed (Py.strip s)).
  - unfold Py.strip. apply rstrip_idempotent.
  - intros c r H. eapply strip_head. exact H.
Qed.

Lemma substring_length_le (n : nat) (s : string) :
  String.length (substring 0 n s) <= n.
Proof.
  revert s. induction n as [|n IH]; intros [|c s]; cbn; try lia.
  specialize (IH s). lia.
Qed.

Lemma contains_char_app (c : ascii) (a b : string) :
  Py.contains_char c (a ++ b) = Py.contains_char c a || Py.contains_char c b.
Proof.
  induction a as [|d a IH]; cbn; [reflexivity|]. now rewrite IH, orb_assoc.
Qed.

Lemma lower_char_idempotent (c : ascii) :
  Py.lower_char (Py.lower_char c) = Py.lower_char c.
Proof.
  destruct c as [[] [] [] [] [] [] [] []]; reflexivity.
Qed.

Lemma lower_idempotent (s : string) : Py.lower (Py.lower s) = Py.lower s.
Proof.
  induction s as [|c s IH]; cbn; [reflexivity|].
  now rewrite lower_char_idempotent, IH.
Qed.

Lemma upper_char_not_lower (c : ascii) : Py.islower (Py.upper_char c) = false.
Proof.
  destruct c as [[] [] [] [] [] [] [] []]; reflexivity.
Qed.

Lemma upper_char_space (c : ascii) :
  Py.isspace c = false -> Py.isspace (Py.upper_char c) = false.
Proof.
  destruct c as [[] [] [] [] [] [] [] []]; vm_compute; intros; congruence.
Qed.

End MoreStringFacts.

(** ** More on the unified-diff parser *)

Section MoreParserFacts.
Import Models DiffParser.

Variable D : dialect.

Lemma parse_entry_origin (raw : string) (fd : FileDiff) :
  In fd (parse D raw) ->
  exists m body,
    In (m, body) (sections (lines_of raw))
    /\ extract_path D m <> ""
    /\ hunk_lines D body <> []
    /\ fd = {| file_path := extract_path D m;
               hunk := Py.join (String Py.LF "") (hunk_lines D body);
               change_type := kind_of D body |}.
Proof.
  rewrite parse_spec. unfold spec_parse. intros H.
  apply in_flat_map in H as ([m body] & Hsec & Hin).
  exists m, body. split; [exact Hsec|].
  unfold emit_section in Hin.
  destruct (extract_path D m) as [|c p] eqn:Hp; [contradiction|].
  destruct (hunk_lines D body) as [|l ls] eqn:Hh; [contradiction|].
  cbn in Hin. destruct Hin as [<-|[]].
  repeat split; discriminate.
Qed.

Lemma kind_of_values (body : list string) :
  In (kind_of D body) ["modified"; "added"; "deleted"; "renamed"].
Proof.
  unfold kind_of.
  assert (H : forall k, In k ["modified"; "added"; "deleted"; "renamed"] ->
                        In (fold_left (kind_step D) body k)
                           ["modified"; "added"; "deleted"; "renamed"]).
  { induction body as [|l body IH]; intros k Hk; [exact Hk|].
    cbn [fold_left]. apply IH. unfold kind_step.
    destruct (is_new_file l); [cbn; tauto|].
    destruct (is_deleted_file l); [cbn; tauto|].
    destruct (is_rename D l); [cbn; tauto | exact Hk]. }
  apply H. cbn. tauto.
Qed.

Lemma hunk_lines_roundtrip (raw m : string) (body : list string) :
  In (m, body) (sections (lines_of raw)) ->
  hunk_lines D body <> [] ->
  lines_of (Py.join (String Py.LF "") (hunk_lines D body)) = hunk_lines D body.
Proof.
  intros Hsec Hne. unfold lines_of. apply split_join; [exact Hne|].
  apply Forall_forall. intros x Hx. apply filter_In in Hx as [Hx _].
  destruct (sections_from_lines (lines_of raw)) as [_ Hinc].
  apply (Hinc m body Hsec) in Hx.
  pose proof (split_char_no_sep Py.LF raw) as Hno.
  rewrite Forall_forall in Hno. now apply Hno.
Qed.

Lemma join_nonempty (sep : string) (l : string) (ls : list string) :
  l <> "" -> Py.join sep (l :: ls) <> "".
Proof.
  intros Hl. destruct l as [|c l]; [congruence|].
  unfold Py.join. destruct ls; cbn; discriminate.
Qed.

Lemma hunk_line_nonempty (l : string) : is_hunk_line l = true -> l <> "".
Proof. intros H E. subst. discriminate. Qed.

(** Lines before the first boundary play no part. *)
Lemma sections_from_preamble (l1 l2 : list string) :
  no_boundary l1 ->
  sections_from (l1 ++ l2)
  = ((l1 ++ fst (sections_from l2))%list, snd (sections_from l2)).
Proof.
  induction 1 as [|l ls Hl _ IH]; cbn [app sections_from].
  - now destruct (sections_from l2).
  - rewrite IH, Hl. reflexivity.
Qed.

Lemma parse_lines_preamble (l1 l2 : list string) :
  no_boundary l1 -> parse_lines D (l1 ++ l2) = parse_lines D l2.
Proof.
  intros H. rewrite !parse_lines_sections. unfold sections.
  now rewrite (sections_from_preamble l1 l2 H).
Qed.

Lemma parse_preamble (pre d : string) :
  no_boundary (lines_of pre) ->
  parse D pre = [] /\ parse D (pre ++ String Py.LF d) = parse D d.
Proof.
  intros H. split.
  - rewrite parse_is_parse_lines, parse_lines_sections. unfold sections.
    now rewrite (sections_from_no_boundary _ H).
  - rewrite !parse_is_parse_lines. unfold lines_of. rewrite split_char_app.
    now apply parse_lines_preamble.
Qed.

End MoreParserFacts.

Lemma parsed_entry_shape (D : DiffParser.dialect) (raw : string)
  (fd : Models.FileDiff) :
  (forall l, DiffParser.appended D l = DiffParser.is_hunk_line l) ->
  In fd (DiffParser.parse D raw) ->
  Models.file_path fd <> ""
  /\ Models.hunk fd <> ""
  /\ Forall (fun l => DiffParser.is_hunk_line l = true)
            (DiffParser.lines_of (Models.hunk fd))
  /\ In (Models.change_type fd) ["modified"; "added"; "deleted"; "renamed"].
Proof.
  intros Happ Hin.
  apply parse_entry_origin in Hin as (m & body & Hsec & Hp & Hh & ->).
  cbn [Models.file_path Models.hunk Models.change_type].
  assert (Hall : Forall (fun l => DiffParser.is_hunk_line l = true)
                        (DiffParser.hunk_lines D body)).
  { apply Forall_forall. intros l Hl. apply filter_In in Hl as [_ Hl].
    now rewrite Happ in Hl. }
  split; [exact Hp|]. split.
  - destruct (DiffParser.hunk_lines D body) as [|l ls]; [congruence|].
    apply join_nonempty. apply hunk_line_nonempty. now inversion Hall.
  - split; [|apply kind_of_values].
    now rewrite (hunk_lines_roundtrip D raw m body Hsec Hh).
Qed.

(** X1: every FileDiff that [parse_unified_diff] or
    [GitDiffCapture._parse_unified_diff] returns has a non-empty path, a
    non-empty hunk all of whose lines are hunk lines (they start with "@@",
    "+", "-" or a space), and one of the four change types. *)
Theorem parsed_diffs_well_formed (D : DiffParser.dialect) (raw : string)
  (fd : Models.FileDiff) :
  D = DiffParser.core \/ D = DiffParser.observer ->
  In fd (DiffParser.parse D raw) ->
  (DiffParser.parse DiffParser.core raw = DiffParser.parse_unified_diff raw
   /\ DiffParser.parse DiffParser.observer raw = DiffParser._parse_unified_diff raw)
  /\ Models.file_path fd <> ""
  /\ Models.hunk fd <> ""
  /\ Forall (fun l => DiffParser.is_hunk_line l = true)
            (DiffParser.lines_of (Models.hunk fd))
  /\ In (Models.change_type fd) ["modified"; "added"; "deleted"; "renamed"].
Proof.
  intros HD Hin.
  assert (Happ : forall l, DiffParser.appended D l = DiffParser.is_hunk_line l).
  { destruct HD as [->| ->]; [exact appended_core | exact appended_observer]. }
  split; [split; [reflexivity | symmetry; apply observer_parse]|].
  exact (parsed_entry_shape D raw fd Happ Hin).
Qed.

Lemma parsed_diffs_well_formed_witness :
  exists fd,
    In fd (DiffParser.parse_unified_diff Samples.diff_x)
    /\ Models.file_path fd <> "" /\ Models.hunk fd <> "".
Proof.
  exists {| Models.file_path := "x"; Models.hunk := "+a";
            Models.change_type := "modified" |}.
  assert (Hin : In {| Models.file_path := "x"; Models.hunk := "+a";
                      Models.change_type := "modified" |}
                   (DiffParser.parse DiffParser.core Samples.diff_x))
    by (vm_compute; left; reflexivity).
  destruct (parsed_diffs_well_formed DiffParser.core Samples.diff_x _
              (or_introl eq_refl) Hin) as (_ & Hp & Hh & _).
  split; [exact Hin|]. split; assumption.
Defined.

(** X2: text in which no line starts with "diff --git" parses to the empty
    list, and such text placed before a diff (on lines of its own) does not
    change what the diff parses to; this holds for both copies of the
    parser. *)
Theorem preamble_is_ignored (pre d : string) :
  Forall (fun l => DiffParser.is_boundary l = false) (DiffParser.lines_of pre) ->
  DiffParser.parse_unified_diff pre = []
  /\ DiffParser._parse_unified_diff pre = []
  /\ DiffParser.parse_unified_diff (pre ++ Samples.NL ++ d)
     = DiffParser.parse_unified_diff d
  /\ DiffParser._parse_unified_diff (pre ++ Samples.NL ++ d)
     = DiffParser._parse_unified_diff d.
Proof.
  intros H.
  destruct (parse_preamble DiffParser.core pre d H) as [H1 H2].
  destruct (parse_preamble DiffParser.observer pre d H) as [H3 H4].
  rewrite !observer_parse. repeat split; assumption.
Qed.

Lemma preamble_is_ignored_witness :
  DiffParser.parse_unified_diff ("commit 1234" ++ Samples.NL ++ "+stray" ++ Samples.NL
                                 ++ Samples.diff_x)
  = DiffParser.parse_unified_diff Samples.diff_x.
Proof.
  destruct (preamble_is_ignored ("commit 1234" ++ Samples.NL ++ "+stray") Samples.diff_x)
    as (_ & _ & H & _).
  - vm_compute. repeat constructor.
  - rewrite <- H. now rewrite !string_app_assoc.
Defined.

(** ** Statistics, rendering and code blocks *)

Section ReportFacts.
Import DiffReport.

Lemma fold_count_line (lines : list string) :
  forall st,
    fold_left count_line lines st
    = {| file_path := file_path st;
         lines_added := lines_added st + length (filter is_added_line lines);
         lines_deleted := lines_deleted st + length (filter is_deleted_line lines);
         change_type := change_type st |}.
Proof.
  induction lines as [|l lines IH]; intros st; cbn [fold_left filter length].
  - destruct st; cbn. now rewrite !Nat.add_0_r.
  - rewrite IH. unfold count_line.
    destruct l as [|c l].
    + reflexivity.
    + unfold is_added_line, is_deleted_line, Py.startswith. rewrite !prefix_cons.
      destruct (Ascii.eqb "+" c) eqn:Hp.
      * apply Ascii.eqb_eq in Hp. subst c. cbn [Ascii.eqb andb].
        rewrite prefix_empty. cbn [andb].
        change (Ascii.eqb "-" "+") with false. cbn [andb].
        destruct (negb (String.prefix "++" l)); cbn; f_equal; lia.
      * cbn [andb]. destruct (Ascii.eqb "-" c); cbn [andb];
          [|reflexivity].
        rewrite prefix_empty. cbn [andb].
        destruct (negb (String.prefix "--" l)); cbn; f_equal; lia.
Qed.

(** A line is counted at most once, and a file header is not counted. *)
Lemma line_classes (l : string) :
  More.b2n (is_added_line l) + More.b2n (is_deleted_line l) + More.b2n (Aux.header_line l) <= 1.
Proof.
  destruct l as [|c l]; [cbn; lia|].
  unfold is_added_line, is_deleted_line, Aux.header_line, Py.startswith.
  rewrite !prefix_cons.
  destruct (Ascii.eqb "+" c) eqn:Hp.
  - apply Ascii.eqb_eq in Hp. subst c. rewrite prefix_empty.
    change (Ascii.eqb "-" "+") with false. cbn [andb orb].
    destruct (String.prefix "++" l); cbn; lia.
  - destruct (Ascii.eqb "-" c) eqn:Hm.
    + rewrite prefix_empty. cbn [andb orb]. rewrite orb_false_r.
      destruct (String.prefix "--" l); cbn; lia.
    + cbn; lia.
Qed.

Lemma counts_bound (lines : list string) :
  length (filter is_added_line lines) + length (filter is_deleted_line lines)
  + length (filter Aux.header_line lines) <= length lines.
Proof.
  induction lines as [|l lines IH]; [cbn; lia|].
  pose proof (line_classes l) as H. cbn [filter length].
  destruct (is_added_line l), (is_deleted_line l), (Aux.header_line l);
    cbn [length More.b2n] in *; lia.
Qed.

Lemma list_sum_app (a b : list nat) : list_sum (a ++ b) = list_sum a + list_sum b.
Proof.
  unfold list_sum. induction a as [|x a IH]; cbn [app fold_right]; [reflexivity|].
  rewrite IH. lia.
Qed.

Lemma summary_app (a b : list Models.FileDiff) :
  total_files (calculate_diff_stats (a ++ b))
  = total_files (calculate_diff_stats a) + total_files (calculate_diff_stats b)
  /\ total_additions (calculate_diff_stats (a ++ b))
     = total_additions (calculate_diff_stats a) + total_additions (calculate_diff_stats b)
  /\ total_deletions (calculate_diff_stats (a ++ b))
     = total_deletions (calculate_diff_stats a) + total_deletions (calculate_diff_stats b).
Proof.
  unfold total_files, total_additions, total_deletions, calculate_diff_stats.
  cbn [files]. rewrite !map_app, !list_sum_app, length_app. auto.
Qed.

(** Replacing a character leaves none of it when the replacement has none,
    and brings in no character the replacement does not have. *)
Lemma replace_char_removes (c : ascii) (by_ s : string) :
  Py.contains_char c by_ = false ->
  Py.contains_char c (replace_char c by_ s) = false.
Proof.
  intros Hb. induction s as [|d s IH]; cbn [replace_char]; [reflexivity|].
  destruct (Ascii.eqb d c) eqn:Hd.
  - now rewrite contains_char_app, Hb, IH.
  - cbn [Py.contains_char]. now rewrite Ascii.eqb_sym, Hd, IH.
Qed.

Lemma replace_char_keeps (c x : ascii) (by_ s : string) :
  Py.contains_char x by_ = false ->
  Py.contains_char x s = false ->
  Py.contains_char x (replace_char c by_ s) = false.
Proof.
  intros Hb. induction s as [|d s IH]; cbn [replace_char Py.contains_char];
    [reflexivity|].
  intros H. apply orb_false_iff in H as [Hx H].
  destruct (Ascii.eqb d c).
  - now rewrite contains_char_app, Hb, IH.
  - cbn [Py.contains_char]. now rewrite Hx, IH.
Qed.

Lemma escape_safe (line : string) :
  Py.contains_char "<" (escape line) = false
  /\ Py.contains_char ">" (escape line) = false.
Proof.
  unfold escape. split.
  - apply replace_char_keeps; [reflexivity|]. now apply replace_char_removes.
  - now apply replace_char_removes.
Qed.

Lemma escape_no_LF (line : string) :
  Py.contains_char Py.LF line = false ->
  Py.contains_char Py.LF (escape line) = false.
Proof.
  intros H. unfold escape.
  repeat (apply replace_char_keeps; [reflexivity|]). exact H.
Qed.

Lemma html_line_no_LF (line : string) :
  Py.contains_char Py.LF line = false ->
  Py.contains_char Py.LF (html_line line) = false.
Proof.
  intros H. apply escape_no_LF in H. unfold html_line, span.
  destruct (is_added_line line); [|destruct (is_deleted_line line);
    [|destruct (Py.startswith line "@@")]];
    rewrite !contains_char_app, H; reflexivity.
Qed.

End ReportFacts.

(** X3: [calculate_diff_stats] produces one entry per FileDiff, in order,
    with the path and change type of the diff; [lines_added] is the number
    of hunk lines that start with "+" but not "+++", [lines_deleted] the
    number that start with "-" but not "---"; so the "---"/"+++" file
    headers that the parser keeps in the hunk are not counted, and added
    plus deleted plus header lines never exceed the lines of the hunk. *)
Theorem diff_stats_counts (diffs : list Models.FileDiff) :
  map DiffReport.file_path (DiffReport.files (DiffReport.calculate_diff_stats diffs))
  = map Models.file_path diffs
  /\ map DiffReport.change_type (DiffReport.files (DiffReport.calculate_diff_stats diffs))
     = map Models.change_type diffs
  /\ forall d, In d diffs ->
       let lines := Py.split_char Py.LF (Models.hunk d) in
       In (DiffReport.stats_of d) (DiffReport.files (DiffReport.calculate_diff_stats diffs))
       /\ DiffReport.lines_added (DiffReport.stats_of d)
          = length (filter DiffReport.is_added_line lines)
       /\ DiffReport.lines_deleted (DiffReport.stats_of d)
          = length (filter DiffReport.is_deleted_line lines)
       /\ (forall l, Aux.header_line l = true ->
             DiffReport.is_added_line l = false /\ DiffReport.is_deleted_line l = false)
       /\ DiffReport.total_changes (DiffReport.stats_of d)
          + length (filter Aux.header_line lines) <= length lines.
Proof.
  unfold DiffReport.calculate_diff_stats. cbn [DiffReport.files].
  rewrite !map_map. split; [|split].
  - apply map_ext. intros d. unfold DiffReport.stats_of. now rewrite fold_count_line.
  - apply map_ext. intros d. unfold DiffReport.stats_of. now rewrite fold_count_line.
  - intros d Hd. split; [now apply in_map|].
    unfold DiffReport.total_changes, DiffReport.stats_of.
    rewrite fold_count_line. cbn.
    split; [reflexivity|]. split; [reflexivity|]. split.
    + intros l Hl. pose proof (line_classes l) as H. rewrite Hl in H.
      destruct (DiffReport.is_added_line l), (DiffReport.is_deleted_line l);
        cbn in H; try lia; auto.
    + apply counts_bound.
Qed.

(** X4: the totals of a DiffSummary add up over concatenated diff texts:
    when d1 is empty or ends with a line break and d2 is empty or begins
    with a boundary line, the file, addition and deletion totals of
    calculate_diff_stats (parse_unified_diff (d1 + d2)) are the sums of the
    totals for d1 and for d2. *)
Theorem diff_summary_additive (d1 d2 : string) :
  (d1 = "" \/ exists a, d1 = a ++ Samples.NL) ->
  (d2 = "" \/ DiffParser.is_boundary d2 = true) ->
  let stats := fun d => DiffReport.calculate_diff_stats (DiffParser.parse_unified_diff d) in
  DiffReport.total_files (stats (d1 ++ d2))
  = DiffReport.total_files (stats d1) + DiffReport.total_files (stats d2)
  /\ DiffReport.total_additions (stats (d1 ++ d2))
     = DiffReport.total_additions (stats d1) + DiffReport.total_additions (stats d2)
  /\ DiffReport.total_deletions (stats (d1 ++ d2))
     = DiffReport.total_deletions (stats d1) + DiffReport.total_deletions (stats d2).
Proof.
  intros H1 H2 stats. unfold stats, DiffParser.parse_unified_diff.
  rewrite (parse_concat DiffParser.core eq_refl d1 d2 H1 H2).
  apply summary_app.
Qed.

Lemma diff_summary_additive_witness :
  DiffReport.total_additions
    (DiffReport.calculate_diff_stats
       (DiffParser.parse_unified_diff ((Samples.diff_x ++ Samples.NL) ++ Samples.diff_y)))
  = 2.
Proof.
  destruct (diff_summary_additive (Samples.diff_x ++ Samples.NL) Samples.diff_y)
    as (_ & H & _).
  - right. exists Samples.diff_x. reflexivity.
  - right. reflexivity.
  - rewrite H. reflexivity.
Defined.

(** X5: [diff_to_html] renders one line per hunk line, in order: splitting
    its output at line breaks gives exactly the spans of the hunk's lines;
    and the escaped text inside a span contains neither "<" nor ">". *)
Theorem diff_to_html_lines (d : Models.FileDiff) :
  Py.split_char Py.LF (DiffReport.diff_to_html d)
  = map DiffReport.html_line (Py.split_char Py.LF (Models.hunk d))
  /\ length (Py.split_char Py.LF (DiffReport.diff_to_html d))
     = length (Py.split_char Py.LF (Models.hunk d))
  /\ forall line,
       Py.contains_char "<" (DiffReport.escape line) = false
       /\ Py.contains_char ">" (DiffReport.escape line) = false
       /\ exists cls,
            DiffReport.html_line line = DiffReport.span cls (DiffReport.escape line)
            /\ In cls ["diff-add"; "diff-del"; "diff-hunk"; "diff-ctx"].
Proof.
  assert (H : Py.split_char Py.LF (DiffReport.diff_to_html d)
              = map DiffReport.html_line (Py.split_char Py.LF (Models.hunk d))).
  { unfold DiffReport.diff_to_html. apply split_join.
    - pose proof (split_char_nonempty Py.LF (Models.hunk d)) as Hne.
      destruct (Py.split_char Py.LF (Models.hunk d)); [congruence | discriminate].
    - apply Forall_forall. intros x Hx. apply in_map_iff in Hx as (l & <- & Hl).
      apply html_line_no_LF.
      pose proof (split_char_no_sep Py.LF (Models.hunk d)) as Hno.
      rewrite Forall_forall in Hno. now apply Hno. }
  split; [exact H|]. split; [now rewrite H, length_map|].
  intros line. destruct (escape_safe line) as [H1 H2].
  split; [exact H1|]. split; [exact H2|].
  unfold DiffReport.html_line.
  destruct (DiffReport.is_added_line line); [eexists; split; [reflexivity | cbn; tauto]|].
  destruct (DiffReport.is_deleted_line line); [eexists; split; [reflexivity | cbn; tauto]|].
  destruct (Py.startswith line "@@"); eexists; split; try reflexivity; cbn; tauto.
Qed.

Lemma diff_stats_counts_witness :
  DiffReport.lines_added
    (DiffReport.stats_of
       {| Models.file_path := "f"; Models.hunk := "--- a/f" ++ Samples.NL ++ "+++ b/f"
            ++ Samples.NL ++ "-old" ++ Samples.NL ++ "+new";
          Models.change_type := "modified" |}) = 1.
Proof.
  set (d := {| Models.file_path := "f";
               Models.hunk := "--- a/f" ++ Samples.NL ++ "+++ b/f"
                 ++ Samples.NL ++ "-old" ++ Samples.NL ++ "+new";
               Models.change_type := "modified" |}).
  destruct (diff_stats_counts [d]) as (_ & _ & H).
  destruct (H d (or_introl eq_refl)) as (_ & Ha & _).
  rewrite Ha. reflexivity.
Defined.

Section CodeBlockFacts.
Import Re ReSpec DiffReport.

Lemma lang_lit (s w : string) : lang (lit s) w -> w = s.
Proof.
  revert w. induction s as [|c s IH]; intros w H.
  - exact H.
  - destruct s as [|d s].
    + destruct H as (x & -> & Hx). apply Ascii.eqb_eq in Hx. now subst.
    + change (lit (String c (String d s)))
        with (Seq (chr c) (lit (String d s))) in H.
      destruct H as (w1 & w2 & -> & (x & -> & Hx) & H2).
      apply Ascii.eqb_eq in Hx. subst x. apply IH in H2. now subst.
Qed.

Lemma code_block_starts_with_fence (c : ascii) (s : string) caps rest :
  match_here re_code_block (String c s) = Some (caps, rest) -> c = "`"%char.
Proof.
  unfold match_here. intros H.
  apply rmatch_sound in H as (w & rest' & caps' & Hs & Hw & _).
  destruct Hw as (w1 & w2 & -> & H1 & _).
  apply lang_lit in H1. subst w1. cbn in Hs. now inversion Hs.
Qed.

Lemma finditer_no_fence (s : string) :
  Py.contains_char "`" s = false ->
  forall skip, finditer_group1 re_code_block skip s = [].
Proof.
  induction s as [|c s IH]; intros H skip; [reflexivity|].
  cbn [Py.contains_char] in H. apply orb_false_iff in H as [Hc H].
  cbn [finditer_group1]. destruct skip as [|k]; [|now apply IH].
  destruct (match_here re_code_block (String c s)) as [[caps rest]|] eqn:Hm;
    [|now apply IH].
  apply code_block_starts_with_fence in Hm. subst c. discriminate.
Qed.

End CodeBlockFacts.

(** X6: every block [extract_code_blocks_from_response] returns is
    non-empty and trimmed (stripping it again changes nothing), and a
    response without a backquote has no blocks. *)
Theorem code_blocks_trimmed (response : string) :
  (forall block,
     In block (DiffReport.extract_code_blocks_from_response response) ->
     block <> "" /\ Py.strip block = block)
  /\ (Py.contains_char "`" response = false ->
      DiffReport.extract_code_blocks_from_response response = []).
Proof.
  unfold DiffReport.extract_code_blocks_from_response. split.
  - intros block H. apply filter_In in H as [H Ht].
    apply in_map_iff in H as (g & <- & _). split.
    + now apply truthy_true.
    + apply strip_idempotent.
  - intros H. now rewrite (finditer_no_fence response H 0).
Qed.

Lemma code_blocks_trimmed_witness :
  DiffReport.extract_code_blocks_from_response "use the login form" = [].
Proof.
  destruct (code_blocks_trimmed "use the login form") as [_ H].
  apply H. reflexivity.
Defined.

(** ** More on the match score *)

Section MoreScoreFacts.
Import Models Matcher SpecScore.
Local Open Scope Q_scope.

Lemma delta_seconds_nonneg convo c : 0 <= delta_seconds convo c.
Proof. unfold delta_seconds. apply Qabs_nonneg. Qed.

Lemma min_delta_nonneg convo candidates : 0 <= min_delta convo candidates.
Proof.
  destruct candidates as [|c cs]; [apply Qle_refl|].
  destruct (min_delta_is_min convo (c :: cs) ltac:(discriminate))
    as [(c0 & _ & Heq) _].
  rewrite Heq. apply delta_seconds_nonneg.
Qed.

Lemma inverse_bounds (x : Q) : 1 <= x -> 0 <= 1 / x /\ 1 / x <= 1.
Proof.
  intros H. split.
  - apply Qle_shift_div_l; lra.
  - apply Qle_shift_div_r; lra.
Qed.

Lemma tenth_nonneg (d : Q) : 0 <= d -> 0 <= d / 10.
Proof. intros H. apply Qle_shift_div_l; lra. Qed.

Lemma time_score_bounds convo candidates :
  0 <= time_score convo candidates /\ time_score convo candidates <= 1.
Proof.
  unfold time_score. destruct candidates as [|c cs]; [split; lra|].
  pose proof (tenth_nonneg _ (min_delta_nonneg convo (c :: cs))) as H.
  apply inverse_bounds. lra.
Qed.

Lemma inter_length (a b : list string) : (length (Py.inter a b) <= length a)%nat.
Proof. unfold Py.inter. apply filter_length_le. Qed.

Lemma overlap_score_bounds (a b : list string) :
  0 <= overlap_score a b /\ overlap_score a b <= 1.
Proof.
  unfold overlap_score.
  destruct a as [|x a]; [split; lra|]. destruct b as [|y b]; [split; lra|].
  set (n := length (Py.inter (x :: a) (y :: b))).
  set (m := Nat.max 1 (length (x :: a))).
  assert (Hnm : (n <= m)%nat).
  { unfold n, m. pose proof (inter_length (x :: a) (y :: b)). lia. }
  assert (Hm : (1 <= m)%nat) by (unfold m; lia).
  assert (Hq : 0 < inject_Z (Z.of_nat m)).
  { change 0 with (inject_Z 0). rewrite <- Zlt_Qlt. lia. }
  split.
  - apply Qle_shift_div_l; [exact Hq|].
    setoid_replace (0 * inject_Z (Z.of_nat m)) with (inject_Z 0) by ring.
    rewrite <- Zle_Qle. lia.
  - apply Qle_shift_div_r; [exact Hq|].
    setoid_replace (1 * inject_Z (Z.of_nat m)) with (inject_Z (Z.of_nat m)) by ring.
    rewrite <- Zle_Qle. lia.
Qed.

Lemma inverse_decreasing (x y : Q) : 0 < x -> x < y -> 1 / y < 1 / x.
Proof.
  intros Hx Hy. apply Qlt_shift_div_r; [lra|].
  setoid_replace (1 / x * y) with (y / x) by (field; lra).
  apply Qlt_shift_div_l; lra.
Qed.

Lemma tenth_increasing (a b : Q) : a < b -> a / 10 < b / 10.
Proof.
  intros H. apply Qlt_shift_div_l; [lra|].
  setoid_replace (a / 10 * 10) with a by field. lra.
Qed.

End MoreScoreFacts.

(** X7: the match score lies between 0 and 1, and so does each of its
    three components. *)
Theorem match_score_between_0_and_1 (convo : Base.RawConversation)
  (diffs : list Models.FileDiff) (changes : list GitObserver.FileChangeEvent) :
  (0 <= Matcher._calculate_match_score convo diffs changes)%Q
  /\ (Matcher._calculate_match_score convo diffs changes <= 1)%Q
  /\ (0 <= SpecScore.time_score convo changes <= 1)%Q
  /\ (0 <= SpecScore.file_score convo diffs <= 1)%Q
  /\ (0 <= SpecScore.keyword_score convo diffs <= 1)%Q.
Proof.
  pose proof (time_score_bounds convo changes) as Ht.
  pose proof (overlap_score_bounds (SpecScore.context_names convo)
                (SpecScore.diff_names diffs)) as Hf.
  pose proof (overlap_score_bounds (SpecScore.prompt_tokens convo)
                (SpecScore.hunk_tokens diffs)) as Hk.
  fold (SpecScore.file_score convo diffs) in Hf.
  fold (SpecScore.keyword_score convo diffs) in Hk.
  rewrite (calculate_match_score_formula convo diffs changes).
  unfold SpecScore.score.
  repeat split; try tauto; lra.
Qed.



(** ** Derived fields *)

Section DerivedFacts.
Import Matcher.

Lemma finish_title_length (clean : string) : String.length (More.finish_title clean) <= 80.
Proof.
  unfold More.finish_title.
  destruct (80 <? String.length _)%nat eqn:H.
  - rewrite string_length_app. unfold Py.take.
    pose proof (substring_length_le 77
                  match clean with
                  | EmptyString => clean
                  | String c rest => String (Py.upper_char c) rest
                  end). cbn [String.length]. lia.
  - apply Nat.ltb_ge in H. exact H.
Qed.

Lemma finish_title_head (clean : string) (c : ascii) (rest : string) :
  (forall d r, clean = String d r -> Py.isspace d = false) ->
  More.finish_title clean = String c rest ->
  Py.islower c = false /\ Py.isspace c = false.
Proof.
  intros Hsp. unfold More.finish_title. destruct clean as [|d r].
  - cbn. discriminate.
  - specialize (Hsp d r eq_refl).
    destruct (80 <? String.length (String (Py.upper_char d) r))%nat; cbn; intros H;
      inversion H; subst; split;
      (apply upper_char_not_lower || now apply upper_char_space).
Qed.

Lemma first_paragraph_length (paragraphs : list string) (para : string) :
  first_paragraph paragraphs = Some para -> String.length para <= 500.
Proof.
  induction paragraphs as [|p ps IH]; cbn [first_paragraph]; [discriminate|].
  destruct ((30 <? String.length (Py.strip p))%nat
            && negb (existsb (Py.startswith (Py.strip p)) code_prefixes)); [|exact IH].
  intros H. inversion H. apply substring_length_le.
Qed.

End DerivedFacts.




(** ** Flushing again, pruning, and the callers *)

Section MoreEngineFacts.
Import Models Matcher Engine.

Lemma filter_idempotent {A : Type} (f : A -> bool) (l : list A) :
  filter f (filter f l) = filter f l.
Proof.
  induction l as [|x l IH]; cbn [filter]; [reflexivity|].
  destruct (f x) eqn:Hx; cbn [filter]; [rewrite Hx, IH|]; auto.
Qed.

Lemma filter_filter_weaker {A : Type} (f g : A -> bool) (l : list A) :
  (forall x, f x = true -> g x = true) ->
  filter f (filter g l) = filter f l.
Proof.
  intros H. induction l as [|x l IH]; cbn [filter]; [reflexivity|].
  destruct (g x) eqn:Hg; cbn [filter].
  - now rewrite IH.
  - destruct (f x) eqn:Hf; [|exact IH]. rewrite (H x Hf) in Hg. discriminate.
Qed.

Lemma flush_ok_state self now git_capture uuid4 nodes self' :
  flush self now git_capture uuid4 = (Ok nodes, self') ->
  self' = {| window := window self; _pending_prompts := [];
             _file_changes := pruned self now |}.
Proof.
  unfold flush.
  destruct (flush_loop self git_capture uuid4 0 (_pending_prompts self)); [|discriminate].
  intros H. now inversion H.
Qed.

(** A fresh exchange flushed without capture and without history. *)
Lemma on_exchange_quiet (m : TemporalMatcher) (convo : Base.RawConversation)
  (now : Z) (uuid4 : nat -> string) :
  _pending_prompts m = [] -> _file_changes m = [] ->
  exists node m',
    Callers.on_exchange m convo now uuid4 = (Ok [node], m')
    /\ _pending_prompts m' = [] /\ _file_changes m' = []
    /\ timestamp node = Base.timestamp convo
    /\ raw_prompt (intent node) = Base.prompt convo
    /\ ai_response (execution node) = Base.response convo
    /\ ide (source node) = CLAUDECODE
    /\ diffs (execution node) = []
    /\ affected_files (execution node) = [].
Proof.
  intros Hp Hc. unfold Callers.on_exchange, flush, add_prompt.
  cbn [_pending_prompts window _file_changes]. rewrite Hp, Hc. cbn [app flush_loop].
  unfold flush_body, _find_changes_in_window.
  cbn [_file_changes window filter]. rewrite acquire_diffs_no_capture.
  cbn [bind map fst filter]. eexists. eexists. split; [reflexivity|].
  cbn. repeat split; reflexivity.
Qed.

End MoreEngineFacts.

(** X11: after a flush at time [now] that returns, every history entry
    kept is newer than [now - 2W]; an exchange whose timestamp is later
    than [now - 2W] has the same candidate changes after the pruning as
    before; and flushing again at the same time, with any capture, returns
    the empty list and leaves the matcher as it is. *)
Theorem pruning_keeps_live_candidates (self : Matcher.TemporalMatcher) (now : Z)
  (git_capture : option GitObserver.GitDiffCapture) (uuid4 : nat -> string)
  (nodes : list Models.PulseNode) (self' : Matcher.TemporalMatcher) :
  Matcher.flush self now git_capture uuid4 = (Ok nodes, self') ->
  (forall c, In c (Matcher._file_changes self') ->
     In c (Matcher._file_changes self)
     /\ (now - Matcher.window self * 2 < GitObserver.timestamp c)%Z)
  /\ (forall t, (now - Matcher.window self * 2 < t)%Z ->
        Matcher._find_changes_in_window self' t = Matcher._find_changes_in_window self t)
  /\ (forall git_capture' uuid4',
        Matcher.flush self' now git_capture' uuid4' = (Ok [], self')).
Proof.
  intros H. apply flush_ok_state in H. subst self'. split; [|split].
  - intros c Hc. cbn [Matcher._file_changes] in Hc. unfold Engine.pruned in Hc.
    apply filter_In in Hc as [Hc Ht]. apply Z.ltb_lt in Ht. now split.
  - intros t Ht. unfold Matcher._find_changes_in_window.
    cbn [Matcher._file_changes Matcher.window]. unfold Engine.pruned.
    apply filter_filter_weaker. intros c Hc. unfold Matcher.in_window in Hc.
    apply andb_true_iff in Hc as [Hc _]. apply Z.leb_le in Hc.
    apply Z.ltb_lt. lia.
  - intros gc' u'. unfold Matcher.flush. cbn.
    unfold Engine.pruned. now rewrite filter_idempotent.
Qed.

Lemma pruning_keeps_live_candidates_witness :
  Matcher._find_changes_in_window
    (snd (Matcher.flush (Scenario.matcher 0) 100000000 None (fun _ => "node"))) 0
  = Matcher._find_changes_in_window (Scenario.matcher 0) 0.
Proof.
  destruct (pruning_keeps_live_candidates (Scenario.matcher 0) 100000000 None
              (fun _ => "node")
              (match fst (Matcher.flush (Scenario.matcher 0) 100000000 None
                            (fun _ => "node")) with
               | Ok l => l | Raise _ => [] end)
              (snd (Matcher.flush (Scenario.matcher 0) 100000000 None (fun _ => "node"))))
    as (_ & H & _).
  - vm_compute. reflexivity.
  - apply H. vm_compute. reflexivity.
Defined.


(** ** More on the diff capture and the watcher *)

Section DirtyFilesFacts.
Import GitObserver.

Lemma insert_sorted_In (x y : string) (l : list string) :
  In y (insert_sorted x l) <-> y = x \/ In y l.
Proof.
  induction l as [|z l IH]; cbn [insert_sorted].
  - cbn. intuition.
  - destruct (String.leb x z); cbn [In]; [intuition|].
    rewrite IH. intuition.
Qed.

Lemma sorted_In (y : string) (l : list string) : In y (sorted l) <-> In y l.
Proof.
  unfold sorted. induction l as [|x l IH]; cbn [fold_right]; [reflexivity|].
  rewrite insert_sorted_In, IH. cbn. intuition.
Qed.

Lemma insert_sorted_NoDup (x : string) (l : list string) :
  ~ In x l -> NoDup l -> NoDup (insert_sorted x l).
Proof.
  induction l as [|z l IH]; cbn [insert_sorted]; intros Hx Hl.
  - constructor; [intros [] | constructor].
  - destruct (String.leb x z); [now constructor|].
    inversion Hl; subst. constructor.
    + rewrite insert_sorted_In. intros [->|H]; [apply Hx; now left | contradiction].
    + apply IH; [|assumption]. intros H. apply Hx. now right.
Qed.

Lemma sorted_NoDup (l : list string) : NoDup l -> NoDup (sorted l).
Proof.
  unfold sorted. induction 1 as [|x l Hx _ IH]; cbn [fold_right]; [constructor|].
  apply insert_sorted_NoDup; [|exact IH]. fold (sorted l). now rewrite sorted_In.
Qed.

Lemma insert_sorted_ascending (x : string) (l : list string) :
  More.ascending l -> More.ascending (insert_sorted x l).
Proof.
  unfold More.ascending.
  induction l as [|z l IH]; cbn [insert_sorted]; intros Hl.
  - repeat constructor.
  - destruct (String.leb x z) eqn:Hxz.
    + constructor; [exact Hl | now constructor].
    + inversion Hl as [|? ? Hs Hh]; subst. constructor; [now apply IH|].
      destruct l as [|w l]; cbn [insert_sorted].
      * constructor. destruct (String.leb_total x z) as [H|H]; congruence.
      * destruct (String.leb x w).
        -- constructor. destruct (String.leb_total x z) as [H|H]; congruence.
        -- constructor. now inversion Hh.
Qed.

Lemma sorted_ascending (l : list string) : More.ascending (sorted l).
Proof.
  unfold sorted. induction l as [|x l IH]; cbn [fold_right]; [constructor|].
  now apply insert_sorted_ascending.
Qed.

End DirtyFilesFacts.

(** X13: when its three repository queries succeed, [get_dirty_files]
    returns a list in ascending order without duplicates that holds
    exactly the non-blank lines of the staged and of the unstaged name
    listings and the untracked files. *)
Theorem dirty_files_sorted_union (gc : GitObserver.GitDiffCapture) (r : GitObserver.Repo)
  (staged unstaged : string) (untracked : list string) :
  GitObserver.repo gc = Ok r ->
  GitObserver.git_diff r ["--name-only"; "--cached"] = Ok staged ->
  GitObserver.git_diff r ["--name-only"] = Ok unstaged ->
  GitObserver.untracked_files r = Ok untracked ->
  exists files,
    GitObserver.get_dirty_files gc = Ok files
    /\ More.ascending files
    /\ NoDup files
    /\ forall f,
         In f files
         <-> (In f (GitObserver.splitlines staged) /\ Py.strip f <> "")
             \/ (In f (GitObserver.splitlines unstaged) /\ Py.strip f <> "")
             \/ In f untracked.
Proof.
  intros Hr Hs Hu Ht. unfold GitObserver.get_dirty_files.
  rewrite Hr. cbn [bind]. rewrite Hs. cbn [bind]. rewrite Hu. cbn [bind].
  rewrite Ht. cbn [bind try_except].
  eexists. split; [reflexivity|].
  split; [apply sorted_ascending|].
  split; [apply sorted_NoDup; apply NoDup_nodup|].
  intros f. rewrite sorted_In. unfold Py.set_of. rewrite nodup_In.
  rewrite !in_app_iff, !filter_In. unfold GitObserver.nonblank.
  rewrite !truthy_true. tauto.
Qed.

Lemma dirty_files_sorted_union_witness :
  exists files,
    GitObserver.get_dirty_files (SampleRepos.capture SampleRepos.unborn_staged) = Ok files
    /\ NoDup files.
Proof.
  destruct (dirty_files_sorted_union (SampleRepos.capture SampleRepos.unborn_staged)
              SampleRepos.unborn_staged "" "" [])
    as (files & H & _ & Hn & _); try reflexivity.
  exists files. split; assumption.
Defined.

Section CaptureResultFacts.
Import Models GitObserver.

Lemma observer_entry_shape (raw : string) (fd : FileDiff) :
  In fd (DiffParser._parse_unified_diff raw) -> More.well_formed_diff fd.
Proof.
  rewrite observer_parse. intros H.
  exact (parsed_entry_shape DiffParser.observer raw fd appended_observer H).
Qed.

Lemma parsed_or_empty (m : result string) (P : exn -> bool) (d : list FileDiff) :
  try_except (raw <- m ;; Ok (DiffParser._parse_unified_diff raw)) P (fun _ => Ok []) = Ok d ->
  d = [] \/ exists raw, d = DiffParser._parse_unified_diff raw.
Proof.
  destruct m as [raw|e]; cbn [bind try_except].
  - intros H. inversion H. right. now exists raw.
  - destruct (P e); intros H; inversion H. now left.
Qed.

Lemma capture_results (gc : GitDiffCapture) (d : list FileDiff) :
  (exists fp, get_combined_diff gc fp = Ok d)
  \/ get_unstaged_diff gc = Ok d \/ get_staged_diff gc = Ok d ->
  d = [] \/ exists raw, d = DiffParser._parse_unified_diff raw.
Proof.
  intros [[fp H]|[H|H]].
  - unfold get_combined_diff in H.
    destruct (_has_commits gc) as [hc|e]; cbn [bind] in H.
    + eapply parsed_or_empty. exact H.
    + cbn [try_except] in H. destruct (GIT_ERRORS (git_module gc) e); inversion H.
      now left.
  - unfold get_unstaged_diff in H.
    destruct (repo gc) as [r|e]; cbn [bind] in H.
    + eapply parsed_or_empty. exact H.
    + cbn [try_except] in H. destruct (GIT_ERRORS (git_module gc) e); inversion H.
      now left.
  - unfold get_staged_diff in H.
    destruct (repo gc) as [r|e]; cbn [bind] in H.
    + eapply parsed_or_empty. exact H.
    + cbn [try_except] in H. destruct (GIT_ERRORS (git_module gc) e); inversion H.
      now left.
Qed.

End CaptureResultFacts.

(** X14: every FileDiff that [get_combined_diff], [get_unstaged_diff] or
    [get_staged_diff] returns has a non-empty path, a non-empty hunk made
    of hunk lines only, and one of the four change types. *)
Theorem capture_results_well_formed (gc : GitObserver.GitDiffCapture)
  (d : list Models.FileDiff) (fd : Models.FileDiff) :
  (exists file_paths, GitObserver.get_combined_diff gc file_paths = Ok d)
  \/ GitObserver.get_unstaged_diff gc = Ok d
  \/ GitObserver.get_staged_diff gc = Ok d ->
  In fd d ->
  Models.file_path fd <> ""
  /\ Models.hunk fd <> ""
  /\ Forall (fun l => DiffParser.is_hunk_line l = true)
            (DiffParser.lines_of (Models.hunk fd))
  /\ In (Models.change_type fd) ["modified"; "added"; "deleted"; "renamed"].
Proof.
  intros H Hin. apply capture_results in H as [->|[raw ->]]; [contradiction|].
  now apply observer_entry_shape in Hin.
Qed.

Lemma capture_results_well_formed_witness :
  Models.hunk {| Models.file_path := "x"; Models.hunk := "+a";
                 Models.change_type := "modified" |} <> "".
Proof.
  destruct (capture_results_well_formed (SampleRepos.capture SampleRepos.unborn_staged)
              [ {| Models.file_path := "x"; Models.hunk := "+a";
                   Models.change_type := "modified" |} ]
              {| Models.file_path := "x"; Models.hunk := "+a";
                 Models.change_type := "modified" |}) as (_ & H & _).
  - left. exists None. reflexivity.
  - left. reflexivity.
  - exact H.
Defined.

Section WatcherFacts.
Import Watcher.

Lemma contains_cons (sub : string) (c : ascii) (s : string) :
  contains sub (String c s) = String.prefix sub (String c s) || contains sub s.
Proof. reflexivity. Qed.

Lemma contains_empty_text (sub : string) :
  contains sub "" = String.prefix sub "" || false.
Proof. reflexivity. Qed.

(** A text that has [c sub] inside has [sub] inside. *)
Lemma contains_tail (c : ascii) (sub s : string) :
  contains (String c sub) s = true -> contains sub s = true.
Proof.
  induction s as [|d s IH].
  - cbn. discriminate.
  - rewrite !contains_cons. intros H. apply orb_true_iff in H as [H|H].
    + rewrite prefix_cons in H. apply andb_true_iff in H as [_ H].
      apply orb_true_iff. right.
      destruct s as [|e s].
      * destruct sub; [reflexivity | discriminate].
      * rewrite contains_cons, H. reflexivity.
    + rewrite (IH H). apply orb_true_r.
Qed.

Lemma prefix_has_char (c : ascii) (sub s : string) :
  String.prefix sub s = true ->
  Py.contains_char c sub = true -> Py.contains_char c s = true.
Proof.
  revert s. induction sub as [|a sub IH]; intros s Hp Hc; [discriminate|].
  destruct s as [|b s]; [discriminate|].
  rewrite prefix_cons in Hp. apply andb_true_iff in Hp as [Hab Hp].
  apply Ascii.eqb_eq in Hab. subst b.
  cbn [Py.contains_char] in *. apply orb_true_iff in Hc as [Hc|Hc].
  - now rewrite Hc.
  - rewrite (IH s Hp Hc). apply orb_true_r.
Qed.

(** A text that has [sub] inside has every character of [sub]. *)
Lemma contains_has_char (c : ascii) (sub s : string) :
  contains sub s = true ->
  Py.contains_char c sub = true -> Py.contains_char c s = true.
Proof.
  intros H Hc. induction s as [|d s IH].
  - cbn in H. rewrite orb_false_r in H. destruct sub; discriminate.
  - rewrite contains_cons in H. apply orb_true_iff in H as [H|H].
    + eapply prefix_has_char; eassumption.
    + cbn [Py.contains_char]. rewrite (IH H). apply orb_true_r.
Qed.

Lemma prefix_app_r (sub s b : string) :
  String.prefix sub s = true -> String.prefix sub (s ++ b) = true.
Proof.
  revert s. induction sub as [|a sub IH]; intros s H; [apply prefix_empty|].
  destruct s as [|c s]; [discriminate|].
  cbn [append]. rewrite prefix_cons in *.
  apply andb_true_iff in H as [H1 H2]. now rewrite H1, IH.
Qed.

Lemma contains_app_r (sub s b : string) :
  contains sub s = true -> contains sub (s ++ b) = true.
Proof.
  induction s as [|c s IH]; intros H.
  - cbn in H. rewrite orb_false_r in H. destruct sub; [|discriminate].
    destruct b; reflexivity.
  - cbn [append]. rewrite contains_cons in *.
    apply orb_true_iff in H as [H|H].
    + change (String c (s ++ b)) with (String c s ++ b).
      now rewrite (prefix_app_r _ _ b H).
    + rewrite (IH H). apply orb_true_r.
Qed.

Lemma contains_app_l (sub a s : string) :
  contains sub s = true -> contains sub (a ++ s) = true.
Proof.
  intros H. induction a as [|c a IH]; [exact H|].
  cbn [append]. rewrite contains_cons, IH. apply orb_true_r.
Qed.

Lemma should_ignore_embedded (path a b : string) :
  _should_ignore path = true -> _should_ignore (a ++ path ++ b) = true.
Proof.
  unfold _should_ignore. rewrite !existsb_exists.
  intros (pat & Hin & Hc). exists pat. split; [exact Hin|].
  apply contains_app_l. now apply contains_app_r.
Qed.

Lemma dispatch_some (ev : fs_event) (c : GitObserver.FileChangeEvent) :
  dispatch ev = Some c -> More.tracked_change c.
Proof.
  unfold More.tracked_change.
  destruct ev as [e now|e now|e now]; cbn [dispatch];
    unfold on_modified, on_created, on_deleted, deliver;
    destruct (is_directory e); cbn [orb]; try discriminate;
    destruct (_should_ignore (src_path e)) eqn:Hi; try discriminate;
    intros H; inversion H; subst; cbn; tauto.
Qed.

End WatcherFacts.

(** X15: [_should_ignore] tests each pattern as a literal substring.  A
    path that has an ignored path inside is ignored; and a path without a
    "*" is ignored exactly when it contains ".git", "__pycache__",
    "node_modules", ".next", "venv" or ".DS_Store": the patterns "*.pyc"
    and "*.pyo" never match such a path, whatever its ending. *)
Theorem should_ignore_is_literal (path : string) :
  (forall a b, Watcher._should_ignore path = true ->
               Watcher._should_ignore (a ++ path ++ b) = true)
  /\ (Py.contains_char "*" path = false ->
      Watcher._should_ignore path
      = existsb (fun pattern => Watcher.contains pattern path)
          [".git"; "__pycache__"; "node_modules"; ".next"; "venv"; ".DS_Store"]).
Proof.
  split; [intros a b; apply should_ignore_embedded|].
  intros Hstar. unfold Watcher._should_ignore, Watcher.IGNORE_PATTERNS.
  cbn [existsb].
  assert (H1 : Watcher.contains "*.pyc" path = false).
  { destruct (Watcher.contains "*.pyc" path) eqn:H; [|reflexivity].
    rewrite (contains_has_char "*" _ _ H eq_refl) in Hstar. discriminate. }
  assert (H2 : Watcher.contains "*.pyo" path = false).
  { destruct (Watcher.contains "*.pyo" path) eqn:H; [|reflexivity].
    rewrite (contains_has_char "*" _ _ H eq_refl) in Hstar. discriminate. }
  rewrite H1, H2.
  destruct (Watcher.contains ".venv" path) eqn:Hv.
  - rewrite (contains_tail "." "venv" path Hv). rewrite !orb_true_r. reflexivity.
  - reflexivity.
Qed.

Lemma should_ignore_is_literal_witness :
  Watcher._should_ignore "/repo/build/cache.pyc" = false.
Proof.
  destruct (should_ignore_is_literal "/repo/build/cache.pyc") as [_ H].
  rewrite H; reflexivity.
Defined.

(** X16: a handler of RepoFileHandler calls the callback exactly for events
    that are not directories and whose path is not ignored, with the path,
    the time, and the kind "modified", "added" or "deleted"; so when the
    callback is [add_file_change], the history of a matcher that started
    without ignored paths never holds one, and the pending queue is not
    touched. *)
Theorem watcher_feeds_only_tracked_changes (evs : list Watcher.fs_event)
  (m : Matcher.TemporalMatcher) :
  (forall e now,
     Watcher.on_modified e now
     = (if Watcher.is_directory e || Watcher._should_ignore (Watcher.src_path e)
        then None
        else Some {| GitObserver.file_path := Watcher.src_path e;
                     GitObserver.change_type := "modified";
                     GitObserver.timestamp := now |})
     /\ Watcher.on_created e now
        = (if Watcher.is_directory e || Watcher._should_ignore (Watcher.src_path e)
           then None
           else Some {| GitObserver.file_path := Watcher.src_path e;
                        GitObserver.change_type := "added";
                        GitObserver.timestamp := now |})
     /\ Watcher.on_deleted e now
        = (if Watcher.is_directory e || Watcher._should_ignore (Watcher.src_path e)
           then None
           else Some {| GitObserver.file_path := Watcher.src_path e;
                        GitObserver.change_type := "deleted";
                        GitObserver.timestamp := now |}))
  /\ (Forall More.tracked_change (Matcher._file_changes m) ->
      Forall More.tracked_change (Matcher._file_changes (fold_left Watcher.feed evs m)))
  /\ Matcher._pending_prompts (fold_left Watcher.feed evs m) = Matcher._pending_prompts m
  /\ Matcher.window (fold_left Watcher.feed evs m) = Matcher.window m.
Proof.
  split; [intros e now; repeat split; reflexivity|].
  revert m. induction evs as [|ev evs IH]; intros m; cbn [fold_left].
  - auto.
  - destruct (IH (Watcher.feed m ev)) as (H1 & H2 & H3).
    assert (Hf : (Forall More.tracked_change (Matcher._file_changes m) ->
                  Forall More.tracked_change (Matcher._file_changes (Watcher.feed m ev)))
                 /\ Matcher._pending_prompts (Watcher.feed m ev) = Matcher._pending_prompts m
                 /\ Matcher.window (Watcher.feed m ev) = Matcher.window m).
    { unfold Watcher.feed. destruct (Watcher.dispatch ev) as [c|] eqn:Hd; [|auto].
      cbn. split; [|auto]. intros H. apply Forall_app. split; [exact H|].
      constructor; [|constructor]. eapply dispatch_some. exact Hd. }
    destruct Hf as (F1 & F2 & F3).
    split; [intros H; apply H1, F1, H|]. split; congruence.
Qed.

Lemma watcher_feeds_only_tracked_changes_witness :
  Forall More.tracked_change
    (Matcher._file_changes
       (fold_left Watcher.feed
          [ Watcher.Modified {| Watcher.is_directory := false;
                                Watcher.src_path := "/repo/.git/index" |} 5;
            Watcher.Created {| Watcher.is_directory := false;
                               Watcher.src_path := "/repo/src/auth.js" |} 6 ]
          (Matcher.__init__ 90))).
Proof.
  destruct (watcher_feeds_only_tracked_changes
              [ Watcher.Modified {| Watcher.is_directory := false;
                                    Watcher.src_path := "/repo/.git/index" |} 5;
                Watcher.Created {| Watcher.is_directory := false;
                                   Watcher.src_path := "/repo/src/auth.js" |} 6 ]
              (Matcher.__init__ 90)) as (_ & H & _).
  apply H. constructor.
Defined.

(** ** Deduplication and construction of conversations *)

Section DedupFacts.
Import BaseAdapter.

Lemma mem_In (x : string) (l : list string) : Py.mem x l = true <-> In x l.
Proof.
  unfold Py.mem. rewrite existsb_exists. split.
  - intros (y & Hy & He). apply String.eqb_eq in He. now subst.
  - intros H. exists x. split; [exact H | apply String.eqb_refl].
Qed.

Lemma mem_false (x : string) (l : list string) : Py.mem x l = false <-> ~ In x l.
Proof.
  rewrite <- mem_In. destruct (Py.mem x l); split; congruence.
Qed.

Lemma dedup_from_keys (convs : list Base.RawConversation) :
  forall seen,
    NoDup (map dedup_key (dedup_from seen convs))
    /\ forall c, In c (dedup_from seen convs) ->
         In c convs /\ dedup_key c <> "" /\ ~ In (dedup_key c) seen.
Proof.
  induction convs as [|h rest IH]; intros seen; cbn [dedup_from].
  - split; [constructor | intros c []].
  - destruct (Py.truthy (dedup_key h) && negb (Py.mem (dedup_key h) seen)) eqn:Hk.
    + apply andb_true_iff in Hk as [Ht Hm]. apply truthy_true in Ht.
      apply negb_true_iff, mem_false in Hm.
      destruct (IH (dedup_key h :: seen)) as [Hnd Hin]. split.
      * cbn [map]. constructor; [|exact Hnd].
        intros H. apply in_map_iff in H as (c & Hc & Hcin).
        destruct (Hin c Hcin) as (_ & _ & Hns). apply Hns. left. now symmetry.
      * intros c [<-|Hc]; [cbn; tauto|].
        destruct (Hin c Hc) as (H1 & H2 & H3). split; [now right|].
        split; [exact H2|]. intros H. apply H3. now right.
    + destruct (IH seen) as [Hnd Hin]. split; [exact Hnd|].
      intros c Hc. destruct (Hin c Hc) as (H1 & H2 & H3). split; [now right | tauto].
Qed.

Lemma dedup_from_first (convs : list Base.RawConversation) :
  forall seen c,
    In c convs -> dedup_key c <> "" -> ~ In (dedup_key c) seen ->
    exists pre c' post,
      convs = (pre ++ c' :: post)%list
      /\ In c' (dedup_from seen convs)
      /\ dedup_key c' = dedup_key c
      /\ forall x, In x pre -> dedup_key x <> dedup_key c.
Proof.
  induction convs as [|h rest IH]; intros seen c Hc Hk Hs; [contradiction|].
  destruct (string_dec (dedup_key h) (dedup_key c)) as [E|NE].
  - exists [], h, rest. split; [reflexivity|]. split; [|split; [exact E | intros x []]].
    cbn [dedup_from].
    assert (Ht : Py.truthy (dedup_key h) = true) by (apply truthy_true; congruence).
    assert (Hm : Py.mem (dedup_key h) seen = false) by (apply mem_false; congruence).
    rewrite Ht, Hm. now left.
  - destruct Hc as [->|Hc]; [congruence|].
    assert (Hgen : forall seen', ~ In (dedup_key c) seen' ->
              exists pre c' post,
                rest = (pre ++ c' :: post)%list
                /\ In c' (dedup_from seen' rest)
                /\ dedup_key c' = dedup_key c
                /\ forall x, In x pre -> dedup_key x <> dedup_key c)
      by (intros seen' Hs'; now apply IH).
    cbn [dedup_from].
    destruct (Py.truthy (dedup_key h) && negb (Py.mem (dedup_key h) seen)).
    + destruct (Hgen (dedup_key h :: seen)) as (pre & c' & post & -> & Hin & He & Hpre).
      { intros [H|H]; [congruence | contradiction]. }
      exists (h :: pre), c', post. repeat split; [now right | exact He |].
      intros x [<-|Hx]; [exact NE | now apply Hpre].
    + destruct (Hgen seen Hs) as (pre & c' & post & -> & Hin & He & Hpre).
      exists (h :: pre), c', post. repeat split; [exact Hin | exact He |].
      intros x [<-|Hx]; [exact NE | now apply Hpre].
Qed.

Lemma dedup_from_idempotent (convs : list Base.RawConversation) :
  forall seen, dedup_from seen (dedup_from seen convs) = dedup_from seen convs.
Proof.
  induction convs as [|h rest IH]; intros seen; cbn [dedup_from]; [reflexivity|].
  destruct (Py.truthy (dedup_key h) && negb (Py.mem (dedup_key h) seen)) eqn:Hk.
  - cbn [dedup_from]. rewrite Hk. now rewrite IH.
  - apply IH.
Qed.

End DedupFacts.



(** X18: a RawConversation comes out of [__post_init__] with prompt and
    response trimmed (stripping them again changes nothing) and with its
    timestamp, model name, session id, context files and project fields
    untouched. *)
Theorem post_init_trims (c : Base.RawConversation) :
  Py.strip (Base.prompt (Base.post_init c)) = Base.prompt (Base.post_init c)
  /\ Py.strip (Base.response (Base.post_init c)) = Base.response (Base.post_init c)
  /\ Base.timestamp (Base.post_init c) = Base.timestamp c
  /\ Base.model_name (Base.post_init c) = Base.model_name c
  /\ Base.session_id (Base.post_init c) = Base.session_id c
  /\ Base.context_files (Base.post_init c) = Base.context_files c
  /\ Base.project_name (Base.post_init c) = Base.project_name c
  /\ Base.project_path (Base.post_init c) = Base.project_path c.
Proof.
  unfold Base.post_init. cbn. repeat split; apply strip_idempotent.
Qed.

(** ** The IDE names of the callers *)

(** X19: [_name_to_ide] (cli) and [_ide_name_to_enum] (server) ignore the
    case of the name and agree on every name except those that read "kiro"
    in lower case, which the first maps to Kiro and the second to Unknown;
    neither ever answers Windsurf, Cline or Aider. *)
Theorem ide_name_mappings (name : string) :
  Callers._name_to_ide (Py.lower name) = Callers._name_to_ide name
  /\ Callers._ide_name_to_enum (Py.lower name) = Callers._ide_name_to_enum name
  /\ (Py.lower name <> "kiro" ->
      Callers._name_to_ide name = Callers._ide_name_to_enum name)
  /\ (Py.lower name = "kiro" ->
      Callers._name_to_ide name = Models.KIRO
      /\ Callers._ide_name_to_enum name = Models.UNKNOWN)
  /\ ~ In (Callers._name_to_ide name) [Models.WINDSURF; Models.CLINE; Models.AIDER]
  /\ ~ In (Callers._ide_name_to_enum name) [Models.WINDSURF; Models.CLINE; Models.AIDER].
Proof.
  unfold Callers._name_to_ide, Callers._ide_name_to_enum.
  rewrite lower_idempotent. split; [reflexivity|]. split; [reflexivity|].
  cbn [Callers.dict_get].
  destruct (String.eqb "cursor" (Py.lower name)) eqn:E1;
    [apply String.eqb_eq in E1; rewrite <- E1;
     repeat split; try reflexivity; try discriminate; cbn; intuition discriminate|].
  destruct (String.eqb "trae" (Py.lower name)) eqn:E2;
    [apply String.eqb_eq in E2; rewrite <- E2;
     repeat split; try reflexivity; try discriminate; cbn; intuition discriminate|].
  destruct (String.eqb "claudecode" (Py.lower name)) eqn:E3;
    [apply String.eqb_eq in E3; rewrite <- E3;
     repeat split; try reflexivity; try discriminate; cbn; intuition discriminate|].
  destruct (String.eqb "vscode" (Py.lower name)) eqn:E4;
    [apply String.eqb_eq in E4; rewrite <- E4;
     repeat split; try reflexivity; try discriminate; cbn; intuition discriminate|].
  destruct (String.eqb "codex" (Py.lower name)) eqn:E5;
    [apply String.eqb_eq in E5; rewrite <- E5;
     repeat split; try reflexivity; try discriminate; cbn; intuition discriminate|].
  destruct (String.eqb "kiro" (Py.lower name)) eqn:E6.
  - apply String.eqb_eq in E6. split; [congruence|].
    repeat split; try reflexivity; cbn; intuition discriminate.
  - apply String.eqb_neq in E6. split; [reflexivity|].
    split; [congruence|]. cbn; intuition discriminate.
Qed.

Lemma ide_name_mappings_witness :
  Callers._name_to_ide "Kiro" = Models.KIRO
  /\ Callers._ide_name_to_enum "Kiro" = Models.UNKNOWN.
Proof.
  destruct (ide_name_mappings "Kiro") as (_ & _ & _ & H & _).
  apply H. reflexivity.
Defined.

(** ** More on the terminal proxy *)

Section MoreProxyFacts.
Import PTYWrapper Re ReSpec.

(** A pattern whose matches all begin with [c] finds nothing to replace in
    a text without [c]. *)
Lemma sub_without_start (r : regex) (c : ascii) (repl : string) :
  (forall w, lang r w -> exists w', w = String c w') ->
  forall s, Py.contains_char c s = false -> sub r repl s = s.
Proof.
  intros Hstart. unfold sub.
  assert (Hnone : forall s, Py.contains_char c s = false -> match_here r s = None).
  { intros s Hs. destruct (match_here r s) as [[caps rest]|] eqn:Hm; [|reflexivity].
    unfold match_here in Hm.
    apply rmatch_sound in Hm as (w & rest' & caps' & -> & Hw & _).
    destruct (Hstart w Hw) as [w' ->]. cbn in Hs.
    rewrite Ascii.eqb_refl in Hs. discriminate. }
  induction s as [|d s IH]; intros Hs; cbn [sub_from].
  - now rewrite (Hnone "" Hs).
  - rewrite (Hnone _ Hs). cbn [Py.contains_char] in Hs.
    apply orb_false_iff in Hs as [_ Hs]. now rewrite (IH Hs).
Qed.

Lemma csi_starts_with_esc (w : string) :
  lang re_csi w -> exists w', w = String Py.ESC w'.
Proof.
  intros (w1 & w2 & -> & (x & -> & Hx) & _).
  apply Ascii.eqb_eq in Hx. subst x. now exists w2.
Qed.

Lemma osc_starts_with_esc (w : string) :
  lang re_osc w -> exists w', w = String Py.ESC w'.
Proof.
  intros (w1 & w2 & -> & (x & -> & Hx) & _).
  apply Ascii.eqb_eq in Hx. subst x. now exists w2.
Qed.

Lemma make_timestamp (t : Z) (p r : string) : Base.timestamp (Base.make t p r) = t.
Proof. reflexivity. Qed.

Lemma flush_pending_step (T : list Z) (self : PTYWrapper) (now : Z) :
  More2.times_known T self ->
  More2.times_known T (fst (_flush_pending self now))
  /\ Forall (fun c => In (Base.timestamp c) T) (snd (_flush_pending self now))
  /\ length (snd (_flush_pending self now)) <= 1.
Proof.
  intros [H1 H2]. unfold _flush_pending.
  destruct (Py.truthy (_current_prompt self)) eqn:Hp; cbn [andb];
    [|cbn; repeat split; auto].
  destruct (Py.truthy (Py.strip (_output_buffer self))); [|cbn; repeat split; auto].
  cbn [fst snd]. split; [|split].
  - split; cbn; [exact H1 | congruence].
  - apply truthy_true in Hp. specialize (H2 Hp).
    destruct (_last_prompt_time self) as [t|] eqn:Ht; [|congruence].
    destruct (20 <? _)%nat; [|constructor].
    destruct (on_exchange self); [|constructor].
    constructor; [|constructor]. rewrite make_timestamp. now apply H1.
  - destruct (20 <? _)%nat; [|cbn; lia].
    destruct (on_exchange self); cbn; lia.
Qed.

Lemma handle_step (T : list Z) (self : PTYWrapper) (ev : event) :
  More2.times_known T self ->
  More2.times_known (T ++ More.input_times [ev]) (fst (handle self ev))
  /\ Forall (fun c => In (Base.timestamp c) T) (snd (handle self ev))
  /\ length (snd (handle self ev)) <= More.b2n (More.may_emit ev).
Proof.
  intros HT. destruct ev as [text now|text|now]; cbn [handle More.input_times More.may_emit].
  - unfold _process_input.
    destruct (has_line_terminator text); cbn [More.b2n].
    + destruct (Py.truthy (Py.strip (_output_buffer self))).
      * destruct (flush_pending_step T self now HT) as (_ & Hf & Hl).
        destruct (_flush_pending self now) as [self1 emitted]. cbn [fst snd] in *.
        split; [|split; assumption].
        split; cbn; [|congruence].
        intros t Ht. inversion Ht; subst. apply in_or_app. right. now left.
      * cbn. split; [|split; [constructor | lia]].
        destruct HT as [H1 H2]. split; [|exact H2].
        intros t Ht. apply in_or_app. left. now apply H1.
    + cbn. split; [|split; [constructor | lia]].
      destruct HT as [H1 H2]. split; [|exact H2].
      intros t Ht. apply in_or_app. left. now apply H1.
  - cbn [fst snd]. rewrite app_nil_r. split; [|split; [constructor | cbn; lia]].
    destruct HT as [H1 H2]. split; [exact H1 | exact H2].
  - cbn [More.b2n]. rewrite app_nil_r. now apply flush_pending_step.
Qed.

Lemma relay_cons (self : PTYWrapper) (ev : event) (rest : list event) :
  relay self (ev :: rest)
  = (fst (relay (fst (handle self ev)) rest),
     (snd (handle self ev) ++ snd (relay (fst (handle self ev)) rest))%list).
Proof.
  cbn [relay]. destruct (handle self ev) as [s1 o1].
  cbn [fst snd]. destruct (relay s1 rest) as [s2 o2]. reflexivity.
Qed.

Lemma input_times_cons (ev : event) (rest : list event) :
  More.input_times (ev :: rest) = (More.input_times [ev] ++ More.input_times rest)%list.
Proof. destruct ev; reflexivity. Qed.

Lemma relay_times (evs : list event) :
  forall T self,
    More2.times_known T self ->
    Forall (fun c => In (Base.timestamp c) (T ++ More.input_times evs))
           (snd (relay self evs))
    /\ length (snd (relay self evs)) <= length (filter More.may_emit evs).
Proof.
  induction evs as [|ev rest IH]; intros T self HT.
  - cbn. split; [constructor | lia].
  - rewrite relay_cons. cbn [snd].
    destruct (handle_step T self ev HT) as (HT' & Hout & Hlen).
    destruct (IH _ _ HT') as [Hrest Hlen'].
    rewrite input_times_cons. split.
    + apply Forall_app. split.
      * eapply Forall_impl; [|exact Hout]. intros c Hc. apply in_or_app. now left.
      * eapply Forall_impl; [|exact Hrest]. intros c Hc. now rewrite app_assoc.
    + rewrite length_app. cbn [filter].
      destruct (More.may_emit ev); cbn [More.b2n length] in *; lia.
Qed.

Lemma flush_pending_without_callback (self : PTYWrapper) (now : Z) :
  _flush_pending (More2.without_callback self) now
  = (More2.without_callback (fst (_flush_pending self now)), []).
Proof.
  unfold _flush_pending.
  change (_current_prompt (More2.without_callback self)) with (_current_prompt self).
  change (_output_buffer (More2.without_callback self)) with (_output_buffer self).
  change (on_exchange (More2.without_callback self)) with false.
  destruct (Py.truthy (_current_prompt self) && Py.truthy (Py.strip (_output_buffer self)));
    [|reflexivity].
  destruct (20 <? String.length (Py.strip (_output_buffer self)))%nat; reflexivity.
Qed.

Lemma handle_without_callback (self : PTYWrapper) (ev : event) :
  handle (More2.without_callback self) ev
  = (More2.without_callback (fst (handle self ev)), []).
Proof.
  destruct ev as [text now|text|now]; cbn [handle].
  - unfold _process_input.
    destruct (has_line_terminator text); [|reflexivity].
    change (_output_buffer (More2.without_callback self)) with (_output_buffer self).
    destruct (Py.truthy (Py.strip (_output_buffer self))); [|reflexivity].
    rewrite flush_pending_without_callback.
    destruct (_flush_pending self now) as [s1 o1]. reflexivity.
  - reflexivity.
  - apply flush_pending_without_callback.
Qed.

Lemma relay_without_callback (evs : list event) :
  forall self,
    relay (More2.without_callback self) evs
    = (More2.without_callback (fst (relay self evs)), []).
Proof.
  induction evs as [|ev rest IH]; intros self.
  - reflexivity.
  - rewrite !relay_cons, handle_without_callback. cbn [fst snd].
    now rewrite IH.
Qed.

End MoreProxyFacts.

(** X20: child output without an escape character is captured verbatim:
    [_process_output] appends it unchanged to the buffer and touches
    nothing else. *)
Theorem plain_output_captured_verbatim (self : PTYWrapper.PTYWrapper) (text : string) :
  Py.contains_char Py.ESC text = false ->
  PTYWrapper._process_output self text
  = {| PTYWrapper.on_exchange := PTYWrapper.on_exchange self;
       PTYWrapper._output_buffer := PTYWrapper._output_buffer self ++ text;
       PTYWrapper._current_prompt := PTYWrapper._current_prompt self;
       PTYWrapper._last_prompt_time := PTYWrapper._last_prompt_time self |}.
Proof.
  intros H. unfold PTYWrapper._process_output.
  rewrite (sub_without_start PTYWrapper.re_csi Py.ESC "" csi_starts_with_esc text H).
  rewrite (sub_without_start PTYWrapper.re_osc Py.ESC "" osc_starts_with_esc text H).
  reflexivity.
Qed.

Lemma plain_output_captured_verbatim_witness :
  PTYWrapper._output_buffer
    (PTYWrapper._process_output (PTYWrapper.__init__ true) Terminal.banner)
  = Terminal.banner.
Proof.
  rewrite (plain_output_captured_verbatim (PTYWrapper.__init__ true) Terminal.banner);
    reflexivity.
Defined.

(** X21: over any run of the proxy from its initial state, every emitted
    exchange carries the time of one of the terminal inputs of the run
    (never the fall-back clock value, never the child's exit time), and
    the number of emitted exchanges is at most the number of inputs with a
    line terminator plus the number of exits. *)
Theorem emitted_exchanges_are_timed_by_inputs (callback : bool)
  (evs : list PTYWrapper.event) :
  Forall (fun c => In (Base.timestamp c) (More.input_times evs))
         (snd (PTYWrapper.relay (PTYWrapper.__init__ callback) evs))
  /\ length (snd (PTYWrapper.relay (PTYWrapper.__init__ callback) evs))
     <= length (filter More.may_emit evs).
Proof.
  apply (relay_times evs [] (PTYWrapper.__init__ callback)).
  split; cbn; [discriminate | congruence].
Qed.


(** ** Path extraction *)

Section PathFacts.
Import Re ReSpec DiffParser.

(** A greedy star over a character class takes a whole text of that class
    when the rest of the pattern accepts the end. *)
Lemma star_takes_all {A : Type} (p : ascii -> bool) (k : string -> list string -> option A)
  (x : A) :
  forall (s : string) (caps : list string),
    all_chars p s = true -> k "" caps = Some x ->
    rmatch (Star true (Chr p)) s caps k = Some x.
Proof.
  intros s caps Hs Hk. cbn [rmatch].
  remember (String.length s) as n eqn:Hn.
  assert (Hle : String.length s <= n) by lia. clear Hn.
  revert s Hs Hle. induction n as [|n IH]; intros s Hs Hle.
  - destruct s; [|cbn in Hle; lia]. now rewrite Hk.
  - destruct s as [|c s].
    + now rewrite Hk.
    + cbn [all_chars] in Hs. apply andb_true_iff in Hs as [Hc Hs].
      cbn [String.length] in Hle. rewrite Hc.
      assert (Hlt : (String.length s <? String.length (String c s))%nat = true)
        by (apply Nat.ltb_lt; cbn; lia).
      rewrite Hlt. rewrite (IH s Hs) by lia. reflexivity.
Qed.

Lemma substring_all (s : string) : substring 0 (String.length s) s = s.
Proof.
  induction s as [|c s IH]; cbn; [reflexivity | now rewrite IH].
Qed.

Lemma all_dot (s : string) :
  Py.contains_char Py.LF s = false ->
  all_chars (fun c => negb (Ascii.eqb c Py.LF)) s = true.
Proof.
  induction s as [|c s IH]; cbn [Py.contains_char all_chars]; [reflexivity|].
  intros H. apply orb_false_iff in H as [Hc H].
  now rewrite Ascii.eqb_sym, Hc, IH.
Qed.

(** At a ["b/"] that is followed by text, the pattern matches the whole
    rest of the line. *)
Lemma b_path_matches (g : string) :
  g <> "" -> Py.contains_char Py.LF g = false ->
  match_here re_b_path ("b/" ++ g) = Some ([g], "").
Proof.
  intros Hg Hlf. destruct g as [|c g]; [congruence|].
  cbn [Py.contains_char] in Hlf. apply orb_false_iff in Hlf as [Hc Hlf].
  unfold match_here, re_b_path, plus, dot.
  cbn [append lit rmatch chr].
  rewrite !Ascii.eqb_refl. rewrite Ascii.eqb_sym, Hc. cbn [negb].
  apply (star_takes_all (fun c0 => negb (Ascii.eqb c0 Py.LF))
           (fun s' caps' =>
              rmatch Eos s'
                (caps' ++ [substring 0 (String.length (String c g) - String.length s')
                             (String c g)])%list
                (fun s'' caps'' => Some (caps'', s'')))
           ([String c g], "") g []); [now apply all_dot|].
  cbn [rmatch app String.length Nat.sub substring]. now rewrite substring_all.
Qed.

Lemma prefix_split (p s : string) :
  String.prefix p s = true -> s = p ++ Py.drop (String.length p) s.
Proof.
  revert s. induction p as [|a p IH]; intros s H; [reflexivity|].
  destruct s as [|b s]; [discriminate|].
  rewrite prefix_cons in H. apply andb_true_iff in H as [Hab H].
  apply Ascii.eqb_eq in Hab. subst b. cbn. now rewrite <- IH.
Qed.

Lemma b_path_needs_prefix (s : string) :
  String.prefix "b/" s = false -> match_here re_b_path s = None.
Proof.
  intros H. destruct (match_here re_b_path s) as [[caps rest]|] eqn:Hm; [|reflexivity].
  unfold match_here in Hm.
  apply rmatch_sound in Hm as (w & rest' & caps' & -> & Hw & _).
  destruct Hw as (w1 & w2 & -> & H1 & _).
  change (lit "b/") with (Seq (chr "b") (chr "/")) in H1.
  destruct H1 as (x & y & -> & (a & -> & Ha) & (b & -> & Hb)).
  apply Ascii.eqb_eq in Ha, Hb. subst a b.
  cbn [append] in H. rewrite !prefix_cons, prefix_empty, !Ascii.eqb_refl in H.
  discriminate.
Qed.

Lemma search_b_path (s : string) :
  Py.contains_char Py.LF s = false ->
  forall before,
    More2.group1_of (search_from re_b_path before s)
    = match split_once "b/" s with
      | Some (_, EmptyString) => None
      | Some (_, p) => Some p
      | None => None
      end.
Proof.
  induction s as [|c s IH]; intros Hlf before.
  - reflexivity.
  - destruct (String.prefix "b/" (String c s)) eqn:Hp.
    + pose proof (prefix_split _ _ Hp) as Hs. cbn [String.length] in Hs.
      cbn [split_once]. rewrite Hp. cbn [String.length].
      destruct (Py.drop 2 (String c s)) as [|d g] eqn:Hd.
      * rewrite Hs. reflexivity.
      * cbn [search_from]. rewrite Hs at 1.
        rewrite b_path_matches; [reflexivity | discriminate |].
        rewrite Hs in Hlf. rewrite contains_char_app in Hlf.
        now apply orb_false_iff in Hlf as [_ Hlf].
    + cbn [search_from split_once]. rewrite Hp, (b_path_needs_prefix _ Hp).
      cbn [Py.contains_char] in Hlf. apply orb_false_iff in Hlf as [_ Hlf].
      rewrite (IH Hlf). destruct (split_once "b/" s) as [[a b]|]; reflexivity.
Qed.

Lemma extract_path_core (line : string) :
  Py.contains_char Py.LF line = false ->
  extract_path core line
  = match split_once "b/" line with
    | Some (_, p) => p
    | None => ""
    end.
Proof.
  intros H. cbn [extract_path core]. unfold search_group1, search.
  pose proof (search_b_path line H "") as Hs. unfold More2.group1_of in Hs.
  destruct (search_from re_b_path "" line) as [[[[bf caps] m] rest]|].
  - destruct caps as [|g caps].
    + destruct (split_once "b/" line) as [[a [|d p]]|]; [reflexivity | discriminate | reflexivity].
    + destruct (split_once "b/" line) as [[a [|d p]]|]; try discriminate.
      now inversion Hs.
  - destruct (split_once "b/" line) as [[a [|d p]]|]; [reflexivity | discriminate | reflexivity].
Qed.

(** Splitting at the first separator steps over a character that does not
    start one. *)
Lemma split_once_step (sep : string) (c : ascii) (s : string) :
  String.prefix sep (String c s) = false ->
  split_once sep (String c s)
  = match split_once sep s with
    | Some (a, b) => Some (String c a, b)
    | None => None
    end.
Proof. intros H. cbn [split_once]. now rewrite H. Qed.

Lemma split_once_here (sep s : string) :
  String.prefix sep s = true ->
  split_once sep s = Some ("", Py.drop (String.length sep) s).
Proof. intros H. destruct s; cbn [split_once]; now rewrite H. Qed.

Lemma prefix_app_self (p q : string) : String.prefix p (p ++ q) = true.
Proof.
  induction p as [|c p IH]; [apply prefix_empty|].
  cbn [append]. now rewrite prefix_cons, Ascii.eqb_refl, IH.
Qed.

Lemma contains_false_cons (sub : string) (c : ascii) (s : string) :
  Watcher.contains sub (String c s) = false ->
  String.prefix sub (String c s) = false /\ Watcher.contains sub s = false.
Proof. rewrite contains_cons. apply orb_false_iff. Qed.

Lemma split_b_after (p q : string) :
  Watcher.contains "b/" p = false ->
  split_once "b/" (p ++ " b/" ++ q) = Some (p ++ " ", q).
Proof.
  induction p as [|c p IH]; intros H.
  - cbn [append]. rewrite split_once_step by reflexivity.
    change (String "b" (String "/" q)) with ("b/" ++ q).
    now rewrite (split_once_here "b/" ("b/" ++ q) (prefix_app_self "b/" q)).
  - apply contains_false_cons in H as [Hp H].
    cbn [append]. rewrite split_once_step.
    + change (p ++ String " " (String "b" (String "/" q))) with (p ++ " b/" ++ q).
      now rewrite (IH H).
    + rewrite prefix_cons in *. destruct (Ascii.eqb "b" c); [|reflexivity].
      cbn [andb] in *. destruct p as [|d p]; [reflexivity|].
      cbn [append]. rewrite prefix_cons in *. rewrite prefix_empty in *.
      exact Hp.
Qed.

Lemma split_space_b_after (p q : string) :
  Watcher.contains "b/" p = false ->
  split_once " b/" (p ++ " b/" ++ q) = Some (p, q).
Proof.
  induction p as [|c p IH]; intros H.
  - now rewrite (split_once_here " b/" ("" ++ " b/" ++ q) (prefix_app_self " b/" q)).
  - apply contains_false_cons in H as [Hp H].
    cbn [append]. rewrite split_once_step.
    + change (p ++ String " " (String "b" (String "/" q))) with (p ++ " b/" ++ q).
      now rewrite (IH H).
    + rewrite prefix_cons. destruct (Ascii.eqb " " c); [|reflexivity].
      cbn [andb]. destruct p as [|d p]; [reflexivity|].
      apply contains_false_cons in H as [Hd _].
      cbn [append]. rewrite prefix_cons in *.
      destruct (Ascii.eqb "b" d); [|reflexivity]. cbn [andb] in *.
      destruct p as [|e p]; [reflexivity|].
      cbn [append]. rewrite prefix_cons in *. rewrite prefix_empty in *. exact Hd.
Qed.

End PathFacts.

(** X23: on a line without line feed, [parse_unified_diff] takes as path
    the text after the first "b/" of the boundary line, and
    [GitDiffCapture._parse_unified_diff] the text after the first " b/"
    (the empty path when there is none).  The two agree on a boundary
    line "diff --git a/P b/P" whose path P has no "b/" inside: both
    extract P. *)
Theorem path_extraction (line : string) :
  Py.contains_char Py.LF line = false ->
  DiffParser.extract_path DiffParser.core line
  = match DiffParser.split_once "b/" line with
    | Some (_, p) => p
    | None => ""
    end
  /\ DiffParser.extract_path DiffParser.observer line
     = match DiffParser.split_once " b/" line with
       | Some (_, p) => p
       | None => ""
       end
  /\ (forall P,
        line = "diff --git a/" ++ P ++ " b/" ++ P ->
        Watcher.contains "b/" P = false ->
        DiffParser.extract_path DiffParser.core line = P
        /\ DiffParser.extract_path DiffParser.observer line = P).
Proof.
  intros Hlf. split; [now apply extract_path_core|]. split; [reflexivity|].
  intros P -> HP. rewrite (extract_path_core _ Hlf).
  cbn [DiffParser.extract_path DiffParser.observer].
  cbn [append].
  rewrite !split_once_step by reflexivity.
  change (P ++ String " " (String "b" (String "/" P))) with (P ++ " b/" ++ P).
  rewrite (split_b_after P P HP), (split_space_b_after P P HP). split; reflexivity.
Qed.

Lemma path_extraction_witness :
  DiffParser.extract_path DiffParser.core "diff --git a/src/auth.js b/src/auth.js"
  = "src/auth.js".
Proof.
  destruct (path_extraction "diff --git a/src/auth.js b/src/auth.js") as (_ & _ & H).
  - reflexivity.
  - destruct (H "src/auth.js") as [Hc _]; [reflexivity | reflexivity | exact Hc].
Defined.
(** ** Keywords of a single identifier, and the change summary *)

Section KeywordFacts.
Import Re ReSpec.

Lemma findall_skip_all (r : regex) (s : string) :
  findall_from r (String.length s) s = [].
Proof. induction s as [|c s IH]; cbn [findall_from String.length]; [reflexivity | exact IH]. Qed.

Lemma findall_length (r : regex) (s : string) :
  forall skip x, In x (findall_from r skip s) -> String.length x <= String.length s.
Proof.
  induction s as [|c s IH]; intros skip x H; cbn [findall_from] in H; [contradiction|].
  cbn [String.length].
  destruct skip as [|k]; [|apply IH in H; lia].
  destruct (match_here r (String c s)) as [[caps rest]|]; [|apply IH in H; lia].
  destruct (String.length (String c s) - String.length rest) as [|n] eqn:Hn;
    [apply IH in H; lia|].
  destruct H as [<-|H]; [|apply IH in H; lia].
  pose proof (substring_length_le (S n) (String c s)) as Hle.
  cbn [String.length] in Hn. lia.
Qed.

(** A text that is one identifier is matched whole. *)
Lemma identifier_matched_whole (w : string) :
  identifier_shaped w -> findall Matcher.re_identifier w = [w].
Proof.
  intros (c1 & w' & -> & H1 & Hall & Hlen).
  destruct w' as [|c2 [|c3 t]]; cbn [String.length] in Hlen; try lia.
  cbn [all_chars] in Hall.
  apply andb_true_iff in Hall as [H2 Hall]. apply andb_true_iff in Hall as [H3 Hall].
  assert (Hm : match_here Matcher.re_identifier (String c1 (String c2 (String c3 t)))
               = Some ([], "")).
  { unfold match_here, Matcher.re_identifier. cbn [rmatch].
    rewrite H1, H2, H3.
    now apply (star_takes_all Matcher.ident_char
                 (fun s caps => Some (caps, s)) ([], "") t []). }
  set (s2 := String c2 (String c3 t)) in *.
  unfold findall. cbn [findall_from]. rewrite Hm.
  cbn [String.length Nat.sub].
  rewrite (findall_skip_all Matcher.re_identifier s2).
  change (S (String.length s2)) with (String.length (String c1 s2)).
  now rewrite substring_all.
Qed.

End KeywordFacts.

(** X24: a text that is a single identifier of three or more characters
    yields that identifier as its only keyword, or nothing when it is one
    of the noise words; a text shorter than three characters has no
    keywords; and the keywords never hold a duplicate. *)
Theorem single_identifier_is_one_keyword (w : string) :
  (ReSpec.identifier_shaped w ->
   Matcher._extract_keywords w = if Py.mem w Matcher.noise then [] else [w])
  /\ (String.length w < 3 -> Matcher._extract_keywords w = [])
  /\ NoDup (Matcher._extract_keywords w).
Proof.
  split; [|split].
  - intros H. unfold Matcher._extract_keywords.
    rewrite (identifier_matched_whole w H).
    unfold Py.set_of, Py.diff. cbn [nodup].
    destruct (in_dec string_dec w []) as [[]|_]. cbn [filter].
    now destruct (Py.mem w Matcher.noise).
  - intros Hlen.
    destruct (Matcher._extract_keywords w) as [|x l] eqn:E; [reflexivity|].
    assert (Hin : In x (Matcher._extract_keywords w)) by (rewrite E; now left).
    pose proof (extract_keywords_shape w x Hin) as [(c & w' & _ & _ & _ & H3) _].
    unfold Matcher._extract_keywords, Py.diff, Py.set_of in Hin.
    apply filter_In in Hin as [Hin _]. apply nodup_In in Hin.
    apply findall_length in Hin. lia.
  - unfold Matcher._extract_keywords, Py.diff, Py.set_of.
    apply NoDup_filter, NoDup_nodup.
Qed.

Lemma single_identifier_is_one_keyword_witness :
  Matcher._extract_keywords "parseConfig" = ["parseConfig"]
  /\ Matcher._extract_keywords "import" = []
  /\ Matcher._extract_keywords "ab" = [].
Proof.
  split; [|split].
  - apply (proj1 (single_identifier_is_one_keyword "parseConfig")).
    exists "p"%char, "arseConfig". repeat split. cbn. lia.
  - apply (proj1 (single_identifier_is_one_keyword "import")).
    exists "i"%char, "mport". repeat split. cbn. lia.
  - apply (proj1 (proj2 (single_identifier_is_one_keyword "ab"))). cbn. lia.
Defined.
(** ** The change summary *)

Section SummaryFacts.
Import Models DiffParser DiffReport.

Lemma sections_markers (lines : list string) (m : string) (body : list string) :
  In (m, body) (sections lines) -> In m lines.
Proof.
  unfold sections. induction lines as [|l ls IH]; cbn [sections_from]; [intros []|].
  destruct (sections_from ls) as [pre secs]. cbn [snd] in IH.
  destruct (is_boundary l); cbn [snd]; intros H.
  - destruct H as [H|H]; [inversion H; now left | right; now apply IH].
  - right. now apply IH.
Qed.

Lemma drop_keeps_absent (c : ascii) (n : nat) (s : string) :
  Py.contains_char c s = false -> Py.contains_char c (Py.drop n s) = false.
Proof.
  revert s. induction n as [|n IH]; intros [|d s] H; cbn [Py.drop]; try assumption.
  apply IH. cbn [Py.contains_char] in H. now apply orb_false_iff in H as [_ H].
Qed.

(** The text after the separator is part of the text that was split. *)
Lemma split_once_keeps_absent (c : ascii) (sep s a b : string) :
  split_once sep s = Some (a, b) ->
  Py.contains_char c s = false -> Py.contains_char c b = false.
Proof.
  revert a. induction s as [|d s IH]; intros a H Hc; cbn [split_once] in H.
  - destruct (String.prefix sep ""); [|discriminate].
    inversion H; subst. now apply drop_keeps_absent.
  - destruct (String.prefix sep (String d s)).
    + inversion H; subst. now apply drop_keeps_absent.
    + destruct (split_once sep s) as [[a' b']|]; [|discriminate].
      inversion H; subst. apply (IH a' eq_refl).
      cbn [Py.contains_char] in Hc. now apply orb_false_iff in Hc as [_ Hc].
Qed.

Lemma extract_path_no_LF (D : dialect) (line : string) :
  D = core \/ D = observer ->
  Py.contains_char Py.LF line = false ->
  Py.contains_char Py.LF (extract_path D line) = false.
Proof.
  intros [-> | ->] H.
  - rewrite (extract_path_core line H).
    destruct (split_once "b/" line) as [[a b]|] eqn:E; [|reflexivity].
    eapply split_once_keeps_absent; eassumption.
  - cbn [extract_path observer].
    destruct (split_once " b/" line) as [[a b]|] eqn:E; [|reflexivity].
    eapply split_once_keeps_absent; eassumption.
Qed.

Lemma parsed_paths_no_LF (D : dialect) (raw : string) :
  D = core \/ D = observer ->
  Forall (fun d => Py.contains_char Py.LF (Models.file_path d) = false) (parse D raw).
Proof.
  intros HD. apply Forall_forall. intros fd Hin.
  apply parse_entry_origin in Hin as (m & body & Hsec & _ & _ & ->).
  cbn [Models.file_path]. apply extract_path_no_LF; [exact HD|].
  apply sections_markers in Hsec.
  pose proof (split_char_no_sep Py.LF raw) as Hall.
  rewrite Forall_forall in Hall. now apply Hall.
Qed.

Lemma uint_no_LF (u : Decimal.uint) :
  Py.contains_char Py.LF (DecimalString.NilEmpty.string_of_uint u) = false.
Proof. induction u; cbn [DecimalString.NilEmpty.string_of_uint Py.contains_char]; auto. Qed.

Lemma str_of_nat_no_LF (n : nat) : Py.contains_char Py.LF (str_of_nat n) = false.
Proof. apply uint_no_LF. Qed.

Lemma icon_no_LF (t : string) : Py.contains_char Py.LF (icon t) = false.
Proof. unfold icon. repeat (destruct (String.eqb _ _); [reflexivity|]). reflexivity. Qed.

Lemma summary_no_LF (f : DiffStats) :
  Py.contains_char Py.LF (file_path f) = false ->
  Py.contains_char Py.LF (summary f) = false.
Proof.
  intros H. unfold summary.
  destruct (lines_added f =? 0)%nat; destruct (lines_deleted f =? 0)%nat;
    cbn [List.app Py.nonempty Py.join String.concat]; try exact H;
    rewrite ?contains_char_app, ?H, ?str_of_nat_no_LF; reflexivity.
Qed.

Lemma stats_of_fields (d : FileDiff) :
  file_path (stats_of d) = Models.file_path d
  /\ change_type (stats_of d) = Models.change_type d.
Proof. unfold stats_of. rewrite fold_count_line. split; reflexivity. Qed.

End SummaryFacts.

(** X25: [generate_change_summary] answers "No code changes detected."
    for no diffs; for diffs whose paths hold no line feed it writes one
    headline, one empty line, and then one line per diff, in order, made
    of the icon of the diff's change type and the summary of its
    statistics; and every path that [parse_unified_diff] or
    [GitDiffCapture._parse_unified_diff] produces is such a path. *)
Theorem change_summary_one_line_per_file (diffs : list Models.FileDiff) :
  DiffReport.generate_change_summary [] = "No code changes detected."
  /\ (diffs <> [] ->
      Forall (fun d => Py.contains_char Py.LF (Models.file_path d) = false) diffs ->
      exists head,
        Py.split_char Py.LF (DiffReport.generate_change_summary diffs)
        = head :: "" ::
            map (fun d => "  " ++ DiffReport.icon (Models.change_type d) ++ " "
                          ++ DiffReport.summary (DiffReport.stats_of d)) diffs
        /\ Py.contains_char Py.LF head = false
        /\ length (Py.split_char Py.LF (DiffReport.generate_change_summary diffs))
           = 2 + length diffs)
  /\ (forall raw,
        diffs = DiffParser.parse_unified_diff raw
        \/ diffs = DiffParser._parse_unified_diff raw ->
        Forall (fun d => Py.contains_char Py.LF (Models.file_path d) = false) diffs).
Proof.
  split; [reflexivity|]. split.
  - intros Hne Hall. unfold DiffReport.generate_change_summary.
    destruct diffs as [|d0 ds]; [congruence|].
    cbn [Py.nonempty negb].
    set (stats := DiffReport.calculate_diff_stats (d0 :: ds)).
    set (head := "Changed " ++ DiffReport.str_of_nat (DiffReport.total_files stats)
                 ++ " file(s): +"
                 ++ DiffReport.str_of_nat (DiffReport.total_additions stats)
                 ++ " additions, -"
                 ++ DiffReport.str_of_nat (DiffReport.total_deletions stats)
                 ++ " deletions").
    assert (Hhead : Py.contains_char Py.LF head = false).
    { unfold head. now rewrite !contains_char_app, !str_of_nat_no_LF. }
    assert (Hmap : map (fun f => "  " ++ DiffReport.icon (DiffReport.change_type f) ++ " "
                                 ++ DiffReport.summary f) (DiffReport.files stats)
                   = map (fun d => "  " ++ DiffReport.icon (Models.change_type d) ++ " "
                                   ++ DiffReport.summary (DiffReport.stats_of d))
                         (d0 :: ds)).
    { unfold stats, DiffReport.calculate_diff_stats. cbn [DiffReport.files].
      rewrite map_map. apply map_ext. intros d.
      now rewrite (proj2 (stats_of_fields d)). }
    rewrite Hmap. exists head.
    assert (Hsplit : Py.split_char Py.LF
                       (Py.join (String Py.LF "")
                          (head :: "" ::
                             map (fun d => "  " ++ DiffReport.icon (Models.change_type d)
                                           ++ " "
                                           ++ DiffReport.summary (DiffReport.stats_of d))
                                 (d0 :: ds)))
                     = head :: "" ::
                         map (fun d => "  " ++ DiffReport.icon (Models.change_type d)
                                       ++ " "
                                       ++ DiffReport.summary (DiffReport.stats_of d))
                             (d0 :: ds)).
    { apply split_join; [discriminate|].
      constructor; [exact Hhead|]. constructor; [reflexivity|].
      apply Forall_map. eapply Forall_impl; [|exact Hall].
      intros d Hd. cbn beta.
      rewrite !contains_char_app, icon_no_LF.
      rewrite summary_no_LF by now rewrite (proj1 (stats_of_fields d)).
      reflexivity. }
    rewrite Hsplit. split; [reflexivity|]. split; [exact Hhead|].
    cbn [length]. now rewrite length_map.
  - intros raw [-> | ->].
    + apply (parsed_paths_no_LF DiffParser.core raw). now left.
    + rewrite observer_parse. apply (parsed_paths_no_LF DiffParser.observer raw). now right.
Qed.

Lemma change_summary_one_line_per_file_witness :
  length (Py.split_char Py.LF
            (DiffReport.generate_change_summary
               (DiffParser.parse_unified_diff Samples.diff_x)))
  = 3.
Proof.
  destruct (change_summary_one_line_per_file
              (DiffParser.parse_unified_diff Samples.diff_x)) as (_ & H & Hp).
  destruct H as (head & _ & _ & Hlen).
  - vm_compute. discriminate.
  - apply (Hp Samples.diff_x). now left.
  - rewrite Hlen. reflexivity.
Defined.
(** ** The polling callers of the matcher *)

Section ScanFacts.
Import Models Matcher.

Lemma add_all_state (convs : list Base.RawConversation) (ide_enum : SourceIDE) :
  forall m,
    Callers.add_all m convs ide_enum
    = {| window := window m;
         _pending_prompts := (_pending_prompts m ++ map (More2.queued ide_enum) convs)%list;
         _file_changes := _file_changes m |}.
Proof.
  unfold Callers.add_all.
  induction convs as [|c convs IH]; intros m; cbn [fold_left map].
  - rewrite app_nil_r. now destruct m.
  - rewrite IH. unfold add_prompt. cbn [window _pending_prompts _file_changes].
    now rewrite <- app_assoc.
Qed.

Lemma or_else_empty (a : string) : or_else a "" = a.
Proof. now destruct a. Qed.

Lemma queued_bare (self : TemporalMatcher) (node_id : string)
  (ide_enum : SourceIDE) (convo : Base.RawConversation) :
  _file_changes self = [] ->
  exists node score,
    flush_body self None node_id (More2.queued ide_enum convo) = Ok (node, score)
    /\ More2.bare_node convo ide_enum node.
Proof.
  intros Hc. unfold flush_body, More2.queued, _find_changes_in_window.
  rewrite Hc. cbn [filter]. rewrite acquire_diffs_no_capture.
  cbn [bind map]. eexists. eexists. split; [reflexivity|].
  unfold More2.bare_node. cbn. rewrite or_else_empty.
  repeat split; reflexivity.
Qed.

Lemma flush_loop_bare (self : TemporalMatcher) (uuid4 : nat -> string)
  (entries : list (Base.RawConversation * SourceIDE)) :
  _file_changes self = [] ->
  forall n, exists out,
    flush_loop self None uuid4 n (map (fun e => More2.queued (snd e) (fst e)) entries) = Ok out
    /\ Forall2 (fun e node => More2.bare_node (fst e) (snd e) node) entries (map fst out).
Proof.
  intros Hc. induction entries as [|[convo ide_enum] rest IH]; intros n;
    cbn [map flush_loop fst snd].
  - exists []. split; [reflexivity | constructor].
  - destruct (queued_bare self (uuid4 n) ide_enum convo Hc) as (node & score & -> & Hb).
    destruct (IH (S n)) as (out & -> & Hout). cbn [bind].
    exists ((node, score) :: out). split; [reflexivity|].
    cbn [map fst]. now constructor.
Qed.

Lemma flush_bare (self : TemporalMatcher) (now : Z) (uuid4 : nat -> string)
  (entries : list (Base.RawConversation * SourceIDE)) :
  _file_changes self = [] ->
  _pending_prompts self = map (fun e => More2.queued (snd e) (fst e)) entries ->
  exists nodes self',
    flush self now None uuid4 = (Ok nodes, self')
    /\ _pending_prompts self' = [] /\ _file_changes self' = []
    /\ window self' = window self
    /\ Forall2 (fun e node => More2.bare_node (fst e) (snd e) node) entries nodes.
Proof.
  intros Hc Hp. unfold flush. rewrite Hp.
  destruct (flush_loop_bare self uuid4 entries Hc 0) as (out & -> & Hout).
  eexists. eexists. split; [reflexivity|].
  cbn [_pending_prompts _file_changes window]. rewrite Hc. now repeat split.
Qed.

Lemma background_state (polled : list (list Base.RawConversation * SourceIDE)) :
  forall m,
    fold_left (fun m (a : list Base.RawConversation * SourceIDE) =>
                 Callers.add_all m (fst a) (snd a)) polled m
    = {| window := window m;
         _pending_prompts :=
           (_pending_prompts m
            ++ map (fun e => More2.queued (snd e) (fst e)) (More2.tagged polled))%list;
         _file_changes := _file_changes m |}.
Proof.
  induction polled as [|[convs ide_enum] rest IH]; intros m;
    cbn [fold_left More2.tagged flat_map map fst snd].
  - rewrite app_nil_r. now destruct m.
  - rewrite IH, add_all_state. cbn [window _pending_prompts _file_changes].
    fold (More2.tagged rest). rewrite map_app, map_map, app_assoc. reflexivity.
Qed.

End ScanFacts.

(** X26: the polling callers of the matcher ([scan] and [_background_scan]
    in cli/main.py, the import in server/app.py) queue conversations and
    flush without a diff capture on a matcher that never receives a file
    change.  From a matcher with an empty queue and an empty history, the
    flush returns exactly one node per queued conversation, in order, with
    the timestamp, prompt and response of the conversation, the IDE of its
    adapter, the project name of the conversation, its project path (or
    else its project name) as project id, and no diffs and no affected
    files; and it leaves the matcher with an empty queue and an empty
    history again, so the next adapter starts from the same state. *)
Theorem scan_saves_one_bare_node_per_conversation (matcher : Matcher.TemporalMatcher)
  (conversations : list Base.RawConversation) (ide_enum : Models.SourceIDE)
  (polled : list (list Base.RawConversation * Models.SourceIDE))
  (now : Z) (uuid4 : nat -> string) :
  Matcher._pending_prompts matcher = [] ->
  Matcher._file_changes matcher = [] ->
  (exists nodes matcher',
     Callers.scan_adapter matcher conversations ide_enum now uuid4 = (Ok nodes, matcher')
     /\ Matcher._pending_prompts matcher' = []
     /\ Matcher._file_changes matcher' = []
     /\ Forall2 (fun convo node => More2.bare_node convo ide_enum node) conversations nodes)
  /\ (exists nodes matcher',
        Callers.background_round polled now uuid4 = (Ok nodes, matcher')
        /\ Forall2 (fun e node => More2.bare_node (fst e) (snd e) node)
                   (More2.tagged polled) nodes).
Proof.
  intros Hp Hc. split.
  - unfold Callers.scan_adapter.
    destruct (flush_bare (Callers.add_all matcher conversations ide_enum) now uuid4
                (map (fun convo => (convo, ide_enum)) conversations))
      as (nodes & m' & Hf & Hp' & Hc' & _ & Hall).
    + rewrite add_all_state. exact Hc.
    + rewrite add_all_state. cbn [Matcher._pending_prompts]. rewrite Hp, map_map.
      reflexivity.
    + exists nodes, m'. repeat split; try assumption.
      clear Hf. revert nodes Hall.
      induction conversations as [|c cs IH]; intros nodes Hall; inversion Hall; subst;
        constructor; auto.
  - unfold Callers.background_round.
    destruct (flush_bare
                (fold_left (fun m (a : list Base.RawConversation * Models.SourceIDE) =>
                              Callers.add_all m (fst a) (snd a))
                           polled (Matcher.__init__ Matcher.DEFAULT_WINDOW_SECONDS))
                now uuid4 (More2.tagged polled))
      as (nodes & m' & Hf & _ & _ & _ & Hall).
    + now rewrite background_state.
    + now rewrite background_state.
    + exists nodes, m'. now split.
Qed.

Lemma scan_saves_one_bare_node_per_conversation_witness :
  exists nodes matcher',
    Callers.scan_adapter (Matcher.__init__ Matcher.DEFAULT_WINDOW_SECONDS)
      [Scenario.convo 0] Models.CURSOR 0%Z (fun _ => "node")
    = (Ok nodes, matcher')
    /\ length nodes = 1.
Proof.
  destruct (scan_saves_one_bare_node_per_conversation
              (Matcher.__init__ Matcher.DEFAULT_WINDOW_SECONDS)
              [Scenario.convo 0] Models.CURSOR [] 0%Z (fun _ => "node")
              eq_refl eq_refl) as [(nodes & m' & Hf & _ & _ & Hall) _].
  exists nodes, m'. split; [exact Hf|].
  inversion Hall as [|? ? ? ? _ Hrest]; subst. inversion Hrest; subst. reflexivity.
Defined.
